(** * The real-time chat core: consumers, REST mirror, models, serializers

    A shallow embedding of [chat/consumers.py], [chat/views.py],
    [chat/models.py] and [chat/serializers.py], with what they rely on
    of [shared/tz_mixins.py], of the ORM and the REST framework, and of
    the consumer class of Channels.

    - Python [str] values are lists of Unicode code points.
    - Database tables are finite maps keyed by their primary key or by
      their [unique_together] columns.
    - A handler is a computation in the monad [M]: it threads the
      database, accumulates the effects it performs on the socket and on
      the channel layer, and may raise a Python exception.
    - Values that the Python code draws from its environment
      ([timezone.now()], [uuid.uuid4()], the randomness of Fernet) are
      the fields of an [Env] that each entry point receives. *)

From stdpp Require Import gmap strings list fin_maps.
From Stdlib Require Import ZArith NArith Ascii String.

Set Warnings "-register-all".
Open Scope Z_scope.

(** ** Python strings *)

Module Py.

Abbreviation str := (list N).

Fixpoint lit (s : string) : str :=
  match s with
  | EmptyString => []
  | String a s' => N_of_ascii a :: lit s'
  end.

(** [str.isspace] for one code point: the table of CPython's
    [_PyUnicode_IsWhitespace]. *)
Definition isspace (c : N) : bool :=
  ((9 <=? c) && (c <=? 13) || (28 <=? c) && (c <=? 32)
   || (c =? 133) || (c =? 160) || (c =? 5760)
   || (8192 <=? c) && (c <=? 8202)
   || (c =? 8232) || (c =? 8233) || (c =? 8239) || (c =? 8287)
   || (c =? 12288))%N.

Fixpoint lstrip (s : str) : str :=
  match s with
  | [] => []
  | c :: s' => if isspace c then lstrip s' else s
  end.

Definition rstrip (s : str) : str := rev (lstrip (rev s)).

(** [s.strip()] *)
Definition strip (s : str) : str := rstrip (lstrip s).

(** Truth value of a string: [not s] holds exactly for the empty one. *)
Definition truthy (s : str) : bool :=
  match s with [] => false | _ => true end.

(** JSON values as [json.loads] returns them (numbers are integers). *)
Inductive json :=
| JNull
| JBool (b : bool)
| JInt (z : Z)
| JStr (s : str)
| JList (l : list json)
| JDict (d : list (str * json)).

Definition json_truthy (j : json) : bool :=
  match j with
  | JNull => false
  | JBool b => b
  | JInt z => negb (z =? 0)
  | JStr s => truthy s
  | JList l => match l with [] => false | _ => true end
  | JDict d => match d with [] => false | _ => true end
  end.

(** [d.get(k)] on a dict kept as an association list. *)
Fixpoint dict_get (d : list (str * json)) (k : str) : option json :=
  match d with
  | [] => None
  | (k', v) :: d' => if decide (k' = k) then Some v else dict_get d' k
  end.

(** Exceptions, with the text [str(e)] gives. *)
Inductive exn :=
| Http404 (msg : str)
| DoesNotExist (model : str)
| IntegrityError (msg : str)
| AttributeError (msg : str)
| ValidationError (msg : str)
| DatabaseError (msg : str)
| TypeError (msg : str)
| Exception (msg : str).

Definition exn_str (e : exn) : str :=
  match e with
  | Http404 m | IntegrityError m | AttributeError m
  | ValidationError m | DatabaseError m | TypeError m | Exception m => m
  | DoesNotExist model => model ++ lit " matching query does not exist."
  end.

End Py.

Import Py.

(** ** The cryptography and codec libraries

    [cryptography.fernet.Fernet] and the UTF-8 codec of [str.encode] and
    [bytes.decode] are libraries outside the repository: an interface,
    and the laws of it that the models rely on. A failing call (an
    exception in Python) is [None]. [Fernet_encrypt] draws an
    initialisation vector and reads the clock; both are arguments. *)

Class FernetLib := {
  bytes : Type;
  encode : str -> option bytes;
  decode : bytes -> option str;
  Fernet : Type;
  Fernet_new : bytes -> option Fernet;
  Fernet_encrypt : Fernet -> N -> Z -> bytes -> bytes;
  Fernet_decrypt : Fernet -> bytes -> option bytes;
}.

Class FernetLaws `{FernetLib} := {
  decrypt_encrypt : forall f iv t d,
    Fernet_decrypt f (Fernet_encrypt f iv t d) = Some d;
  decode_encode : forall s b, encode s = Some b -> decode b = Some s;
  encode_decode : forall b s, decode b = Some s -> encode s = Some b;
  token_text : forall f iv t d,
    exists s, decode (Fernet_encrypt f iv t d) = Some s /\ s <> [];
}.

(** ** The data model ([chat/models.py], [accounts/models.py]) *)

Record Profile := {
  company_name : option str;
  profile_picture : option str;
}.

Record Account := {
  acc_id : str;
  email : str;
  full_name : option str;
  profile : option Profile;
}.

(** [request.user] and [self.user]: an account or Django's
    [AnonymousUser]. *)
Inductive User :=
| AnonymousUser
| Acct (a : Account).

Definition is_authenticated (u : User) : bool :=
  match u with AnonymousUser => false | Acct _ => true end.

Record Conversation := {
  conversation_id : str;
  participants : gset str;
  name : option str;
  is_group : bool;
  created_at : Z;
  updated_at : Z;
  created_by : option str;
  encryption_key : option str;
}.

Record Message := {
  message_id : str;
  conversation : str;
  sender : str;
  content : str;
  timestamp : Z;
  message_type : str;
  attachment : option str;
  is_edited : bool;
  edited_at : option Z;
  is_deleted : bool;
  deleted_at : option Z;
  reply_to : option str;
}.

Record UserStatus := {
  status : str;
  last_seen : Z;
  is_typing_in : option str;
  typing_started_at : option Z;
}.

(** [MessageReaction.REACTION_CHOICES], the keys. *)
Definition REACTION_CHOICES : list str :=
  [lit "like"; lit "love"; lit "laugh"; lit "wow"; lit "sad"; lit "angry"].

(** The database. A table with a primary key is a map from the key; a
    table with [unique_together] columns is a map from those columns to
    the remaining one (a timestamp):
    - [read_statuses], [message_deletions]: (message, user);
    - [reactions]: (message, user, reaction);
    - [conversation_deletions]: (conversation, user);
    - [user_statuses]: the one-to-one user. *)
Record Store := {
  accounts : gmap str Account;
  conversations : gmap str Conversation;
  messages : gmap str Message;
  read_statuses : gmap (str * str) Z;
  reactions : gmap (str * str * str) Z;
  user_statuses : gmap str UserStatus;
  message_deletions : gmap (str * str) Z;
  conversation_deletions : gmap (str * str) Z;
}.

(** What one call draws from outside: the clock, a fresh UUID, the
    initialisation vector of Fernet and a freshly generated Fernet key.
    Every [timezone.now()] of one call reads the same instant. *)
Record Env := {
  now : Z;
  uuid4 : str;
  iv : N;
  generate_key : str;
}.

(** ** Serialized data ([chat/serializers.py]) *)

Record UserData := {
  ud_acc_id : str;
  ud_email : str;
  ud_display_name : str;
  ud_profile_picture : option str;
  ud_status : str * option Z;
}.

Record ReplyData := {
  rd_message_id : str;
  rd_content : str;
  rd_sender : UserData;
}.

(** [MessageSerializer(...).data], without the nested [reactions] list
    and the [reaction_counts] dict. The attachment is the URL of the
    file, a time is the instant that its text denotes, and the type is
    the text of the column. *)
Record MessageData := {
  md_message_id : str;
  md_content : option str;
  md_timestamp : Z;
  md_message_type : str;
  md_attachment : option str;
  md_sender : UserData;
  md_is_edited : bool;
  md_edited_at : option Z;
  md_reply_to : option ReplyData;
  md_is_deleted_by_me : bool;
}.

Record ReactionData := {
  rx_reaction : str;
  rx_user : UserData;
  rx_created_at : Z;
}.

(** ** Channel-layer events and frames on the wire *)

(** The dict given to [channel_layer.group_send]; the constructor is its
    ["type"], which names the consumer method that handles it. *)
Inductive Event :=
| Ev_chat_message_broadcast (message : MessageData)
| Ev_message_edited_broadcast (message : MessageData)
| Ev_message_deleted_broadcast (mid : json) (user_data : UserData) (ts : Z)
| Ev_message_restored_broadcast (message : MessageData)
| Ev_reaction_broadcast (mid : json) (reaction : json) (user_data : UserData)
    (action : str) (reaction_data : option ReactionData) (ts : Z)
| Ev_read_receipt_broadcast (mid : json) (user_data : UserData) (read_at : Z)
| Ev_user_typing_broadcast (user_data : UserData) (is_typing : json) (ts : Z)
| Ev_status_broadcast (user_data : UserData) (st : str) (ts : Z).

Definition event_type (e : Event) : str :=
  match e with
  | Ev_chat_message_broadcast _ => lit "chat_message_broadcast"
  | Ev_message_edited_broadcast _ => lit "message_edited_broadcast"
  | Ev_message_deleted_broadcast _ _ _ => lit "message_deleted_broadcast"
  | Ev_message_restored_broadcast _ => lit "message_restored_broadcast"
  | Ev_reaction_broadcast _ _ _ _ _ _ => lit "reaction_broadcast"
  | Ev_read_receipt_broadcast _ _ _ => lit "read_receipt_broadcast"
  | Ev_user_typing_broadcast _ _ _ => lit "user_typing_broadcast"
  | Ev_status_broadcast _ _ _ => lit "status_broadcast"
  end.

(** The JSON object a consumer writes to its own socket; the constructor
    is its ["type"]. *)
Inductive Frame :=
| F_chat_message (message : MessageData)
| F_message_edited (message : MessageData)
| F_message_deleted (mid : json) (user_data : UserData) (ts : Z)
| F_message_restored (message : MessageData)
| F_reaction (mid : json) (reaction : json) (user_data : UserData)
    (action : str) (reaction_data : option ReactionData) (ts : Z)
| F_read_receipt (mid : json) (user_data : UserData) (read_at : Z)
| F_user_typing (user_data : UserData) (is_typing : json) (ts : Z)
| F_user_status (user_data : UserData) (st : str) (ts : Z)
| F_pong (ts : Z)
| F_error (message : str) (ts : Z).

(** What a consumer does to the outside. *)
Inductive Effect :=
| Send (f : Frame)
| GroupSend (group : str) (e : Event)
| GroupAdd (group : str) (channel : str)
| GroupDiscard (group : str) (channel : str)
| Accept
| Close (code : Z).

(** ** Consumers, scopes and responses *)

(** What [connect] reads of the ASGI scope: the conversation of the URL
    route, the first [token] of the query string, and [scope["user"]]. *)
Record Scope := {
  url_conversation_id : str;
  query_token : option str;
  scope_user : option User;
}.

(** What a user object holds of its [status], the reverse side of the
    one-to-one [UserStatus.user], which Django caches on the object:
    nothing before the first look ([None]); after it, that there was
    no row ([Some None]) or the instance that was read or created
    ([Some (Some us)]). A later look returns what is cached and does
    not read the table again. *)
Definition StatusCache : Type := option (option UserStatus).

(** The attributes of a [ChatConsumer] instance; [self_user = None] is
    Python's [None], and [status_cache] is the cache of the object
    [self.user], which lives as long as the connection. *)
Record Consumer := {
  channel_name : str;
  self_conversation_id : str;
  room_group_name : str;
  self_user : option User;
  status_cache : StatusCache;
}.

(** The response of a REST view. *)
Record Response := {
  status_code : Z;
  body : list (string * str);
}.

(** ** The handler monad *)

Definition M (A : Type) : Type := Store -> Store * list Effect * (exn + A).

Definition ret {A} (a : A) : M A := fun s => (s, [], inr a).

Definition bind {A B} (m : M A) (k : A -> M B) : M B :=
  fun s =>
    match m s with
    | (s1, es1, inl e) => (s1, es1, inl e)
    | (s1, es1, inr a) =>
        let '(s2, es2, r) := k a s1 in (s2, es1 ++ es2, r)
    end.

Definition raise {A} (e : exn) : M A := fun s => (s, [], inl e).

(** [try: m except Exception as e: h e] *)
Definition try_except {A} (m : M A) (h : exn -> M A) : M A :=
  fun s =>
    match m s with
    | (s1, es1, inl e) =>
        let '(s2, es2, r) := h e s1 in (s2, es1 ++ es2, r)
    | ok => ok
    end.

Definition get : M Store := fun s => (s, [], inr s).
Definition put (s : Store) : M unit := fun _ => (s, [], inr tt).
Definition emit (e : Effect) : M unit := fun s => (s, [e], inr tt).

#[export] Instance M_ret : MRet M := @ret.
#[export] Instance M_bind : MBind M := fun A B k m => bind m k.

Definition or_raise {A} (o : option A) (e : exn) : M A :=
  match o with Some a => ret a | None => raise e end.

(** ** Field updates *)

Definition with_encryption_key (k : option str) (c : Conversation) :=
  {| conversation_id := conversation_id c; participants := participants c;
     name := name c; is_group := is_group c; created_at := created_at c;
     updated_at := updated_at c; created_by := created_by c;
     encryption_key := k |}.

Definition with_updated_at (t : Z) (c : Conversation) :=
  {| conversation_id := conversation_id c; participants := participants c;
     name := name c; is_group := is_group c; created_at := created_at c;
     updated_at := t; created_by := created_by c;
     encryption_key := encryption_key c |}.

Definition with_content (x : str) (m : Message) :=
  {| message_id := message_id m; conversation := conversation m;
     sender := sender m; content := x; timestamp := timestamp m;
     message_type := message_type m; attachment := attachment m;
     is_edited := is_edited m; edited_at := edited_at m;
     is_deleted := is_deleted m; deleted_at := deleted_at m;
     reply_to := reply_to m |}.

Definition with_edited (t : Z) (m : Message) :=
  {| message_id := message_id m; conversation := conversation m;
     sender := sender m; content := content m; timestamp := timestamp m;
     message_type := message_type m; attachment := attachment m;
     is_edited := true; edited_at := Some t;
     is_deleted := is_deleted m; deleted_at := deleted_at m;
     reply_to := reply_to m |}.

Definition with_attachment (x : option str) (m : Message) :=
  {| message_id := message_id m; conversation := conversation m;
     sender := sender m; content := content m; timestamp := timestamp m;
     message_type := message_type m; attachment := x;
     is_edited := is_edited m; edited_at := edited_at m;
     is_deleted := is_deleted m; deleted_at := deleted_at m;
     reply_to := reply_to m |}.

Definition with_status_cache (c : StatusCache) (self : Consumer) :=
  {| channel_name := channel_name self;
     self_conversation_id := self_conversation_id self;
     room_group_name := room_group_name self; self_user := self_user self;
     status_cache := c |}.

Definition with_status (x : str) (t : Z) (u : UserStatus) :=
  {| status := x; last_seen := t; is_typing_in := is_typing_in u;
     typing_started_at := typing_started_at u |}.

Definition with_typing (c : option str) (t : option Z) (u : UserStatus) :=
  {| status := status u; last_seen := last_seen u; is_typing_in := c;
     typing_started_at := t |}.

Definition set_conversations (f : gmap str Conversation -> gmap str Conversation)
    (s : Store) : Store :=
  {| accounts := accounts s; conversations := f (conversations s);
     messages := messages s; read_statuses := read_statuses s;
     reactions := reactions s; user_statuses := user_statuses s;
     message_deletions := message_deletions s;
     conversation_deletions := conversation_deletions s |}.

Definition set_messages (f : gmap str Message -> gmap str Message)
    (s : Store) : Store :=
  {| accounts := accounts s; conversations := conversations s;
     messages := f (messages s); read_statuses := read_statuses s;
     reactions := reactions s; user_statuses := user_statuses s;
     message_deletions := message_deletions s;
     conversation_deletions := conversation_deletions s |}.

Definition set_read_statuses (f : gmap (str * str) Z -> gmap (str * str) Z)
    (s : Store) : Store :=
  {| accounts := accounts s; conversations := conversations s;
     messages := messages s; read_statuses := f (read_statuses s);
     reactions := reactions s; user_statuses := user_statuses s;
     message_deletions := message_deletions s;
     conversation_deletions := conversation_deletions s |}.

Definition set_reactions
    (f : gmap (str * str * str) Z -> gmap (str * str * str) Z)
    (s : Store) : Store :=
  {| accounts := accounts s; conversations := conversations s;
     messages := messages s; read_statuses := read_statuses s;
     reactions := f (reactions s); user_statuses := user_statuses s;
     message_deletions := message_deletions s;
     conversation_deletions := conversation_deletions s |}.

Definition set_user_statuses (f : gmap str UserStatus -> gmap str UserStatus)
    (s : Store) : Store :=
  {| accounts := accounts s; conversations := conversations s;
     messages := messages s; read_statuses := read_statuses s;
     reactions := reactions s; user_statuses := f (user_statuses s);
     message_deletions := message_deletions s;
     conversation_deletions := conversation_deletions s |}.

Definition set_message_deletions
    (f : gmap (str * str) Z -> gmap (str * str) Z) (s : Store) : Store :=
  {| accounts := accounts s; conversations := conversations s;
     messages := messages s; read_statuses := read_statuses s;
     reactions := reactions s; user_statuses := user_statuses s;
     message_deletions := f (message_deletions s);
     conversation_deletions := conversation_deletions s |}.

(** ** Lookups of the ORM *)

(** The row a foreign key points to. *)
Definition fk_conversation (cid : str) : M Conversation :=
  s ← get; or_raise (conversations s !! cid) (DoesNotExist (lit "Conversation")).

Definition fk_account (uid : str) : M Account :=
  s ← get; or_raise (accounts s !! uid) (DoesNotExist (lit "Account")).

(** [UserStatus.objects.get_or_create(user=...)]: the row and whether
    it was created; the defaults of a new row are status ["offline"],
    [last_seen] now, no typing. *)
Definition get_or_create_user_status (env : Env) (uid : str)
    : M (UserStatus * bool) :=
  s ← get;
  match user_statuses s !! uid with
  | Some us => mret (us, false)
  | None =>
      let us := {| status := lit "offline"; last_seen := now env;
                   is_typing_in := None; typing_started_at := None |} in
      put (set_user_statuses <[uid := us]> s) ;; mret (us, true)
  end.

(** ** The other libraries

    - [to_uuid]: [UUIDField.to_python], the canonical text of the UUID
      that a value denotes; [None] is its [ValidationError]. Keys of
      UUID columns are canonical texts.
    - [py_repr]: [str(value)] of a value that is not a string.
    - [json_loads]: [json.loads]; [None] is [JSONDecodeError].
    - [UntypedToken]: whether [UntypedToken(token)] accepts the token.
    - [jwt_decode]: the claims of the token; [None] when [jwt.decode]
      raises.
    - [file_url]: [storage.url(name)], the URL under which the file
      storage serves the file of a name.
    - [build_absolute_uri]: [HttpRequest.build_absolute_uri] of the
      request that a view serves. *)
Class WebLib := {
  to_uuid : json -> option str;
  py_repr : json -> str;
  json_loads : str -> option json;
  UntypedToken : str -> bool;
  jwt_decode : str -> option (list (str * json));
  file_url : str -> str;
  build_absolute_uri : str -> str;
}.

(** ** Example data

    Small instances of the libraries, and a database with two accounts,
    one conversation and one message, on which the statements below are
    exercised. *)

Module Ex.

(** A Fernet whose keys are 44 characters long and whose token is a
    mark followed by the shifted plaintext. *)
Definition fernet : FernetLib :=
  {| bytes := list N;
     encode := Some;
     decode := Some;
     Fernet := list N;
     Fernet_new := fun kb => if bool_decide (List.length kb = 44%nat) then Some kb else None;
     Fernet_encrypt := fun f _ _ d => 103%N :: map (N.add (N.of_nat (List.length f))) d;
     Fernet_decrypt := fun f tok =>
       match tok with
       | c :: d => if (c =? 103)%N
                   then Some (map (fun x => x - N.of_nat (List.length f))%N d)
                   else None
       | [] => None
       end |}.

(** A JSON string literal, and the text of an object with the one
    member ["type"]. *)
Definition quoted (x : string) : str := 34%N :: lit x ++ [34%N].

Definition frame_of_type (t : string) : str :=
  lit "{" ++ quoted "type" ++ lit ":" ++ quoted t ++ lit "}".

(** UUIDs are their own canonical text; [json_loads] knows the frames
    of the examples; one token is valid, for the account [u1]. *)
Definition web : WebLib :=
  {| to_uuid := fun j => match j with JStr k => Some k | _ => None end;
     py_repr := fun _ => lit "?";
     json_loads := fun text =>
       if bool_decide (text = frame_of_type "read_receipt")
       then Some (JDict [(lit "type", JStr (lit "read_receipt"))])
       else if bool_decide (text = frame_of_type "dance")
       then Some (JDict [(lit "type", JStr (lit "dance"))])
       else None;
     UntypedToken := fun t => bool_decide (t = lit "token-of-u1");
     jwt_decode := fun t =>
       if bool_decide (t = lit "token-of-u1")
       then Some [(lit "user_id", JStr (lit "u1"))] else None;
     file_url := fun name => lit "/media/" ++ name;
     build_absolute_uri := fun url => lit "http://testserver" ++ url |}.

Definition alice : Account :=
  {| acc_id := lit "u1"; email := lit "alice@example.org";
     full_name := Some (lit "Alice"); profile := None |}.

Definition bob : Account :=
  {| acc_id := lit "u2"; email := lit "bob@example.org";
     full_name := None; profile := None |}.

Definition key : str := lit "0123456789abcdefghijABCDEFGHIJ0123456789-_0=".

Definition conv : Conversation :=
  {| conversation_id := lit "c1"; participants := {[lit "u1"; lit "u2"]};
     name := None; is_group := false; created_at := 0; updated_at := 0;
     created_by := Some (lit "u1"); encryption_key := Some key |}.

Definition msg : Message :=
  {| message_id := lit "m1"; conversation := lit "c1"; sender := lit "u1";
     content := lit "hello"; timestamp := 10; message_type := lit "text";
     attachment := None; is_edited := false; edited_at := None;
     is_deleted := false; deleted_at := None; reply_to := None |}.

Definition store : Store :=
  {| accounts := {[lit "u1" := alice; lit "u2" := bob]};
     conversations := {[lit "c1" := conv]};
     messages := {[lit "m1" := msg]};
     read_statuses := ∅; reactions := ∅; user_statuses := ∅;
     message_deletions := ∅; conversation_deletions := ∅ |}.

(** [bob] has soft-deleted the message. *)
Definition store_deleted : Store :=
  set_message_deletions <[(lit "m1", lit "u2") := 20]> store.

Definition env : Env :=
  {| now := 1000; uuid4 := lit "m2"; iv := 7%N; generate_key := key |}.

(** A connection of the account [a] to the example conversation, whose
    user object has not looked at its status yet. *)
Definition consumer (channel : string) (a : Account) : Consumer :=
  {| channel_name := lit channel; self_conversation_id := lit "c1";
     room_group_name := lit "chat_c1"; self_user := Some (Acct a);
     status_cache := None |}.

(** Two connections of [alice], one of [bob]. *)
Definition conn_a1 : Consumer := consumer "chan.a1" alice.
Definition conn_a2 : Consumer := consumer "chan.a2" alice.
Definition conn_b : Consumer := consumer "chan.b" bob.

(** The frame with which a client reacts to the message with a like. *)
Definition like_m1 : list (str * json) :=
  [(lit "type", JStr (lit "reaction")); (lit "message_id", JStr (lit "m1"));
   (lit "reaction", JStr (lit "like"))].


(** The frames with which a client deletes, and edits, the example
    message. *)
Definition delete_m1 : list (str * json) :=
  [(lit "type", JStr (lit "message_delete")); (lit "message_id", JStr (lit "m1"))].

Definition edit_m1 : list (str * json) :=
  [(lit "type", JStr (lit "message_edit")); (lit "message_id", JStr (lit "m1"));
   (lit "message", JStr (lit "new text"))].

(** Handshakes: with the token of [alice] for her conversation, with a
    token that does not verify, and with her token for a conversation
    that does not exist. *)
Definition scope_alice : Scope :=
  {| url_conversation_id := lit "c1"; query_token := Some (lit "token-of-u1");
     scope_user := Some AnonymousUser |}.

Definition scope_forged : Scope :=
  {| url_conversation_id := lit "c1"; query_token := Some (lit "forged");
     scope_user := Some AnonymousUser |}.

Definition scope_elsewhere : Scope :=
  {| url_conversation_id := lit "c9"; query_token := Some (lit "token-of-u1");
     scope_user := Some AnonymousUser |}.

Definition ud_alice : UserData :=
  {| ud_acc_id := lit "u1"; ud_email := lit "alice@example.org";
     ud_display_name := lit "Alice"; ud_profile_picture := None;
     ud_status := (lit "offline", None) |}.

(** A later instant of the example clock, [d] microseconds on. *)
Definition later (d : Z) : Env :=
  {| now := now env + d; uuid4 := uuid4 env; iv := iv env;
     generate_key := generate_key env |}.

(** A library whose [json_loads] knows the texts of a table, and is
    otherwise the example library. *)
Fixpoint table_get (table : list (str * json)) (text : str) : option json :=
  match table with
  | [] => None
  | (t, j) :: table' => if bool_decide (t = text) then Some j else table_get table' text
  end.

Definition web_of (table : list (str * json)) : WebLib :=
  {| to_uuid := to_uuid (WebLib := web);
     py_repr := py_repr (WebLib := web);
     json_loads := table_get table;
     UntypedToken := UntypedToken (WebLib := web);
     jwt_decode := jwt_decode (WebLib := web);
     file_url := file_url (WebLib := web);
     build_absolute_uri := build_absolute_uri (WebLib := web) |}.

(** A connection whose user is not authenticated. *)
Definition conn_anonymous : Consumer :=
  {| channel_name := lit "chan.x"; self_conversation_id := lit "c1";
     room_group_name := lit "chat_c1"; self_user := Some AnonymousUser;
     status_cache := None |}.

(** A second conversation, of [bob] alone and without a key yet, with
    one message, beside the example conversation. *)
Definition conv_private : Conversation :=
  {| conversation_id := lit "c2"; participants := {[lit "u2"]};
     name := None; is_group := false; created_at := 0; updated_at := 0;
     created_by := Some (lit "u2"); encryption_key := None |}.

Definition msg_private : Message :=
  {| message_id := lit "m9"; conversation := lit "c2"; sender := lit "u2";
     content := lit "note"; timestamp := 30; message_type := lit "text";
     attachment := None; is_edited := false; edited_at := None;
     is_deleted := false; deleted_at := None; reply_to := None |}.

Definition store_two : Store :=
  {| accounts := {[lit "u1" := alice; lit "u2" := bob]};
     conversations := {[lit "c1" := conv; lit "c2" := conv_private]};
     messages := {[lit "m1" := msg; lit "m9" := msg_private]};
     read_statuses := ∅; reactions := ∅; user_statuses := ∅;
     message_deletions := ∅; conversation_deletions := ∅ |}.

(** Frames about the message of the second conversation, and frames
    about the example message. *)
Definition delete_m9 : list (str * json) :=
  [(lit "type", JStr (lit "message_delete")); (lit "message_id", JStr (lit "m9"))].

Definition read_m1 : list (str * json) :=
  [(lit "type", JStr (lit "read_receipt")); (lit "message_id", JStr (lit "m1"))].

Definition typing_on : list (str * json) :=
  [(lit "type", JStr (lit "user_typing")); (lit "is_typing", JBool true)].

(** An answer of [bob] to the example message. *)
Definition answer : Message :=
  {| message_id := lit "m3"; conversation := lit "c1"; sender := lit "u2";
     content := lit "hi there"; timestamp := 40; message_type := lit "text";
     attachment := None; is_edited := false; edited_at := None;
     is_deleted := false; deleted_at := None; reply_to := Some (lit "m1") |}.

(** The frame with which a client sends a picture: a text and the name
    of a file. *)
Definition send_photo : list (str * json) :=
  [(lit "type", JStr (lit "chat_message")); (lit "message", JStr (lit "look"));
   (lit "message_type", JStr (lit "image"));
   (lit "attachment", JStr (lit "photo.png"))].





End Ex.

Section Chat.
Context {F : FernetLib} {W : WebLib}.

(** [CharField.to_python] *)
Definition char_field (j : json) : str :=
  match j with JStr x => x | _ => py_repr j end.

(** The primary key that a value of the client selects in a UUID
    column: [None] selects no row, a value that denotes no UUID raises
    [ValidationError]. *)
Definition uuid_lookup (mid : json) : M (option str) :=
  match mid with
  | JNull => mret None
  | _ => k ← or_raise (to_uuid mid) (ValidationError (lit "is not a valid UUID."));
         mret (Some k)
  end.

(** [Message.objects.get(message_id=mid)] for a value of the client. *)
Definition get_message (mid : json) : M Message :=
  k ← uuid_lookup mid;
  s ← get;
  or_raise (k ≫= fun k => messages s !! k) (DoesNotExist (lit "Message")).

(** [get_object_or_404(Message, message_id=mid)] for a value of the
    client. *)
Definition get_message_or_404 (mid : json) : M Message :=
  k ← uuid_lookup mid;
  s ← get;
  or_raise (k ≫= fun k => messages s !! k)
    (Http404 (lit "No Message matches the given query.")).

(** ** [chat/models.py] *)

Definition key_truthy (k : option str) : bool :=
  match k with Some k => truthy k | None => false end.

(** The body of the [try] of [Conversation.encrypt_message]. *)
Definition fernet_encrypt_text (env : Env) (key message : str) : option str :=
  kb ← encode key;
  f ← Fernet_new kb;
  d ← encode message;
  decode (Fernet_encrypt f (iv env) (now env) d).

(** The body of the [try] of [Conversation.decrypt_message]. *)
Definition fernet_decrypt_text (key encrypted_message : str) : option str :=
  kb ← encode key;
  f ← Fernet_new kb;
  t ← encode encrypted_message;
  d ← Fernet_decrypt f t;
  decode d.

(** [self.save(update_fields=['encryption_key'])] on an instance with
    a key; [adding] is [self._state.adding], true of an instance that
    was built and never saved or loaded. Such an instance is inserted,
    because the primary key has a default: with all its columns, at the
    current time, and without participants. An instance that was loaded
    has its key column updated, and the save fails when its row is
    gone. The instance is returned as the save leaves it. *)
Definition save_encryption_key (env : Env) (adding : bool) (self : Conversation)
    : M Conversation :=
  s ← get;
  if adding
  then
    match conversations s !! conversation_id self with
    | Some _ =>
        raise (IntegrityError (lit "duplicate key value violates unique constraint"))
    | None =>
        let self' :=
          {| conversation_id := conversation_id self; participants := ∅;
             name := name self; is_group := is_group self;
             created_at := now env; updated_at := now env;
             created_by := created_by self;
             encryption_key := encryption_key self |} in
        put (set_conversations <[conversation_id self := self']> s) ;; mret self'
    end
  else
    match conversations s !! conversation_id self with
    | Some row =>
        put (set_conversations
               <[conversation_id self := with_encryption_key (encryption_key self) row]> s) ;;
        mret self
    | None => raise (DatabaseError (lit "Save with update_fields did not affect any rows."))
    end.

(** [Conversation.encrypt_message]; [message] may be [None], and
    [adding] is [self._state.adding]. The instance [self] may get a
    key; it is returned with the result. *)
Definition encrypt_message (env : Env) (adding : bool) (self : Conversation)
    (message : option str) : M (Conversation * option str) :=
  match message with
  | None => mret (self, None)
  | Some m =>
      if negb (truthy m) then mret (self, message)
      else
        self ← (if negb (key_truthy (encryption_key self))
                then save_encryption_key env adding
                       (with_encryption_key (Some (generate_key env)) self)
                else mret self);
        mret (self,
              match fernet_encrypt_text env (default [] (encryption_key self)) m with
              | Some encrypted => Some encrypted
              | None => message
              end)
  end.

(** [Conversation.decrypt_message]; [encrypted_message] may be [None]. *)
Definition decrypt_message (self : Conversation)
    (encrypted_message : option str) : option str :=
  match encrypted_message with
  | None => None
  | Some c =>
      if negb (key_truthy (encryption_key self)) || negb (truthy c)
      then encrypted_message
      else match fernet_decrypt_text (default [] (encryption_key self)) c with
           | Some decrypted => Some decrypted
           | None => encrypted_message
           end
  end.

(** [Message.get_decrypted_content] *)
Definition get_decrypted_content (self : Message) : M str :=
  c ← fk_conversation (conversation self);
  mret (default [] (decrypt_message c (Some (content self)))).

(** The encryption step of [Message.save], on the cached instance
    [conv] of [self.conversation], which was loaded from the
    database. *)
Definition Message_encrypt (env : Env) (self : Message) (conv : Conversation)
    : M (Message * Conversation) :=
  if truthy (content self)
  then '(conv, enc) ← encrypt_message env false conv (Some (content self));
       mret (with_content (default [] enc) self, conv)
  else mret (self, conv).

(** The name that the [attachment] column stores for the value given:
    a string is the name of the file, [None] stores no file, another
    value is stored as its text. *)
Definition attachment_name (att : option json) : option str :=
  match att with
  | None | Some JNull => None
  | Some (JStr x) => Some x
  | Some j => Some (py_repr j)
  end.

(** The [attachment] of the instance that [Message.objects.create]
    returns, as a serializer reads it: the file of a string; a false
    value of another type is kept as it is on the instance and is no
    file, though the column stores its text. *)
Definition attachment_held (att : option json) : option str :=
  match att with
  | Some (JStr x) => Some x
  | _ => None
  end.

(** The exception with which the INSERT of a message turns down the
    values given for [attachment] and [message_type], if it does: a
    true value that is neither a string nor a file has no
    [_committed] for [FileField.pre_save], and [message_type] is not
    nullable. Length limits of columns are not modelled. *)
Definition insert_error (mtype : json) (att : option json) : option exn :=
  let null_error :=
    match mtype with
    | JNull => Some (IntegrityError (lit "null value in column message_type"))
    | _ => None
    end in
  match att with
  | None | Some JNull | Some (JStr _) => null_error
  | Some j =>
      if json_truthy j
      then Some (AttributeError (lit "object has no attribute '_committed'"))
      else null_error
  end.

(** [Message.objects.create(...)]: [Message.save] with an INSERT;
    [bad] is the exception of the INSERT for the values the row was
    built from, if any. *)
Definition Message_create (env : Env) (self : Message) (conv : Conversation)
    (bad : option exn) : M (Message * Conversation) :=
  '(self, conv) ← Message_encrypt env self conv;
  match bad with
  | Some e => raise e
  | None =>
      s ← get;
      match messages s !! message_id self with
      | Some _ => raise (IntegrityError (lit "duplicate key value violates unique constraint"))
      | None => put (set_messages <[message_id self := self]> s) ;; mret (self, conv)
      end
  end.

(** [message.save()] of a row read from the database. *)
Definition Message_save (env : Env) (self : Message) (conv : Conversation)
    : M (Message * Conversation) :=
  '(self, conv) ← Message_encrypt env self conv;
  s ← get;
  put (set_messages <[message_id self := self]> s) ;; mret (self, conv).

(** ** [chat/serializers.py] *)

(** [UserDisplaySerializer.get_display_name] *)
Definition get_display_name (obj : Account) : str :=
  match profile obj ≫= company_name with
  | Some n => if truthy n then n
              else match full_name obj with
                   | Some f => if truthy f then f else email obj
                   | None => email obj
                   end
  | None => match full_name obj with
            | Some f => if truthy f then f else email obj
            | None => email obj
            end
  end.

(** [UserDisplaySerializer.get_profile_picture] *)
Definition get_profile_picture (obj : Account) : option str :=
  match profile obj ≫= profile_picture with
  | Some p => if truthy p then Some p else None
  | None => None
  end.

(** [obj.status] behind [hasattr(obj, 'status')]: what the object has
    cached, or else the row of the table. *)
Definition related_status (cache : StatusCache) (s : Store) (obj : Account)
    : option UserStatus :=
  match cache with
  | Some cached => cached
  | None => user_statuses s !! acc_id obj
  end.

(** [UserDisplaySerializer.get_status] *)
Definition get_status (cache : StatusCache) (s : Store) (obj : Account)
    : str * option Z :=
  match related_status cache s obj with
  | Some us => (status us, Some (last_seen us))
  | None => (lit "offline", None)
  end.

(** [UserDisplaySerializer(obj).data]; [cache] is what the object [obj]
    has cached of its status, [None] for an object that the call reads
    from the database. *)
Definition UserDisplaySerializer (cache : StatusCache) (obj : Account)
    : M UserData :=
  s ← get;
  mret {| ud_acc_id := acc_id obj; ud_email := email obj;
          ud_display_name := get_display_name obj;
          ud_profile_picture := get_profile_picture obj;
          ud_status := get_status cache s obj |}.

(** The request of a serializer context: the request that a REST view
    serves, or the [MockRequest] of [serialize_message], which has the
    attribute [user] and no other. *)
Inductive Request :=
| HttpRequest (user : Account)
| MockRequest (user : Account).

Definition request_user (request : Request) : Account :=
  match request with HttpRequest user | MockRequest user => user end.

(** [FileField.to_representation] of the REST framework, for the
    attachment of a message: no file gives [None]; a file gives its
    URL, made absolute by [request.build_absolute_uri] when the context
    has a request. *)
Definition FileField_to_representation (request : option Request)
    (value : option str) : M (option str) :=
  match value with
  | None => mret None
  | Some name =>
      if negb (truthy name) then mret None
      else
        match request with
        | None => mret (Some (file_url name))
        | Some (HttpRequest _) => mret (Some (build_absolute_uri (file_url name)))
        | Some (MockRequest _) =>
            raise (AttributeError
                     (lit "'MockRequest' object has no attribute 'build_absolute_uri'"))
        end
  end.

(** What [BaseModelSerializer.to_representation] leaves of a
    [DateTimeField] when the context has a request with an
    authenticated user: the text ['%Y-%m-%d %H:%M:%S'] of the instant
    in UTC (an account has no [timezone]), which is the instant cut to
    the whole second. Without a request the instant is kept. Instants
    are microseconds. *)
Definition to_representation_datetime (request : option Request) (t : Z) : Z :=
  match request with
  | Some _ => t / 1000000 * 1000000
  | None => t
  end.

(** [MessageDeletion.objects.filter(message=obj, user=u).exists()] *)
Definition deleted_by (s : Store) (mid uid : str) : bool :=
  bool_decide (is_Some (message_deletions s !! (mid, uid))).

(** [MessageSerializer.get_content]; [ctx] is [request.user] of the
    serializer context when there is one. *)
Definition get_content (ctx : option Account) (obj : Message) : M (option str) :=
  s ← get;
  match ctx with
  | Some u =>
      if deleted_by s (message_id obj) (acc_id u) then mret None
      else c ← get_decrypted_content obj; mret (Some c)
  | None => c ← get_decrypted_content obj; mret (Some c)
  end.

(** [MessageSerializer.get_is_deleted_by_me] *)
Definition get_is_deleted_by_me (ctx : option Account) (obj : Message) : M bool :=
  s ← get;
  mret match ctx with
       | Some u => deleted_by s (message_id obj) (acc_id u)
       | None => false
       end.

(** [MessageSerializer.get_reply_to] *)
Definition get_reply_to (ctx : option Account) (obj : Message)
    : M (option ReplyData) :=
  match reply_to obj with
  | None => mret None
  | Some rid =>
      s ← get;
      r ← or_raise (messages s !! rid) (DoesNotExist (lit "Message"));
      a ← fk_account (sender r);
      if match ctx with
         | Some u => deleted_by s (message_id r) (acc_id u)
         | None => false
         end
      then
        sd ← UserDisplaySerializer None a;
        mret (Some {| rd_message_id := message_id r;
                      rd_content := lit "[Message deleted]";
                      rd_sender := sd |})
      else
        c ← get_decrypted_content r;
        sd ← UserDisplaySerializer None a;
        mret (Some {| rd_message_id := message_id r;
                      rd_content := take 100 c;
                      rd_sender := sd |})
  end.

(** [MessageSerializer(obj, context={'request': request}).data], its
    fields in the order of [Meta.fields]. [sender_obj] is the object
    that the instance holds as its [sender], with what this object has
    cached of its status, when the instance was created with a user
    object as its sender; it is [None] for an instance that was loaded,
    whose sender the serializer reads from the database. *)
Definition MessageSerializer (request : option Request)
    (sender_obj : option (Account * StatusCache)) (obj : Message)
    : M MessageData :=
  let ctx := request_user <$> request in
  c ← get_content ctx obj;
  att ← FileField_to_representation request (attachment obj);
  sd ← match sender_obj with
       | Some (a, cache) => UserDisplaySerializer cache a
       | None => a ← fk_account (sender obj); UserDisplaySerializer None a
       end;
  r ← get_reply_to ctx obj;
  d ← get_is_deleted_by_me ctx obj;
  mret {| md_message_id := message_id obj; md_content := c;
          md_timestamp := to_representation_datetime request (timestamp obj);
          md_message_type := message_type obj;
          md_attachment := att; md_sender := sd;
          md_is_edited := is_edited obj;
          md_edited_at := to_representation_datetime request <$> edited_at obj;
          md_reply_to := r; md_is_deleted_by_me := d |}.

(** [MessageReactionSerializer(reaction_obj).data] of the reaction
    [r] of the account [a], created at [created]; [cache] is what the
    user object of the reaction has cached of its status. *)
Definition MessageReactionSerializer (cache : StatusCache) (a : Account)
    (r : str) (created : Z) : M ReactionData :=
  ud ← UserDisplaySerializer cache a;
  mret {| rx_reaction := r; rx_user := ud; rx_created_at := created |}.

(** The typing window of [ConversationSerializer.get_typing_users], in
    microseconds: [timezone.timedelta(seconds=10)]. *)
Definition TYPING_WINDOW : Z := 10 * 1000000.

(** The filter of [ConversationSerializer.get_typing_users] on one
    [UserStatus] row of user [uid]:
    [is_typing_in=obj, typing_started_at__gte=now - 10 s], the
    requesting user excluded. *)
Definition is_typing_row (env : Env) (obj : Conversation)
    (request_user : option str) (uid : str) (us : UserStatus) : bool :=
  bool_decide (is_typing_in us = Some (conversation_id obj))
  && match typing_started_at us with
     | Some t => bool_decide (now env - TYPING_WINDOW <= t)
     | None => false
     end
  && negb (bool_decide (request_user = Some uid)).

(** [ConversationSerializer.get_typing_users]: the ids of the users
    reported as typing. *)
Definition get_typing_users (env : Env) (s : Store) (obj : Conversation)
    (request_user : option str) : list str :=
  (map_to_list
     (filter (fun kv => is_typing_row env obj request_user kv.1 kv.2 = true)
             (user_statuses s))).*1.

(** ** [chat/consumers.py]: the consumer and its helpers *)

(** The guard
    [hasattr(self, 'user') and self.user and self.user.is_authenticated]:
    the account when it passes. *)
Definition current_account (self : Consumer) : option Account :=
  match self_user self with
  | Some (Acct a) => Some a
  | _ => None
  end.

Definition send_error (env : Env) (message : str) : M unit :=
  emit (Send (F_error message (now env))).

(** [get_user_data]: the serializer looks at the status of the object
    [self.user]. *)
Definition get_user_data (self : Consumer) (a : Account) : M UserData :=
  UserDisplaySerializer (status_cache self) a.

(** The cache of a user object after a look at its status: a cache
    that was empty holds what the table had. *)
Definition status_looked_up (s : Store) (a : Account) (cache : StatusCache)
    : StatusCache :=
  match cache with
  | None => Some (user_statuses s !! acc_id a)
  | Some _ => cache
  end.

(** [authenticate_user]: the value it leaves in [self.user]. *)
Definition authenticate_user (scope : Scope) : M (option User) :=
  s ← get;
  mret match query_token scope with
       | Some token =>
           if truthy token then
             if UntypedToken token then
               match jwt_decode token with
               | Some decoded_token =>
                   match dict_get decoded_token (lit "user_id") with
                   | Some user_id =>
                       if json_truthy user_id
                       then Acct <$> accounts s !! char_field user_id
                       else None
                   | None => None
                   end
               | None => None
               end
             else None
           else scope_user scope
       | None => scope_user scope
       end.

Definition verify_conversation_access (self : Consumer) (a : Account) : M bool :=
  s ← get;
  mret match conversations s !! self_conversation_id self with
       | Some c =>
           if decide (acc_id a ∈ participants c)
           then negb (bool_decide (is_Some
                  (conversation_deletions s !! (conversation_id c, acc_id a))))
           else false
       | None => false
       end.

(** [set_user_status]. A row that [get_or_create] creates is built
    with [user=self.user], which makes the new instance the cached
    status of that object; the instance is then changed and saved. The
    result is what [self.user] has cached of its status afterwards. *)
Definition set_user_status (env : Env) (self : Consumer) (a : Account)
    (st : str) : M StatusCache :=
  '(us, created) ← get_or_create_user_status env (acc_id a);
  s ← get;
  let us := with_status st (now env) us in
  put (set_user_statuses <[acc_id a := us]> s) ;;
  mret (if (created : bool) then Some (Some us) else status_cache self).

(** [set_typing_status]; the result is the cache, as for
    [set_user_status]. *)
Definition set_typing_status (env : Env) (self : Consumer) (a : Account)
    (is_typing : json) : M StatusCache :=
  c ← fk_conversation (self_conversation_id self);
  '(us, created) ← get_or_create_user_status env (acc_id a);
  s ← get;
  let us := if json_truthy is_typing
            then with_typing (Some (conversation_id c)) (Some (now env)) us
            else with_typing None None us in
  put (set_user_statuses <[acc_id a := us]> s) ;;
  mret (if (created : bool) then Some (Some us) else status_cache self).

Definition clear_typing_status (a : Account) : M unit :=
  s ← get;
  match user_statuses s !! acc_id a with
  | Some us => put (set_user_statuses <[acc_id a := with_typing None None us]> s)
  | None => mret tt
  end.

(** [broadcast_status_change]; the result is the cache that the look
    of [get_user_data] leaves on [self.user]. *)
Definition broadcast_status_change (env : Env) (self : Consumer) (a : Account)
    (st : str) : M StatusCache :=
  s ← get;
  ud ← get_user_data self a;
  emit (GroupSend (room_group_name self) (Ev_status_broadcast ud st (now env))) ;;
  mret (status_looked_up s a (status_cache self)).

Definition save_message (env : Env) (self : Consumer) (a : Account)
    (x : str) (reply_to_id : option json) (att : option json) (mtype : json)
    : M Message :=
  s ← get;
  conv ← or_raise (conversations s !! self_conversation_id self)
           (Http404 (lit "No Conversation matches the given query."));
  reply ← match reply_to_id with
          | Some rid =>
              if json_truthy rid
              then try_except (r ← get_message rid; mret (Some r))
                     (fun e => match e with
                               | DoesNotExist _ => mret None
                               | _ => raise e
                               end)
              else mret None
          | None => mret None
          end;
  '(message, conv) ←
    Message_create env
      {| message_id := uuid4 env; conversation := conversation_id conv;
         sender := acc_id a; content := x; timestamp := now env;
         message_type := char_field mtype; attachment := attachment_name att;
         is_edited := false; edited_at := None;
         is_deleted := false; deleted_at := None;
         reply_to := message_id <$> reply |} conv (insert_error mtype att);
  s ← get;
  put (set_conversations (alter (with_updated_at (now env)) (conversation_id conv)) s) ;;
  mret (with_attachment (attachment_held att) message).

Definition edit_message (env : Env) (a : Account) (mid : json) (x : str)
    : M Message :=
  m ← get_message_or_404 mid;
  if negb (bool_decide (sender m = acc_id a))
  then raise (Http404 (lit "No Message matches the given query."))
  else
    conv ← fk_conversation (conversation m);
    '(m, _) ← Message_save env (with_edited (now env) (with_content x m)) conv;
    mret m.

Definition delete_message_for_user (env : Env) (a : Account) (mid : json)
    : M unit :=
  m ← get_message_or_404 mid;
  conv ← fk_conversation (conversation m);
  if negb (bool_decide (acc_id a ∈ participants conv))
  then raise (Exception (lit "You do not have permission to delete this message"))
  else
    s ← get;
    match message_deletions s !! (message_id m, acc_id a) with
    | Some _ => mret tt
    | None => put (set_message_deletions <[(message_id m, acc_id a) := now env]> s)
    end.

Definition user_has_deleted_message (self : Consumer) (mid : json) : M bool :=
  k ← uuid_lookup mid;
  s ← get;
  match self_user self with
  | Some (Acct a) => mret (from_option (fun k => deleted_by s k (acc_id a)) false k)
  | Some AnonymousUser => raise (Exception (lit "AnonymousUser is not an Account"))
  | None => mret false
  end.

(** [serialize_message]: the serializer runs with a [MockRequest] of
    [self.user] as its request; [sender_obj] is as for
    [MessageSerializer]. *)
Definition serialize_message (a : Account)
    (sender_obj : option (Account * StatusCache)) (m : Message) : M MessageData :=
  MessageSerializer (Some (MockRequest a)) sender_obj m.

Definition toggle_reaction (env : Env) (self : Consumer) (a : Account)
    (mid reaction : json) : M (str * option ReactionData) :=
  try_except
    (m ← get_message mid;
     s ← get;
     let k := (message_id m, acc_id a, char_field reaction) in
     match reactions s !! k with
     | Some _ =>
         put (set_reactions (delete k) s) ;; mret (lit "removed", None)
     | None =>
         put (set_reactions <[k := now env]> s) ;;
         d ← MessageReactionSerializer (status_cache self) a (char_field reaction)
               (now env);
         mret (lit "added", Some d)
     end)
    (fun e => match e with
              | DoesNotExist model =>
                  if decide (model = lit "Message")
                  then raise (Exception (lit "Message not found"))
                  else raise e
              | _ => raise e
              end).

Definition mark_message_read (env : Env) (a : Account) (mid : json) : M unit :=
  try_except
    (m ← get_message mid;
     s ← get;
     put (set_read_statuses <[(message_id m, acc_id a) := now env]> s))
    (fun e => match e with
              | DoesNotExist model =>
                  if decide (model = lit "Message")
                  then raise (Exception (lit "Message not found"))
                  else raise e
              | _ => raise e
              end).

(** ** [chat/consumers.py]: handlers of inbound frames

    A handler returns nothing. It leaves the consumer object as it
    was, but for what [self.user] has cached of its status: the cache
    changes when a handler is the first to look at the status or
    creates the status row of the user, and [connect] has done both
    for a connection that it accepted. *)

(** [data.get(k, "").strip()]: a value that is not a string has no
    [strip]. *)
Definition get_stripped (data : list (str * json)) (k : str) : M str :=
  match dict_get data k with
  | None => mret []
  | Some (JStr x) => mret (strip x)
  | Some _ => raise (AttributeError (lit "object has no attribute 'strip'"))
  end.

(** [not data.get(k)] *)
Definition missing (data : list (str * json)) (k : str) : bool :=
  negb (from_option json_truthy false (dict_get data k)).

Definition handle_chat_message (env : Env) (self : Consumer)
    (data : list (str * json)) : M unit :=
  match current_account self with
  | None => send_error env (lit "Authentication required")
  | Some a =>
      message_content ← get_stripped data (lit "message");
      if negb (truthy message_content)
      then send_error env (lit "Message content cannot be empty")
      else
        let reply_to_id := dict_get data (lit "reply_to") in
        let att := dict_get data (lit "attachment") in
        let mtype := default (JStr (lit "text")) (dict_get data (lit "message_type")) in
        try_except
          (message ← save_message env self a message_content reply_to_id att mtype;
           serialized_message ←
             serialize_message a (Some (a, status_cache self)) message;
           emit (GroupSend (room_group_name self)
                   (Ev_chat_message_broadcast serialized_message)) ;;
           clear_typing_status a)
          (fun e => send_error env (lit "Failed to save message: " ++ exn_str e))
  end.

Definition handle_message_edit (env : Env) (self : Consumer)
    (data : list (str * json)) : M unit :=
  match current_account self with
  | None => send_error env (lit "Authentication required")
  | Some a =>
      new_content ← get_stripped data (lit "message");
      if missing data (lit "message_id") || negb (truthy new_content)
      then send_error env (lit "Message ID and content are required")
      else
        let mid := default JNull (dict_get data (lit "message_id")) in
        try_except
          (message ← edit_message env a mid new_content;
           serialized_message ← serialize_message a None message;
           emit (GroupSend (room_group_name self)
                   (Ev_message_edited_broadcast serialized_message)))
          (fun e => send_error env (lit "Failed to edit message: " ++ exn_str e))
  end.

Definition handle_message_delete (env : Env) (self : Consumer)
    (data : list (str * json)) : M unit :=
  match current_account self with
  | None => send_error env (lit "Authentication required")
  | Some a =>
      if missing data (lit "message_id")
      then send_error env (lit "Message ID is required")
      else
        let mid := default JNull (dict_get data (lit "message_id")) in
        try_except
          (delete_message_for_user env a mid ;;
           ud ← get_user_data self a;
           emit (GroupSend (room_group_name self)
                   (Ev_message_deleted_broadcast mid ud (now env))))
          (fun e => send_error env (lit "Failed to delete message: " ++ exn_str e))
  end.

Definition handle_reaction (env : Env) (self : Consumer)
    (data : list (str * json)) : M unit :=
  match current_account self with
  | None => send_error env (lit "Authentication required")
  | Some a =>
      if missing data (lit "message_id") || missing data (lit "reaction")
      then send_error env (lit "Message ID and reaction are required")
      else
        let mid := default JNull (dict_get data (lit "message_id")) in
        let reaction := default JNull (dict_get data (lit "reaction")) in
        try_except
          ('(action, reaction_data) ← toggle_reaction env self a mid reaction;
           ud ← get_user_data self a;
           emit (GroupSend (room_group_name self)
                   (Ev_reaction_broadcast mid reaction ud action reaction_data
                      (now env))))
          (fun e => send_error env (lit "Failed to process reaction: " ++ exn_str e))
  end.

Definition handle_read_receipt (env : Env) (self : Consumer)
    (data : list (str * json)) : M unit :=
  match current_account self with
  | None => mret tt
  | Some a =>
      if missing data (lit "message_id")
      then mret tt
      else
        let mid := default JNull (dict_get data (lit "message_id")) in
        try_except
          (mark_message_read env a mid ;;
           ud ← get_user_data self a;
           emit (GroupSend (room_group_name self)
                   (Ev_read_receipt_broadcast mid ud (now env))))
          (fun e => send_error env
                      (lit "Failed to mark message as read: " ++ exn_str e))
  end.

Definition handle_user_typing (env : Env) (self : Consumer)
    (data : list (str * json)) : M unit :=
  match current_account self with
  | None => mret tt
  | Some a =>
      let is_typing := default (JBool false) (dict_get data (lit "is_typing")) in
      try_except
        (cache ← set_typing_status env self a is_typing;
         ud ← get_user_data (with_status_cache cache self) a;
         emit (GroupSend (room_group_name self)
                 (Ev_user_typing_broadcast ud is_typing (now env))))
        (fun e => send_error env
                    (lit "Failed to update typing status: " ++ exn_str e))
  end.

Definition handle_ping (env : Env) : M unit :=
  emit (Send (F_pong (now env))).

(** [data.get("type") == k] *)
Definition type_is (data : list (str * json)) (k : string) : bool :=
  match dict_get data (lit "type") with
  | Some (JStr t) => bool_decide (t = lit k)
  | _ => false
  end.

(** [receive(text_data)] *)
Definition receive (env : Env) (self : Consumer) (text_data : str) : M unit :=
  match json_loads text_data with
  | None => send_error env (lit "Invalid JSON format")
  | Some j =>
      try_except
        (data ← match j with
                | JDict d => mret d
                | _ => raise (AttributeError (lit "object has no attribute 'get'"))
                end;
         if type_is data "chat_message" then handle_chat_message env self data
         else if type_is data "message_edit" then handle_message_edit env self data
         else if type_is data "message_delete" then handle_message_delete env self data
         else if type_is data "reaction" then handle_reaction env self data
         else if type_is data "read_receipt" then handle_read_receipt env self data
         else if type_is data "user_typing" then handle_user_typing env self data
         else if type_is data "ping" then handle_ping env
         else send_error env (lit "Unknown event type"))
        (fun e => send_error env (lit "Server error: " ++ exn_str e))
  end.



(** [connect]: the consumer it leaves, after the effects on the socket
    and the channel layer. *)
Definition connect (env : Env) (scope : Scope) (channel : str) : M Consumer :=
  u ← authenticate_user scope;
  let self := {| channel_name := channel;
                 self_conversation_id := url_conversation_id scope;
                 room_group_name := lit "chat_" ++ url_conversation_id scope;
                 self_user := u; status_cache := None |} in
  match current_account self with
  | None => emit (Close 4001) ;; mret self
  | Some a =>
      has_access ← verify_conversation_access self a;
      if negb has_access
      then emit (Close 4003) ;; mret self
      else
        emit (GroupAdd (room_group_name self) (channel_name self)) ;;
        emit Accept ;;
        cache ← set_user_status env self a (lit "online");
        cache ← broadcast_status_change env (with_status_cache cache self) a
                  (lit "online");
        mret (with_status_cache cache self)
  end.

Definition disconnect (env : Env) (self : Consumer) : M unit :=
  emit (GroupDiscard (room_group_name self) (channel_name self)) ;;
  match current_account self with
  | Some a =>
      clear_typing_status a ;;
      cache ← set_user_status env self a (lit "offline");
      broadcast_status_change env (with_status_cache cache self) a (lit "offline") ;;
      mret tt
  | None => mret tt
  end.

(** ** [chat/consumers.py]: broadcasters, run by each consumer of a group *)

Definition chat_message_broadcast (message : MessageData) : M unit :=
  emit (Send (F_chat_message message)).

Definition message_edited_broadcast (message : MessageData) : M unit :=
  emit (Send (F_message_edited message)).

Definition message_deleted_broadcast (self : Consumer) (mid : json)
    (ud : UserData) (ts : Z) : M unit :=
  user_has_deleted ← user_has_deleted_message self mid;
  if negb user_has_deleted
  then emit (Send (F_message_deleted mid ud ts))
  else mret tt.

Definition message_restored_broadcast (message : MessageData) : M unit :=
  emit (Send (F_message_restored message)).

Definition reaction_broadcast (mid reaction : json) (ud : UserData)
    (action : str) (reaction_data : option ReactionData) (ts : Z) : M unit :=
  emit (Send (F_reaction mid reaction ud action reaction_data ts)).

(** The guard of the three broadcasters that skip the sender:
    [hasattr(self, 'user') and self.user
     and event["user_data"]["acc_id"] != self.user.acc_id]. *)
Definition not_from_self (self : Consumer) (ud : UserData) : M bool :=
  match self_user self with
  | None => mret false
  | Some AnonymousUser =>
      raise (AttributeError (lit "'AnonymousUser' object has no attribute 'acc_id'"))
  | Some (Acct a) => mret (negb (bool_decide (ud_acc_id ud = acc_id a)))
  end.

Definition read_receipt_broadcast (self : Consumer) (mid : json)
    (ud : UserData) (read_at : Z) : M unit :=
  ok ← not_from_self self ud;
  if (ok : bool) then emit (Send (F_read_receipt mid ud read_at)) else mret tt.

Definition user_typing_broadcast (self : Consumer) (ud : UserData)
    (is_typing : json) (ts : Z) : M unit :=
  ok ← not_from_self self ud;
  if (ok : bool) then emit (Send (F_user_typing ud is_typing ts)) else mret tt.

Definition status_broadcast (self : Consumer) (ud : UserData) (st : str)
    (ts : Z) : M unit :=
  ok ← not_from_self self ud;
  if (ok : bool) then emit (Send (F_user_status ud st ts)) else mret tt.

(** The channel layer hands an event to the method named by its type. *)
Definition dispatch (self : Consumer) (e : Event) : M unit :=
  match e with
  | Ev_chat_message_broadcast m => chat_message_broadcast m
  | Ev_message_edited_broadcast m => message_edited_broadcast m
  | Ev_message_deleted_broadcast mid ud ts => message_deleted_broadcast self mid ud ts
  | Ev_message_restored_broadcast m => message_restored_broadcast m
  | Ev_reaction_broadcast mid r ud act rd ts => reaction_broadcast mid r ud act rd ts
  | Ev_read_receipt_broadcast mid ud t => read_receipt_broadcast self mid ud t
  | Ev_user_typing_broadcast ud b ts => user_typing_broadcast self ud b ts
  | Ev_status_broadcast ud st ts => status_broadcast self ud st ts
  end.

(** The frames among the effects of a run. *)
Definition sent (es : list Effect) : list Frame :=
  omap (fun e => match e with Send f => Some f | _ => None end) es.

(** The frames that the consumer [self] writes to its socket when the
    channel layer hands it [e]. *)
Definition frames_for (s : Store) (self : Consumer) (e : Event) : list Frame :=
  sent (dispatch self e s).1.2.

(** [channel_layer.group_send] to a group whose members are the
    consumers [room]: each frame with the channel it is written to. *)
Definition fan_out (s : Store) (room : list Consumer) (e : Event)
    : list (str * Frame) :=
  self ← room; f ← frames_for s self e; [(channel_name self, f)].

(** ** [chat/views.py]: the REST mirror

    A view runs for an authenticated [request.user] (its permission
    class is [IsAuthenticated]), an account. UUIDs of the URL are
    canonical texts. [Http404] becomes the 404 response. The object
    [request.user] is read for the request: where a view serializes
    it, its status is either not cached yet or the instance that the
    view has just created and saved, and both are the row of the
    table ([None] as the cache). *)

Definition api_view (m : M Response) : M Response :=
  try_except m
    (fun e => match e with
              | Http404 msg => mret {| status_code := 404; body := [("detail", msg)] |}
              | _ => raise e
              end).

Definition group_of (cid : str) : str := lit "chat_" ++ cid.

(** [get_object_or_404(Conversation, conversation_id=cid, participants=user)] *)
Definition get_conversation_of (user : Account) (cid : str) : M Conversation :=
  s ← get;
  match conversations s !! cid with
  | Some c =>
      if decide (acc_id user ∈ participants c) then mret c
      else raise (Http404 (lit "No Conversation matches the given query."))
  | None => raise (Http404 (lit "No Conversation matches the given query."))
  end.

(** [get_object_or_404(Message, message_id=message_id)] for the UUID of
    the URL. *)
Definition get_message_by_pk (mid : str) : M Message :=
  s ← get;
  or_raise (messages s !! mid) (Http404 (lit "No Message matches the given query.")).

(** [MessageListCreateView.perform_create], after the serializer has
    validated [message_content] (not blank, whitespace trimmed),
    [message_type] and the uploaded [attachment]; [data] is
    [request.data]. *)
Definition perform_create (env : Env) (user : Account) (cid : str)
    (data : list (str * json)) (message_content mtype : str) (att : option str)
    : M unit :=
  conv ← get_conversation_of user cid;
  reply ← match dict_get data (lit "reply_to") with
          | Some rid => r ← get_message_or_404 rid; mret (Some r)
          | None => mret None
          end;
  '(message, conv) ←
    Message_create env
      {| message_id := uuid4 env; conversation := conversation_id conv;
         sender := acc_id user; content := message_content;
         timestamp := now env; message_type := mtype; attachment := att;
         is_edited := false; edited_at := None;
         is_deleted := false; deleted_at := None;
         reply_to := message_id <$> reply |} conv None;
  s ← get;
  put (set_conversations <[conversation_id conv := with_updated_at (now env) conv]> s) ;;
  '(us, _) ← get_or_create_user_status env (acc_id user);
  s ← get;
  put (set_user_statuses
         <[acc_id user := with_status (status us) (now env) (with_typing None None us)]> s) ;;
  message_data ← MessageSerializer (Some (HttpRequest user)) (Some (user, None)) message;
  emit (GroupSend (group_of (conversation_id conv))
          (Ev_chat_message_broadcast message_data)).

Definition delete_message (env : Env) (user : Account) (mid : str) : M Response :=
  api_view
    (message ← get_message_by_pk mid;
     conv ← fk_conversation (conversation message);
     if negb (bool_decide (acc_id user ∈ participants conv))
     then mret {| status_code := 403;
                  body := [("error", lit "You do not have permission to delete this message")] |}
     else
       s ← get;
       match message_deletions s !! (message_id message, acc_id user) with
       | None =>
           put (set_message_deletions
                  <[(message_id message, acc_id user) := now env]> s) ;;
           user_data ← UserDisplaySerializer None user;
           emit (GroupSend (group_of (conversation_id conv))
                   (Ev_message_deleted_broadcast (JStr mid) user_data (now env))) ;;
           mret {| status_code := 200;
                   body := [("status", lit "Message deleted successfully")] |}
       | Some _ =>
           mret {| status_code := 200;
                   body := [("status", lit "Message was already deleted")] |}
       end).

Definition restore_message (env : Env) (user : Account) (mid : str) : M Response :=
  api_view
    (message ← get_message_by_pk mid;
     s ← get;
     match message_deletions s !! (message_id message, acc_id user) with
     | Some _ =>
         put (set_message_deletions (delete (message_id message, acc_id user)) s) ;;
         message_data ← MessageSerializer (Some (HttpRequest user)) None message;
         conv ← fk_conversation (conversation message);
         emit (GroupSend (group_of (conversation_id conv))
                 (Ev_message_restored_broadcast message_data)) ;;
         mret {| status_code := 200;
                 body := [("status", lit "Message restored successfully")] |}
     | None =>
         mret {| status_code := 400;
                 body := [("error", lit "Message was not deleted")] |}
     end).

(** The row that [.first()] returns under [ordering = ['-timestamp']]. *)
Definition newer (a b : Message) : Message :=
  if timestamp a <? timestamp b then b else a.

Definition latest (l : list Message) : option Message :=
  foldr (fun m acc => Some (from_option (newer m) m acc)) None l.

(** [conversation.messages.filter(is_deleted=False)
      .exclude(user_deletions__user=user)] *)
Definition visible_messages (s : Store) (cid uid : str) : list Message :=
  (map_to_list
     (filter (fun kv : str * Message =>
                conversation kv.2 = cid ∧ is_deleted kv.2 = false
                ∧ message_deletions s !! (message_id kv.2, uid) = None)
             (messages s))).*2.

Definition mark_messages_read (env : Env) (user : Account) (cid : str)
    : M Response :=
  api_view
    (conv ← get_conversation_of user cid;
     s ← get;
     match latest (visible_messages s (conversation_id conv) (acc_id user)) with
     | Some latest_message =>
         put (set_read_statuses
                <[(message_id latest_message, acc_id user) := now env]> s) ;;
         user_data ← UserDisplaySerializer None user;
         emit (GroupSend (group_of (conversation_id conv))
                 (Ev_read_receipt_broadcast (JStr (message_id latest_message))
                    user_data (now env)))
     | None => mret tt
     end ;;
     mret {| status_code := 200; body := [("status", lit "Messages marked as read")] |}).

(** [reaction_type not in dict(MessageReaction.REACTION_CHOICES)];
    a list or a dict cannot be looked up in a dict. *)
Definition invalid_reaction (reaction_type : option json) : M bool :=
  match reaction_type with
  | Some (JStr r) => mret (negb (bool_decide (r ∈ REACTION_CHOICES)))
  | Some (JList _) | Some (JDict _) => raise (Exception (lit "unhashable type"))
  | _ => mret true
  end.

Definition add_reaction (env : Env) (user : Account) (mid : str)
    (data : list (str * json)) : M Response :=
  api_view
    (message ← get_message_by_pk mid;
     let reaction_type := dict_get data (lit "reaction") in
     bad ← invalid_reaction reaction_type;
     if (bad : bool)
     then mret {| status_code := 400; body := [("error", lit "Invalid reaction")] |}
     else
       let reaction_type := default JNull reaction_type in
       s ← get;
       let k := (message_id message, acc_id user, char_field reaction_type) in
       '(action, reaction_data) ←
         match reactions s !! k with
         | Some _ =>
             put (set_reactions (delete k) s) ;; mret (lit "removed", None)
         | None =>
             put (set_reactions <[k := now env]> s) ;;
             d ← MessageReactionSerializer None user (char_field reaction_type) (now env);
             mret (lit "added", Some d)
         end;
       user_data ← UserDisplaySerializer None user;
       conv ← fk_conversation (conversation message);
       emit (GroupSend (group_of (conversation_id conv))
               (Ev_reaction_broadcast (JStr mid) reaction_type user_data action
                  reaction_data (now env))) ;;
       mret {| status_code := 200;
               body := [("status", lit "Reaction " ++ action); ("action", action)] |}).

(** [views.set_typing_status] *)
Definition views_set_typing_status (env : Env) (user : Account) (cid : str)
    (data : list (str * json)) : M Response :=
  api_view
    (conv ← get_conversation_of user cid;
     let is_typing := default (JBool false) (dict_get data (lit "is_typing")) in
     '(us, _) ← get_or_create_user_status env (acc_id user);
     s ← get;
     put (set_user_statuses
            <[acc_id user :=
                with_status (status us) (now env)
                  (if json_truthy is_typing
                   then with_typing (Some (conversation_id conv)) (Some (now env)) us
                   else with_typing None None us)]> s) ;;
     user_data ← UserDisplaySerializer None user;
     emit (GroupSend (group_of (conversation_id conv))
             (Ev_user_typing_broadcast user_data is_typing (now env))) ;;
     mret {| status_code := 200; body := [("status", lit "Typing status updated")] |}).

(** ** Vocabulary of the statements *)

(** The connection [self] belongs to the user [uid]. *)
Definition belongs_to (uid : str) (self : Consumer) : Prop :=
  acc_id <$> current_account self = Some uid.

#[export] Instance belongs_to_dec uid self : Decision (belongs_to uid self).
Proof. unfold belongs_to. apply _. Defined.

(** The identity that the handshake resolves from the scope, if any. *)
Definition resolved (scope : Scope) (s : Store) : option Account :=
  match authenticate_user scope s with
  | (_, _, inr (Some (Acct a))) => Some a
  | _ => None
  end.

(** The user [uid] is a participant of the conversation [cid] and has
    no [ConversationDeletion] row for it. *)
Definition may_join (s : Store) (cid uid : str) : Prop :=
  exists c, conversations s !! cid = Some c
            /\ uid ∈ participants c
            /\ conversation_deletions s !! (conversation_id c, uid) = None.

(** The number of stored reactions of the user [u] to the message [m]
    with the kind [k]. *)
Definition reaction_count (s : Store) (m u k : str) : nat :=
  size (filter (fun kv : str * str * str * Z => kv.1 = (m, u, k)) (reactions s)).

(** Two runs in a row of a reaction request [h] for the message [m],
    the user [u] and the kind [k]: the first leaves exactly one stored
    reaction and sends the group an event with action ["added"], the
    second leaves none and sends one with action ["removed"]. *)
Definition toggles_in_pairs {A} (h : Env -> M A) (group : str)
    (mid reaction : json) (m u k : str) (env1 env2 : Env) (s : Store) : Prop :=
  exists s1 s2 ud1 ud2 rd r1 r2,
    h env1 s
    = (s1, [GroupSend group
              (Ev_reaction_broadcast mid reaction ud1 (lit "added") (Some rd) (now env1))],
       inr r1)
    /\ reaction_count s1 m u k = 1%nat
    /\ h env2 s1
       = (s2, [GroupSend group
                 (Ev_reaction_broadcast mid reaction ud2 (lit "removed") None (now env2))],
          inr r2)
    /\ reaction_count s2 m u k = 0%nat.




(** Referential integrity of a message row: the rows that its foreign
    keys name exist, and so do those of the message it replies to. *)
Definition fk_ok (s : Store) (m : Message) : Prop :=
  is_Some (accounts s !! sender m) /\ is_Some (conversations s !! conversation m).

Definition serializable (s : Store) (m : Message) : Prop :=
  fk_ok s m
  /\ forall rid, reply_to m = Some rid ->
       exists r, messages s !! rid = Some r /\ fk_ok s r.

(** The message has a file attached. *)
Definition has_file (m : Message) : bool :=
  from_option truthy false (attachment m).

(** The serializer can make the URL of the attachment of [m]: there is
    no file, or the request of the context is not a [MockRequest]. *)
Definition url_available (request : option Request) (m : Message) : bool :=
  match request with
  | Some (MockRequest _) => negb (has_file m)
  | _ => true
  end.

(** Whether the serializer context [ctx] belongs to a user with a
    deletion row for the message [mid]. *)
Definition hidden_from (s : Store) (ctx : option Account) (mid : str) : bool :=
  match ctx with
  | Some u => deleted_by s mid (acc_id u)
  | None => false
  end.

(** Integrity of the database: a message is stored under its own id,
    a conversation under its own id and with a key (as
    [Conversation.save] leaves it), the rows named by the foreign keys
    of a message exist, and a deletion row names an existing message. *)
Record store_ok (s : Store) : Prop := {
  ok_message_key : forall k m, messages s !! k = Some m -> message_id m = k;
  ok_message_fk : forall k m, messages s !! k = Some m -> fk_ok s m;
  ok_conversation_key : forall k c, conversations s !! k = Some c -> conversation_id c = k;
  ok_conversation_secret : forall k c,
    conversations s !! k = Some c -> key_truthy (encryption_key c) = true;
  ok_deletion_fk : forall k u,
    is_Some (message_deletions s !! (k, u)) -> is_Some (messages s !! k);
}.


(** The events sent to groups among the effects of a run: the group and
    the type of each. *)
Definition broadcasts (es : list Effect) : list (str * str) :=
  omap (fun e => match e with
                 | GroupSend g ev => Some (g, event_type ev)
                 | _ => None
                 end) es.

(** What [encrypt_message] makes of a non-empty text under the key of
    the conversation: the Fernet token, or the text itself when Fernet
    fails. *)
Definition ciphertext (env : Env) (conv : Conversation) (x : str) : str :=
  default x (fernet_encrypt_text env (default [] (encryption_key conv)) x).

(** The message that a truthy [reply_to] of a frame names, if any. *)
Definition reply_of (s : Store) (reply_to_id : option json) : option Message :=
  rid ← reply_to_id;
  if json_truthy rid then k ← to_uuid rid; messages s !! k else None.

(** The row that [save_message] inserts. *)
Definition new_message (env : Env) (a : Account) (conv : Conversation) (x : str)
    (mtype : json) (att : option json) (reply : option Message) : Message :=
  {| message_id := uuid4 env; conversation := conversation_id conv;
     sender := acc_id a; content := ciphertext env conv x; timestamp := now env;
     message_type := char_field mtype; attachment := attachment_name att;
     is_edited := false; edited_at := None; is_deleted := false; deleted_at := None;
     reply_to := message_id <$> reply |}.



(** ** [chat/views.py]: conversations, listings and presence *)

Definition set_conversation_deletions
    (f : gmap (str * str) Z -> gmap (str * str) Z) (s : Store) : Store :=
  {| accounts := accounts s; conversations := conversations s;
     messages := messages s; read_statuses := read_statuses s;
     reactions := reactions s; user_statuses := user_statuses s;
     message_deletions := message_deletions s;
     conversation_deletions := f (conversation_deletions s) |}.

(** [ConversationListCreateView.get_queryset]: the conversations in
    which the user takes part and that the user has not deleted. *)
Definition ConversationListCreateView_get_queryset (s : Store) (user : Account)
    : gmap str Conversation :=
  filter (fun kv : str * Conversation =>
            acc_id user ∈ participants kv.2
            ∧ conversation_deletions s !! (conversation_id kv.2, acc_id user) = None)
         (conversations s).

(** [ConversationDetailView.get_queryset] *)
Definition ConversationDetailView_get_queryset (s : Store) (user : Account)
    : gmap str Conversation :=
  filter (fun kv : str * Conversation =>
            acc_id user ∈ participants kv.2
            ∧ conversation_deletions s !! (conversation_id kv.2, acc_id user) = None)
         (conversations s).

(** [MessageListCreateView.get_queryset] *)
Definition MessageListCreateView_get_queryset (user : Account) (cid : str)
    : M (list Message) :=
  conv ← get_conversation_of user cid;
  s ← get;
  mret (visible_messages s (conversation_id conv) (acc_id user)).


(** [MessageEditSerializer.update], with the validated [message_content]
    of the request (whitespace trimmed, not blank). *)
Definition MessageEditSerializer_update (env : Env) (instance : Message) (x : str)
    : M Message :=
  conv ← fk_conversation (conversation instance);
  '(m, _) ← Message_save env (with_edited (now env) (with_content x instance)) conv;
  mret m.

(** [MessageDetailView.perform_update], with the validated
    [message_content] of the request. *)
Definition perform_update (env : Env) (user : Account) (instance : Message) (x : str)
    : M unit :=
  message ← MessageEditSerializer_update env instance x;
  message_data ← MessageSerializer (Some (HttpRequest user)) None message;
  conv ← fk_conversation (conversation message);
  emit (GroupSend (group_of (conversation_id conv))
          (Ev_message_edited_broadcast message_data)).

Definition delete_conversation (env : Env) (user : Account) (cid : str) : M Response :=
  api_view
    (conv ← get_conversation_of user cid;
     s ← get;
     match conversation_deletions s !! (conversation_id conv, acc_id user) with
     | None =>
         put (set_conversation_deletions
                <[(conversation_id conv, acc_id user) := now env]> s) ;;
         mret {| status_code := 200;
                 body := [("status", lit "Conversation deleted successfully")] |}
     | Some _ =>
         mret {| status_code := 200;
                 body := [("status", lit "Conversation was already deleted")] |}
     end).

Definition restore_conversation (user : Account) (cid : str) : M Response :=
  api_view
    (conv ← get_conversation_of user cid;
     s ← get;
     match conversation_deletions s !! (conversation_id conv, acc_id user) with
     | Some _ =>
         put (set_conversation_deletions
                (delete (conversation_id conv, acc_id user)) s) ;;
         mret {| status_code := 200;
                 body := [("status", lit "Conversation restored successfully")] |}
     | None =>
         mret {| status_code := 400;
                 body := [("error", lit "Conversation was not deleted")] |}
     end).

(** Several effects in a row. *)
Definition emit_all (es : list Effect) : M unit := fun s => (s, es, inr tt).

(** [update_user_status]. The events carry the status of the request,
    a status that is no string by its text. A null status cannot be
    stored. *)
Definition update_user_status (env : Env) (user : Account) (data : list (str * json))
    : M Response :=
  api_view
    (let status_value := default (JStr (lit "online")) (dict_get data (lit "status")) in
     '(us, _) ← get_or_create_user_status env (acc_id user);
     match status_value with
     | JNull => raise (IntegrityError (lit "null value in column status"))
     | _ => mret tt
     end ;;
     s ← get;
     put (set_user_statuses
            <[acc_id user := with_status (char_field status_value) (now env) us]> s) ;;
     user_data ← UserDisplaySerializer None user;
     s ← get;
     emit_all
       ((fun kv : str * Conversation =>
           GroupSend (group_of (conversation_id kv.2))
             (Ev_status_broadcast user_data (char_field status_value) (now env)))
          <$> map_to_list (ConversationListCreateView_get_queryset s user)) ;;
     mret {| status_code := 200;
             body := [("status", lit "Status updated to " ++ char_field status_value)] |}).

(** ** [chat/views.py], [chat/serializers.py]: new conversations *)

Definition with_participants (p : gset str) (c : Conversation) :=
  {| conversation_id := conversation_id c; participants := p;
     name := name c; is_group := is_group c; created_at := created_at c;
     updated_at := updated_at c; created_by := created_by c;
     encryption_key := encryption_key c |}.

(** [Conversation.objects.create(created_by=user, name=..., is_group=...)]:
    [Conversation.save] gives the new row a key; the row has no
    participants yet. *)
Definition Conversation_create (env : Env) (user : Account) (name : option str)
    (is_group : bool) : M Conversation :=
  let self := {| conversation_id := uuid4 env; participants := ∅; name := name;
                 is_group := is_group; created_at := now env; updated_at := now env;
                 created_by := Some (acc_id user);
                 encryption_key := Some (generate_key env) |} in
  s ← get;
  match conversations s !! conversation_id self with
  | Some _ => raise (IntegrityError (lit "duplicate key value violates unique constraint"))
  | None => put (set_conversations <[conversation_id self := self]> s) ;; mret self
  end.

(** [conversation.participants.set(...)] and
    [conversation.participants.add(...)]: the row of the conversation
    afterwards. *)
Definition participants_set (self : Conversation) (ids : gset str) : M Conversation :=
  s ← get;
  match conversations s !! conversation_id self with
  | Some row =>
      put (set_conversations
             <[conversation_id self := with_participants ids row]> s) ;;
      mret (with_participants ids row)
  | None => raise (IntegrityError (lit "violates foreign key constraint"))
  end.

Definition participants_add (self : Conversation) (ids : gset str) : M Conversation :=
  s ← get;
  match conversations s !! conversation_id self with
  | Some row =>
      put (set_conversations
             <[conversation_id self := with_participants (participants row ∪ ids) row]> s) ;;
      mret (with_participants (participants row ∪ ids) row)
  | None => raise (IntegrityError (lit "violates foreign key constraint"))
  end.

(** The row that [.first()] returns under [ordering = ['-updated_at']]. *)
Definition more_recent (a b : Conversation) : Conversation :=
  if updated_at a <? updated_at b then b else a.

Definition first_updated (l : list Conversation) : option Conversation :=
  foldr (fun c acc => Some (from_option (more_recent c) c acc)) None l.

(** [Conversation.objects.filter(participants=user, is_group=False)
      .filter(participants=other).exclude(user_deletions__user=user)] *)
Definition private_conversations (s : Store) (user other : Account)
    : list Conversation :=
  (map_to_list
     (filter (fun kv : str * Conversation =>
                acc_id user ∈ participants kv.2 ∧ is_group kv.2 = false
                ∧ acc_id other ∈ participants kv.2
                ∧ conversation_deletions s !! (conversation_id kv.2, acc_id user) = None)
             (conversations s))).*2.

(** [get_or_create_conversation]: the conversation that the response
    serializes; [Http404] becomes the 404 response. *)
Definition get_or_create_conversation (env : Env) (user : Account) (user_id : str)
    : M Conversation :=
  s ← get;
  other_user ← or_raise (accounts s !! user_id)
                 (Http404 (lit "No Account matches the given query."));
  match first_updated (private_conversations s user other_user) with
  | Some conversation => mret conversation
  | None =>
      conversation ← Conversation_create env user None false;
      participants_add conversation {[acc_id user; acc_id other_user]}
  end.

(** [ConversationCreateSerializer.create], with the validated [name],
    [is_group] and [participant_ids] of the request. *)
Definition ConversationCreateSerializer_create (env : Env) (user : Account)
    (name : option str) (is_group : bool) (participant_ids : list str)
    : M Conversation :=
  conversation ← Conversation_create env user name is_group;
  s ← get;
  let participants := omap (fun k => accounts s !! k) participant_ids in
  conversation ← participants_set conversation (list_to_set (acc_id <$> participants));
  participants_add conversation {[acc_id user]}.

(** ** [chat/serializers.py]: the unread count *)

(** [MessageReadStatus.objects.filter(user=user, message__conversation=obj)]:
    each row with the message it is about. *)
Definition read_rows (s : Store) (cid uid : str) : list (Message * Z) :=
  omap (fun kv : str * str * Z =>
          if decide (kv.1.2 = uid)
          then m ← messages s !! kv.1.1;
               if decide (conversation m = cid) then Some (m, kv.2) else None
          else None)
       (map_to_list (read_statuses s)).

(** The row that [.order_by('-message__timestamp').first()] returns. *)
Definition later_read (a b : Message * Z) : Message * Z :=
  if timestamp a.1 <? timestamp b.1 then b else a.

Definition last_read (l : list (Message * Z)) : option (Message * Z) :=
  foldr (fun r acc => Some (from_option (later_read r) r acc)) None l.

(** [obj.messages.exclude(user_deletions__user=user).exclude(sender=user)] *)
Definition messages_query (s : Store) (cid uid : str) : gmap str Message :=
  filter (fun kv : str * Message =>
            conversation kv.2 = cid
            ∧ message_deletions s !! (message_id kv.2, uid) = None
            ∧ sender kv.2 <> uid)
         (messages s).

(** [ConversationSerializer.get_unread_count]; [ctx] is [request.user]
    of the serializer context when there is one. *)
Definition get_unread_count (ctx : option Account) (obj : Conversation) (s : Store)
    : nat :=
  match ctx with
  | Some user =>
      match last_read (read_rows s (conversation_id obj) (acc_id user)) with
      | Some (_, read_at) =>
          size (filter (fun kv : str * Message => read_at < timestamp kv.2)
                  (messages_query s (conversation_id obj) (acc_id user)))
      | None => size (messages_query s (conversation_id obj) (acc_id user))
      end
  | None => 0%nat
  end.

(** ** [chat/serializers.py]: the reaction counts *)

(** [obj.reactions.all()]: the reaction rows of the message, each with
    its key (message, user, kind). *)
Definition message_reactions (s : Store) (obj : Message)
    : list (str * str * str * Z) :=
  map_to_list (filter (fun kv : str * str * str * Z => kv.1.1.1 = message_id obj)
                 (reactions s)).

(** The body of the loop of [get_reaction_counts] for one row. *)
Definition count_reaction (counts : gmap str Z) (reaction : str * str * str * Z)
    : gmap str Z :=
  let reaction_type := reaction.1.2 in
  let counts := if decide (is_Some (counts !! reaction_type)) then counts
                else <[reaction_type := 0]> counts in
  alter (fun n => n + 1) reaction_type counts.

(** [MessageSerializer.get_reaction_counts] *)
Definition get_reaction_counts (s : Store) (obj : Message) : gmap str Z :=
  foldl count_reaction ∅ (message_reactions s obj).

(** ** Vocabulary of the further statements *)

(** What a consumer may do to the outside while it handles an inbound
    frame: write to its own socket, and send events to its own group. *)
Definition room_effect (room : str) (e : Effect) : Prop :=
  match e with
  | Send _ => True
  | GroupSend g _ => g = room
  | _ => False
  end.

(** What the database [s'] keeps of the database [s]: the accounts, the
    conversation deletion rows, the id and the participants of every
    conversation, every message row (possibly with other contents), and
    every message deletion row as it was. *)
Record unharmed (s s' : Store) : Prop := {
  same_accounts : accounts s' = accounts s;
  same_conversation_deletions : conversation_deletions s' = conversation_deletions s;
  same_membership : forall k,
    (fun c => (conversation_id c, participants c)) <$> conversations s' !! k
    = (fun c => (conversation_id c, participants c)) <$> conversations s !! k;
  messages_stay : forall k, is_Some (messages s !! k) -> is_Some (messages s' !! k);
  deletions_stay : message_deletions s ⊆ message_deletions s';
}.

(** The run of [m] from the database [s] leaves the database unharmed
    and has effects of the kind [E] only. *)
Definition confined_at (E : Effect -> Prop) {A} (m : M A) (s : Store) : Prop :=
  unharmed s (m s).1.1 /\ Forall E (m s).1.2.

Definition confined (E : Effect -> Prop) {A} (m : M A) : Prop :=
  forall s, confined_at E m s.

(** The database after the user [uid] has soft-deleted the message [mid]
    at the time [t]: a row is added unless there is one. *)
Definition with_deletion (mid uid : str) (t : Z) (s : Store) : Store :=
  match message_deletions s !! (mid, uid) with
  | Some _ => s
  | None => set_message_deletions <[(mid, uid) := t]> s
  end.

(** The database [s] is sound for a connection of the user [u]: it has
    integrity, and the account of the user, if there is one, is in
    it. *)
Definition sound_with (u : option Account) (s : Store) : Prop :=
  store_ok s /\ forall a, u = Some a -> is_Some (accounts s !! acc_id a).

(** The run of [m] from the database [s] keeps the property [P] of the
    database, whether it ends with a value or with an exception. *)
Definition kept_at (P : Store -> Prop) {A} (m : M A) (s : Store) : Prop :=
  P s -> P (m s).1.1.

Definition kept (P : Store -> Prop) {A} (m : M A) : Prop :=
  forall s, kept_at P m s.

(** The conversation that a user starts at the time and with the id of
    [env]. *)
Definition new_conversation (env : Env) (user : Account) (name : option str)
    (is_group : bool) (p : gset str) : Conversation :=
  {| conversation_id := uuid4 env; participants := p; name := name;
     is_group := is_group; created_at := now env; updated_at := now env;
     created_by := Some (acc_id user); encryption_key := Some (generate_key env) |}.

(** The number of users who reacted to the message [mid] with the kind
    [k]. *)
Definition reacted_with (s : Store) (mid k : str) : nat :=
  size (filter (fun kv : str * str * str * Z => kv.1.1.1 = mid ∧ kv.1.2 = k)
          (reactions s)).


(** * Properties *)

(** ** Running a handler *)

Ltac run :=
  repeat (cbn -[lit] in * ||
          unfold mbind, M_bind, bind, mret, M_ret, ret, raise, try_except,
                 get, put, emit, or_raise in * ).

(** One step of the monad only: the combinators are unfolded and the
    handlers they are applied to are left folded. *)
Ltac mstep :=
  cbv beta iota zeta delta
    [mbind M_bind bind mret M_ret ret raise try_except get put emit or_raise];
  cbn [app fst snd].

Ltac mstep_in H :=
  cbv beta iota zeta delta
    [mbind M_bind bind mret M_ret ret raise try_except get put emit or_raise] in H;
  cbn [app fst snd] in H.

(** ** Per-recipient filtering of broadcasts *)

Lemma current_account_user self a :
  current_account self = Some a -> self_user self = Some (Acct a).
Proof.
  unfold current_account. destruct (self_user self) as [[|b]|]; congruence.
Qed.

(** A message-deleted event reaches a connection exactly when its user
    has no deletion row for the message. *)
Lemma frames_message_deleted s self mid ud ts k a :
  current_account self = Some a ->
  mid <> JNull ->
  to_uuid mid = Some k ->
  frames_for s self (Ev_message_deleted_broadcast mid ud ts)
  = if deleted_by s k (acc_id a) then [] else [F_message_deleted mid ud ts].
Proof.
  intros Hu%current_account_user Hn Hk.
  unfold frames_for, dispatch, message_deleted_broadcast,
    user_has_deleted_message, uuid_lookup. run.
  destruct mid; try congruence; rewrite ?Hk; run; rewrite Hu; run;
    destruct (deleted_by s k (acc_id a)); reflexivity.
Qed.

(** Message-edited, message-restored and reaction events reach every
    connection: these broadcasters look at no deletion row. *)
Lemma frames_message_edited s self m :
  frames_for s self (Ev_message_edited_broadcast m) = [F_message_edited m].
Proof. reflexivity. Qed.

Lemma frames_message_restored s self m :
  frames_for s self (Ev_message_restored_broadcast m) = [F_message_restored m].
Proof. reflexivity. Qed.

Lemma frames_reaction s self mid r ud act rd ts :
  frames_for s self (Ev_reaction_broadcast mid r ud act rd ts)
  = [F_reaction mid r ud act rd ts].
Proof. reflexivity. Qed.

Lemma frames_read_receipt s self a mid ud t :
  current_account self = Some a ->
  frames_for s self (Ev_read_receipt_broadcast mid ud t)
  = if bool_decide (ud_acc_id ud = acc_id a) then [] else [F_read_receipt mid ud t].
Proof.
  intros Hu%current_account_user.
  unfold frames_for, dispatch, read_receipt_broadcast, not_from_self.
  rewrite Hu. run. case_bool_decide; reflexivity.
Qed.

Lemma frames_user_typing s self a ud b ts :
  current_account self = Some a ->
  frames_for s self (Ev_user_typing_broadcast ud b ts)
  = if bool_decide (ud_acc_id ud = acc_id a) then [] else [F_user_typing ud b ts].
Proof.
  intros Hu%current_account_user.
  unfold frames_for, dispatch, user_typing_broadcast, not_from_self.
  rewrite Hu. run. case_bool_decide; reflexivity.
Qed.

(** Fan-out of an event that every recipient treats alike, given what
    one recipient does with it. *)
Lemma fan_out_filter s room e (P : Consumer -> Prop) `{!forall c, Decision (P c)} f :
  Forall (fun self => frames_for s self e = if decide (P self) then [f] else []) room ->
  fan_out s room e = (fun self => (channel_name self, f)) <$> filter P room.
Proof.
  unfold fan_out. induction 1 as [|self room Hx _ IH]; [reflexivity|].
  rewrite bind_cons, filter_cons.
  rewrite IH, Hx. destruct (decide (P self)); reflexivity.
Qed.

(** C2 (as amended). A read-receipt or typing-changed event that
    carries the user [U] in its [user_data] is written to no connection
    of [U] at all, neither the one it came from nor [U]'s other
    connections, and to every connection of every other user in the
    room, once each. *)
Theorem sender_excluded_by_user (s : Store) (room : list Consumer) (ud : UserData)
    (mid is_typing : json) (t : Z) :
  Forall (fun self => is_Some (current_account self)) room ->
  fan_out s room (Ev_read_receipt_broadcast mid ud t)
  = (fun self => (channel_name self, F_read_receipt mid ud t))
      <$> filter (fun self => ~ belongs_to (ud_acc_id ud) self) room
  /\ fan_out s room (Ev_user_typing_broadcast ud is_typing t)
  = (fun self => (channel_name self, F_user_typing ud is_typing t))
      <$> filter (fun self => ~ belongs_to (ud_acc_id ud) self) room.
Proof.
  intros Hroom. split; apply fan_out_filter;
    (eapply Forall_impl; [exact Hroom|]); intros self [a Ha]; cbn.
  - rewrite (frames_read_receipt _ _ a) by done.
    assert (Hb : belongs_to (ud_acc_id ud) self <-> ud_acc_id ud = acc_id a)
      by (unfold belongs_to; rewrite Ha; cbn; split; [intros [= Heq] | intros Heq]; congruence).
    case_bool_decide; destruct (decide _) as [?|?]; try reflexivity; exfalso; tauto.
  - rewrite (frames_user_typing _ _ a) by done.
    assert (Hb : belongs_to (ud_acc_id ud) self <-> ud_acc_id ud = acc_id a)
      by (unfold belongs_to; rewrite Ha; cbn; split; [intros [= Heq] | intros Heq]; congruence).
    case_bool_decide; destruct (decide _) as [?|?]; try reflexivity; exfalso; tauto.
Qed.


(** ** At-rest encryption *)

Section WithLaws.
Context {L : FernetLaws}.

(** What Fernet produced decrypts, under the same key, to what went in. *)
Lemma fernet_text_roundtrip env key m e :
  fernet_encrypt_text env key m = Some e ->
  e <> [] /\ fernet_decrypt_text key e = Some m.
Proof.
  unfold fernet_encrypt_text, fernet_decrypt_text.
  destruct (encode key) as [kb|]; [cbn|discriminate].
  destruct (Fernet_new kb) as [f|]; [cbn|discriminate].
  destruct (encode m) as [d|] eqn:Hd; [cbn|discriminate].
  intros He.
  destruct (token_text f (iv env) (now env) d) as (e' & He' & Hne).
  assert (e' = e) as -> by congruence.
  split; [exact Hne|].
  rewrite (encode_decode _ _ He). cbn.
  rewrite decrypt_encrypt. cbn. apply decode_encode, Hd.
Qed.

(** When encryption fails, decryption of the same text fails as well. *)
Lemma fernet_text_failure env key m :
  fernet_encrypt_text env key m = None -> fernet_decrypt_text key m = None.
Proof.
  unfold fernet_encrypt_text, fernet_decrypt_text.
  destruct (encode key) as [kb|]; [cbn|reflexivity].
  destruct (Fernet_new kb) as [f|]; [cbn|reflexivity].
  destruct (encode m) as [d|] eqn:Hd; [cbn|reflexivity].
  intros He.
  destruct (token_text f (iv env) (now env) d) as (e' & He' & _). congruence.
Qed.

Lemma truthy_nonempty (x : str) : truthy x = true <-> x <> [].
Proof. destruct x; cbn; split; congruence. Qed.

(** C9. Under a non-empty conversation key, a non-empty message
    survives [encrypt_message] followed by [decrypt_message] (and the
    encryption touches neither the database nor the instance); empty
    and null contents pass through both functions unchanged; and when
    Fernet cannot decrypt a text, [decrypt_message] returns that text. *)
Theorem encrypt_then_decrypt (env : Env) (adding : bool) (self : Conversation)
    (m : str) (s : Store) :
  key_truthy (encryption_key self) = true ->
  m <> [] ->
  (exists e, encrypt_message env adding self (Some m) s = (s, [], inr (self, Some e))
             /\ decrypt_message self (Some e) = Some m)
  /\ (forall x, x = None \/ x = Some [] ->
        encrypt_message env adding self x s = (s, [], inr (self, x))
        /\ decrypt_message self x = x)
  /\ (forall c, fernet_decrypt_text (default [] (encryption_key self)) c = None ->
        decrypt_message self (Some c) = Some c).
Proof.
  intros Hk Hm. apply truthy_nonempty in Hm as Hm'. split; [|split].
  - unfold encrypt_message. rewrite Hm', Hk. run.
    destruct (fernet_encrypt_text env _ m) as [e|] eqn:He.
    + exists e. split; [reflexivity|].
      apply fernet_text_roundtrip in He as [Hne Hd].
      unfold decrypt_message. rewrite Hk.
      apply truthy_nonempty in Hne as ->. cbn. now rewrite Hd.
    + exists m. split; [reflexivity|].
      apply fernet_text_failure in He.
      unfold decrypt_message. rewrite Hk, Hm'. cbn. now rewrite He.
  - intros x [-> | ->]; split; try reflexivity.
    unfold decrypt_message. cbn. now rewrite orb_true_r.
  - intros c Hc. unfold decrypt_message. rewrite Hc.
    now destruct (negb _ || negb _).
Qed.

End WithLaws.

(** ** Typing state and its read-time window *)

Lemma elem_of_get_typing_users env s obj req uid :
  uid ∈ get_typing_users env s obj req
  <-> exists us, user_statuses s !! uid = Some us
                 /\ is_typing_row env obj req uid us = true.
Proof.
  unfold get_typing_users. rewrite list_elem_of_fmap. split.
  - intros ([k us] & -> & Hin). exists us.
    apply elem_of_map_to_list, map_lookup_filter_Some in Hin. exact Hin.
  - intros (us & Hl & Hrow). exists (uid, us). split; [reflexivity|].
    apply elem_of_map_to_list, map_lookup_filter_Some. split; assumption.
Qed.

(** A row that says "typing in [obj] since [t]" is reported to another
    user exactly while at most the window has elapsed. *)
Lemma is_typing_row_window env obj req uid us t :
  is_typing_in us = Some (conversation_id obj) ->
  typing_started_at us = Some t ->
  req <> Some uid ->
  is_typing_row env obj req uid us = true <-> now env - t <= TYPING_WINDOW.
Proof.
  intros Hc Ht Hreq. unfold is_typing_row. rewrite Hc, Ht.
  rewrite bool_decide_eq_true_2 by reflexivity.
  rewrite (bool_decide_eq_false_2 (req = Some uid)) by exact Hreq. cbn.
  rewrite andb_true_r, bool_decide_eq_true. lia.
Qed.

(** The row that [set_typing_status] leaves for a user who starts
    typing. *)
Lemma set_typing_status_row env self a s c :
  conversations s !! self_conversation_id self = Some c ->
  exists us,
    user_statuses (set_typing_status env self a (JBool true) s).1.1 !! acc_id a = Some us
    /\ is_typing_in us = Some (conversation_id c)
    /\ typing_started_at us = Some (now env).
Proof.
  intros Hc. unfold set_typing_status, fk_conversation, get_or_create_user_status.
  run. rewrite Hc. run.
  destruct (user_statuses s !! acc_id a) as [us|]; run;
    eexists; (split; [apply lookup_insert_eq|]); split; reflexivity.
Qed.

(** C7 (as amended). After a user starts typing at time [T],
    [get_typing_users] reports the user to the other members exactly
    while at most ten seconds have elapsed since [T], the tenth second
    included; a query at [T] + 11 s does not report the user, and no
    call that clears the state is involved. *)
Theorem typing_expires_by_window (env0 env1 : Env) (self : Consumer) (a : Account)
    (s : Store) (c : Conversation) (req : option str) :
  conversations s !! self_conversation_id self = Some c ->
  req <> Some (acc_id a) ->
  (acc_id a ∈ get_typing_users env1 (set_typing_status env0 self a (JBool true) s).1.1 c req
   <-> now env1 - now env0 <= 10 * 1000000)
  /\ (now env1 = now env0 + 11 * 1000000 ->
      acc_id a ∉ get_typing_users env1 (set_typing_status env0 self a (JBool true) s).1.1 c req).
Proof.
  intros Hc Hreq.
  destruct (set_typing_status_row env0 self a s c Hc) as (us & Hus & Hin & Hat).
  assert (Hiff : acc_id a ∈ get_typing_users env1
                   (set_typing_status env0 self a (JBool true) s).1.1 c req
                 <-> now env1 - now env0 <= TYPING_WINDOW).
  { rewrite elem_of_get_typing_users.
    rewrite <- (is_typing_row_window env1 c req (acc_id a) us (now env0) Hin Hat Hreq).
    split.
    - intros (us' & Hus' & Hrow). congruence.
    - intros Hrow. exists us. split; assumption. }
  split; [exact Hiff|].
  intros Hnow. rewrite Hiff. unfold TYPING_WINDOW. lia.
Qed.

(** ** The handshake *)

Lemma verify_conversation_access_spec self a s :
  exists b, verify_conversation_access self a s = (s, [], inr b)
            /\ (b = true <-> may_join s (self_conversation_id self) (acc_id a)).
Proof.
  unfold verify_conversation_access, may_join. run.
  destruct (conversations s !! self_conversation_id self) as [c|] eqn:Hc.
  - destruct (decide (acc_id a ∈ participants c)) as [Hin|Hin].
    + eexists. split; [reflexivity|].
      destruct (conversation_deletions s !! (conversation_id c, acc_id a)) eqn:Hd.
      * rewrite bool_decide_eq_true_2 by eauto. cbn. split; [discriminate|].
        intros (c' & [= <-] & _ & Hnone). congruence.
      * rewrite bool_decide_eq_false_2 by (intros [? ?]; congruence). cbn.
        split; [|reflexivity]. intros _. exists c. auto.
    + exists false. split; [reflexivity|]. split; [discriminate|].
      intros (c' & [= <-] & Hin' & _). contradiction.
  - exists false. split; [reflexivity|]. split; [discriminate|].
    intros (c' & [=] & _).
Qed.

(** C5. At the handshake: when no identity is resolved the connection
    is closed with code 4001 and nothing else happens; when the
    identity is not a participant of the conversation, or has a
    [ConversationDeletion] row for it, the connection is closed with
    code 4003 and nothing else happens; otherwise, and only then, the
    channel is added to the group of the conversation and the
    connection is accepted. *)
Theorem handshake_admission (env : Env) (scope : Scope) (channel : str) (s : Store) :
  (resolved scope s = None ->
   (connect env scope channel s).1 = (s, [Close 4001]))
  /\ (forall a, resolved scope s = Some a ->
        ~ may_join s (url_conversation_id scope) (acc_id a) ->
        (connect env scope channel s).1 = (s, [Close 4003]))
  /\ (forall a, resolved scope s = Some a ->
        may_join s (url_conversation_id scope) (acc_id a) ->
        exists s' ud,
          (connect env scope channel s).1
          = (s', [GroupAdd (lit "chat_" ++ url_conversation_id scope) channel;
                  Accept;
                  GroupSend (lit "chat_" ++ url_conversation_id scope)
                    (Ev_status_broadcast ud (lit "online") (now env))])
          /\ status <$> user_statuses s' !! acc_id a = Some (lit "online")).
Proof.
  unfold resolved, connect, authenticate_user. run.
  match goal with
  | |- context [match ?e with Some x => _ | None => _ end] =>
      match type of e with option User => set (u := e) end
  end.
  split; [|split].
  - destruct u as [[|a]|]; try discriminate; intros _; reflexivity.
  - intros a Hu Hno. destruct u as [[|b]|]; try discriminate.
    injection Hu as ->. unfold current_account. cbn.
    set (self := {| channel_name := channel |}).
    destruct (verify_conversation_access_spec self a s) as (b & -> & Hb). cbn.
    destruct b; [exfalso; apply Hno, Hb; reflexivity|reflexivity].
  - intros a Hu Hyes. destruct u as [[|b]|]; try discriminate.
    injection Hu as ->. unfold current_account. cbn.
    set (self := {| channel_name := channel |}).
    destruct (verify_conversation_access_spec self a s) as (b & -> & Hb). cbn.
    destruct b; [|apply Hb in Hyes; discriminate].
    unfold set_user_status, broadcast_status_change, get_user_data,
      UserDisplaySerializer, get_or_create_user_status. run.
    destruct (user_statuses s !! acc_id a); run;
      do 2 eexists; (split; [reflexivity|]); cbn;
      now rewrite lookup_insert_eq.
Qed.

(** ** The reaction toggle *)

Lemma reaction_count_lookup s m u k :
  reaction_count s m u k
  = match reactions s !! (m, u, k) with Some _ => 1%nat | None => 0%nat end.
Proof.
  unfold reaction_count.
  set (P := fun kv : str * str * str * Z => kv.1 = (m, u, k)).
  assert (Hf : filter P (reactions s)
               = match reactions s !! (m, u, k) with
                 | Some t => {[(m, u, k) := t]}
                 | None => ∅
                 end).
  { apply map_eq. intros i. rewrite map_lookup_filter.
    destruct (decide (i = (m, u, k))) as [->|Hne].
    - destruct (reactions s !! (m, u, k)) as [t|]; cbn.
      + rewrite option_guard_True by reflexivity. cbn.
        now rewrite lookup_singleton_eq.
      + now rewrite lookup_empty.
    - replace (match reactions s !! (m, u, k) with
               | Some t => {[(m, u, k) := t]}
               | None => ∅
               end !! i) with (@None Z).
      + destruct (reactions s !! i); cbn; [|reflexivity].
        now rewrite option_guard_False by (unfold P; cbn; congruence).
      + destruct (reactions s !! (m, u, k)).
        * now rewrite lookup_singleton_ne.
        * now rewrite lookup_empty. }
  rewrite Hf. destruct (reactions s !! (m, u, k)).
  - apply map_size_singleton.
  - apply map_size_empty.
Qed.

Lemma missing_false data k j :
  dict_get data k = Some j -> json_truthy j = true -> missing data k = false.
Proof. unfold missing. intros -> Hj. cbn. now rewrite Hj. Qed.

Lemma get_message_found mid k m s :
  json_truthy mid = true -> to_uuid mid = Some k -> messages s !! k = Some m ->
  get_message mid s = (s, [], inr m).
Proof.
  intros Hj Hk Hm. unfold get_message, uuid_lookup.
  destruct mid; try discriminate; run; rewrite Hk; run; rewrite Hm; reflexivity.
Qed.

Lemma toggle_reaction_added env self a mid reaction k m s :
  json_truthy mid = true -> to_uuid mid = Some k -> messages s !! k = Some m ->
  reactions s !! (message_id m, acc_id a, char_field reaction) = None ->
  exists rd,
    toggle_reaction env self a mid reaction s
    = (set_reactions <[(message_id m, acc_id a, char_field reaction) := now env]> s,
       [], inr (lit "added", Some rd)).
Proof.
  intros Hj Hk Hm Hr. unfold toggle_reaction. run.
  rewrite (get_message_found mid k m s Hj Hk Hm). run. rewrite Hr.
  unfold MessageReactionSerializer, UserDisplaySerializer. run.
  eexists. reflexivity.
Qed.

Lemma toggle_reaction_removed env self a mid reaction k m s t :
  json_truthy mid = true -> to_uuid mid = Some k -> messages s !! k = Some m ->
  reactions s !! (message_id m, acc_id a, char_field reaction) = Some t ->
  toggle_reaction env self a mid reaction s
  = (set_reactions (delete (message_id m, acc_id a, char_field reaction)) s,
     [], inr (lit "removed", None)).
Proof.
  intros Hj Hk Hm Hr. unfold toggle_reaction. run.
  rewrite (get_message_found mid k m s Hj Hk Hm). run. rewrite Hr. reflexivity.
Qed.

Lemma reactions_insert_count s key t :
  reaction_count (set_reactions <[key := t]> s) key.1.1 key.1.2 key.2 = 1%nat.
Proof.
  destruct key as [[m u] k]. rewrite reaction_count_lookup. cbn.
  now rewrite lookup_insert_eq.
Qed.

Lemma reactions_delete_count s key :
  reaction_count (set_reactions (delete key) s) key.1.1 key.1.2 key.2 = 0%nat.
Proof.
  destruct key as [[m u] k]. rewrite reaction_count_lookup. cbn.
  now rewrite lookup_delete_eq.
Qed.

Lemma reaction_count_zero s m u k :
  reaction_count s m u k = 0%nat -> reactions s !! (m, u, k) = None.
Proof.
  rewrite reaction_count_lookup. destruct (reactions s !! (m, u, k)); [discriminate|reflexivity].
Qed.

(** The real-time handler, twice. *)
Lemma handle_reaction_pair env1 env2 self a data mid reaction k m s :
  current_account self = Some a ->
  dict_get data (lit "message_id") = Some mid -> json_truthy mid = true ->
  dict_get data (lit "reaction") = Some reaction -> json_truthy reaction = true ->
  to_uuid mid = Some k -> messages s !! k = Some m ->
  reaction_count s (message_id m) (acc_id a) (char_field reaction) = 0%nat ->
  exists s1 s2 ud1 ud2 rd,
    handle_reaction env1 self data s
    = (s1, [GroupSend (room_group_name self)
              (Ev_reaction_broadcast mid reaction ud1 (lit "added") (Some rd) (now env1))],
       inr tt)
    /\ reaction_count s1 (message_id m) (acc_id a) (char_field reaction) = 1%nat
    /\ handle_reaction env2 self data s1
       = (s2, [GroupSend (room_group_name self)
                 (Ev_reaction_broadcast mid reaction ud2 (lit "removed") None (now env2))],
          inr tt)
    /\ reaction_count s2 (message_id m) (acc_id a) (char_field reaction) = 0%nat
    /\ reactions s2 = reactions s.
Proof.
  intros Ha Hmid Hmj Hre Hrj Hk Hm Hzero%reaction_count_zero.
  set (key := (message_id m, acc_id a, char_field reaction)).
  destruct (toggle_reaction_added env1 self a mid reaction k m s Hmj Hk Hm Hzero) as [rd Hadd].
  assert (Hrem := toggle_reaction_removed env2 self a mid reaction k m
            (set_reactions <[key := now env1]> s) (now env1) Hmj Hk Hm
            (lookup_insert_eq _ _ _)).
  unfold handle_reaction. rewrite Ha.
  rewrite (missing_false _ _ _ Hmid Hmj), (missing_false _ _ _ Hre Hrj).
  rewrite Hmid, Hre. cbn [orb default].
  unfold get_user_data, UserDisplaySerializer.
  do 5 eexists. split; [|split; [|split; [|split]]].
  - run. fold key. rewrite Hadd. run. reflexivity.
  - apply (reactions_insert_count s key).
  - run. fold key. rewrite Hrem. run. reflexivity.
  - apply (reactions_delete_count _ key).
  - cbn. apply delete_insert_id. exact Hzero.
Qed.

(** The REST view, twice. *)
Lemma add_reaction_pair env1 env2 a data r k m c s :
  messages s !! k = Some m ->
  conversations s !! conversation m = Some c ->
  dict_get data (lit "reaction") = Some (JStr r) -> r ∈ REACTION_CHOICES ->
  reaction_count s (message_id m) (acc_id a) r = 0%nat ->
  exists s1 s2 ud1 ud2 rd,
    add_reaction env1 a k data s
    = (s1, [GroupSend (group_of (conversation_id c))
              (Ev_reaction_broadcast (JStr k) (JStr r) ud1 (lit "added") (Some rd) (now env1))],
       inr {| status_code := 200;
              body := [("status", lit "Reaction " ++ lit "added"); ("action", lit "added")] |})
    /\ reaction_count s1 (message_id m) (acc_id a) r = 1%nat
    /\ add_reaction env2 a k data s1
       = (s2, [GroupSend (group_of (conversation_id c))
                 (Ev_reaction_broadcast (JStr k) (JStr r) ud2 (lit "removed") None (now env2))],
          inr {| status_code := 200;
                 body := [("status", lit "Reaction " ++ lit "removed"); ("action", lit "removed")] |})
    /\ reaction_count s2 (message_id m) (acc_id a) r = 0%nat
    /\ reactions s2 = reactions s.
Proof.
  intros Hm Hc Hre Hin Hzero%reaction_count_zero.
  set (key := (message_id m, acc_id a, r)) in *.
  unfold add_reaction, api_view, get_message_by_pk, invalid_reaction,
    MessageReactionSerializer, UserDisplaySerializer, fk_conversation.
  rewrite Hre.
  do 5 eexists. split; [|split; [|split; [|split]]].
  - run. rewrite Hm. run. rewrite (bool_decide_eq_true_2 _ Hin). run.
    fold key. rewrite Hzero. run. rewrite Hc. run. reflexivity.
  - apply (reactions_insert_count s key).
  - run. rewrite Hm. run. rewrite (bool_decide_eq_true_2 _ Hin). run.
    fold key. rewrite lookup_insert_eq. run. rewrite Hc. run. reflexivity.
  - apply (reactions_delete_count _ key).
  - cbn. apply delete_insert_id. exact Hzero.
Qed.

(** C4. For a message, a user and a reaction kind with no reaction
    stored: the reaction request, applied once, leaves exactly one
    stored reaction and broadcasts the action "added"; applied a second
    time it leaves none and broadcasts the action "removed". This holds
    of the real-time handler and, for the kinds that the REST view
    accepts, of the REST view. *)
Theorem reaction_toggle_in_pairs (env1 env2 : Env) (self : Consumer) (a : Account)
    (data : list (str * json)) (mid reaction : json) (k : str) (m : Message)
    (s : Store) :
  current_account self = Some a ->
  dict_get data (lit "message_id") = Some mid -> json_truthy mid = true ->
  dict_get data (lit "reaction") = Some reaction -> json_truthy reaction = true ->
  to_uuid mid = Some k -> messages s !! k = Some m ->
  reaction_count s (message_id m) (acc_id a) (char_field reaction) = 0%nat ->
  toggles_in_pairs (fun env => handle_reaction env self data) (room_group_name self)
    mid reaction (message_id m) (acc_id a) (char_field reaction) env1 env2 s
  /\ (forall r c, reaction = JStr r -> r ∈ REACTION_CHOICES ->
        conversations s !! conversation m = Some c ->
        toggles_in_pairs (fun env => add_reaction env a k data)
          (group_of (conversation_id c)) (JStr k) reaction
          (message_id m) (acc_id a) r env1 env2 s).
Proof.
  intros Ha Hmid Hmj Hre Hrj Hk Hm Hzero. split.
  - destruct (handle_reaction_pair env1 env2 self a data mid reaction k m s
                Ha Hmid Hmj Hre Hrj Hk Hm Hzero)
      as (s1 & s2 & ud1 & ud2 & rd & E1 & C1 & E2 & C2 & _).
    exists s1, s2, ud1, ud2, rd, tt, tt. auto.
  - intros r c -> Hin Hc.
    destruct (add_reaction_pair env1 env2 a data r k m c s Hm Hc Hre Hin Hzero)
      as (s1 & s2 & ud1 & ud2 & rd & E1 & C1 & E2 & C2 & _).
    do 7 eexists. eauto.
Qed.

(** ** Frames that are rejected *)

Lemma type_is_true d t :
  type_is d t = true -> dict_get d (lit "type") = Some (JStr (lit t)).
Proof.
  unfold type_is. destruct (dict_get d (lit "type")) as [[]|]; try discriminate.
  intros ->%bool_decide_eq_true. reflexivity.
Qed.

(** Decide the comparisons of two literal event kinds. *)
Ltac literal_types :=
  repeat match goal with
         | |- context [bool_decide (lit ?x = lit ?y)] =>
             let v := eval vm_compute in (bool_decide (lit x = lit y)) in
             change (bool_decide (lit x = lit y)) with v
         end.

(** Pick the branch of [receive] for a frame of the kind [t]. *)
Ltac branch_of Ht :=
  apply type_is_true in Ht; unfold type_is; rewrite Ht; literal_types;
  cbv iota.




(** ** Serialization of a message *)

Lemma get_decrypted_content_runs obj s conv :
  conversations s !! conversation obj = Some conv ->
  get_decrypted_content obj s
  = (s, [], inr (default [] (decrypt_message conv (Some (content obj))))).
Proof. intros Hc. unfold get_decrypted_content, fk_conversation. run. now rewrite Hc. Qed.

Lemma get_content_runs ctx obj s conv :
  conversations s !! conversation obj = Some conv ->
  get_content ctx obj s
  = (s, [], inr (if hidden_from s ctx (message_id obj) then None
                 else Some (default [] (decrypt_message conv (Some (content obj)))))).
Proof.
  intros Hc. unfold get_content, hidden_from. destruct ctx as [u|]; run.
  - destruct (deleted_by s (message_id obj) (acc_id u)); [reflexivity|].
    now rewrite (get_decrypted_content_runs obj s conv Hc).
  - now rewrite (get_decrypted_content_runs obj s conv Hc).
Qed.

Lemma get_reply_to_runs ctx obj s :
  serializable s obj -> exists r, get_reply_to ctx obj s = (s, [], inr r).
Proof.
  intros [_ Hr]. unfold get_reply_to.
  destruct (reply_to obj) as [rid|]; [|eexists; reflexivity].
  destruct (Hr rid eq_refl) as (r & Hm & [a Ha] & [c Hc]).
  unfold fk_account, UserDisplaySerializer. run. rewrite Hm. run. rewrite Ha. run.
  destruct (match ctx with Some u => deleted_by s (message_id r) (acc_id u) | None => false end).
  - run. eexists. reflexivity.
  - rewrite (get_decrypted_content_runs r s c Hc). run. eexists. reflexivity.
Qed.

(** A message whose foreign keys are sound serializes, without touching
    the database; its content is hidden from the user of the context
    when that user has a deletion row for it, and is the decrypted text
    otherwise. *)
Lemma FileField_to_representation_runs request obj s :
  url_available request obj = true ->
  exists att, FileField_to_representation request (attachment obj) s = (s, [], inr att).
Proof.
  unfold url_available, has_file, FileField_to_representation.
  destruct (attachment obj) as [name|]; [cbn|eexists; reflexivity].
  destruct (truthy name); [cbn|eexists; reflexivity].
  destruct request as [[u|u]|]; try (eexists; reflexivity). discriminate.
Qed.

(** With a [MockRequest] in the context, the attachment of a message
    with a file has no representation. *)
Lemma FileField_to_representation_mock u obj s :
  has_file obj = true ->
  FileField_to_representation (Some (MockRequest u)) (attachment obj) s
  = (s, [], inl (AttributeError
                   (lit "'MockRequest' object has no attribute 'build_absolute_uri'"))).
Proof.
  unfold has_file, FileField_to_representation.
  destruct (attachment obj) as [name|]; [cbn|discriminate].
  now intros ->.
Qed.

Lemma MessageSerializer_runs request sender_obj obj s conv :
  serializable s obj ->
  conversations s !! conversation obj = Some conv ->
  url_available request obj = true ->
  exists md,
    MessageSerializer request sender_obj obj s = (s, [], inr md)
    /\ md_message_id md = message_id obj
    /\ md_content md
       = (if hidden_from s (request_user <$> request) (message_id obj) then None
          else Some (default [] (decrypt_message conv (Some (content obj)))))
    /\ md_is_deleted_by_me md = hidden_from s (request_user <$> request) (message_id obj)
    /\ ud_acc_id (md_sender md)
       = match sender_obj with
         | Some (a, _) => acc_id a
         | None => from_option acc_id [] (accounts s !! sender obj)
         end.
Proof.
  intros Hs Hc Hfile.
  destruct (get_reply_to_runs (request_user <$> request) obj s Hs) as [r Hr].
  destruct (FileField_to_representation_runs request obj s Hfile) as [att Hatt].
  destruct Hs as [[[a Ha] _] _].
  unfold MessageSerializer. mstep.
  rewrite (get_content_runs _ obj s conv Hc). mstep. rewrite Hatt. mstep.
  destruct sender_obj as [[a' cache]|].
  - unfold UserDisplaySerializer. mstep. rewrite Hr.
    unfold get_is_deleted_by_me. mstep.
    eexists. split; [reflexivity|]. cbn. repeat split.
  - unfold fk_account. mstep. rewrite Ha. mstep.
    unfold UserDisplaySerializer. mstep. rewrite Hr.
    unfold get_is_deleted_by_me. mstep.
    eexists. split; [reflexivity|]. cbn. repeat split.
Qed.

(** The serializer of [serialize_message] raises on a message with a
    file, after it has read the content and without touching the
    database. *)
Lemma MessageSerializer_mock_file u sender_obj obj s conv :
  conversations s !! conversation obj = Some conv ->
  has_file obj = true ->
  MessageSerializer (Some (MockRequest u)) sender_obj obj s
  = (s, [], inl (AttributeError
                   (lit "'MockRequest' object has no attribute 'build_absolute_uri'"))).
Proof.
  intros Hc Hfile. unfold MessageSerializer. mstep.
  rewrite (get_content_runs _ obj s conv Hc). mstep.
  now rewrite (FileField_to_representation_mock u obj s Hfile).
Qed.

Lemma fan_out_all s room e f :
  (forall self, frames_for s self e = [f]) ->
  fan_out s room e = (fun self => (channel_name self, f)) <$> room.
Proof.
  intros Hf. unfold fan_out. induction room as [|self room IH]; [reflexivity|].
  rewrite bind_cons, IH, Hf. reflexivity.
Qed.

(** ** Restoring a soft-deleted message *)


(** ** Sending a message *)

Lemma encrypt_message_runs env adding conv x s :
  key_truthy (encryption_key conv) = true -> x <> [] ->
  encrypt_message env adding conv (Some x) s
  = (s, [], inr (conv, Some (ciphertext env conv x))).
Proof.
  intros Hk Hx%truthy_nonempty. unfold encrypt_message, ciphertext.
  rewrite Hx, Hk. run. now destruct (fernet_encrypt_text env _ x).
Qed.

Lemma Message_create_runs env msg conv s :
  key_truthy (encryption_key conv) = true -> content msg <> [] ->
  messages s !! message_id msg = None ->
  Message_create env msg conv None s
  = (set_messages <[message_id msg := with_content (ciphertext env conv (content msg)) msg]> s,
     [], inr (with_content (ciphertext env conv (content msg)) msg, conv)).
Proof.
  intros Hk Hx Hfresh. unfold Message_create, Message_encrypt.
  rewrite (proj2 (truthy_nonempty _) Hx). mstep.
  rewrite (encrypt_message_runs env false conv _ s Hk Hx). mstep.
  cbn [message_id with_content default]. rewrite Hfresh. reflexivity.
Qed.

Lemma reply_lookup_runs s (reply_to_id : option json) :
  (forall rid, reply_to_id = Some rid -> json_truthy rid = true -> is_Some (to_uuid rid)) ->
  match reply_to_id with
  | Some rid =>
      if json_truthy rid
      then try_except (r ← get_message rid; mret (Some r))
             (fun e => match e with
                       | DoesNotExist _ => mret None
                       | _ => raise e
                       end)
      else mret None
  | None => mret None
  end s = (s, [], inr (reply_of s reply_to_id)).
Proof.
  intros Hwf. unfold reply_of. destruct reply_to_id as [rid|]; [cbn|reflexivity].
  destruct (json_truthy rid) eqn:Hj; [|reflexivity].
  destruct (Hwf rid eq_refl Hj) as [k Hk]. rewrite Hk. cbn.
  unfold get_message, uuid_lookup.
  destruct rid; try discriminate; run; rewrite Hk; run;
    destruct (messages s !! k); reflexivity.
Qed.

Lemma save_message_runs env self a x reply_to_id att mtype conv s :
  conversations s !! self_conversation_id self = Some conv ->
  key_truthy (encryption_key conv) = true -> x <> [] ->
  messages s !! uuid4 env = None ->
  (forall rid, reply_to_id = Some rid -> json_truthy rid = true -> is_Some (to_uuid rid)) ->
  insert_error mtype att = None ->
  save_message env self a x reply_to_id att mtype s
  = (set_conversations (alter (with_updated_at (now env)) (conversation_id conv))
       (set_messages
          <[uuid4 env := new_message env a conv x mtype att (reply_of s reply_to_id)]> s),
     [], inr (with_attachment (attachment_held att)
                (new_message env a conv x mtype att (reply_of s reply_to_id)))).
Proof.
  intros Hc Hk Hx Hfresh Hwf Hins. unfold save_message. mstep.
  rewrite Hc. mstep.
  pose proof (reply_lookup_runs s reply_to_id Hwf) as Hr. mstep_in Hr.
  rewrite Hr, Hins. mstep.
  rewrite Message_create_runs by assumption. reflexivity.
Qed.







Section Persisted.
Context {L : FernetLaws}.

Lemma decrypt_ciphertext env conv x :
  key_truthy (encryption_key conv) = true -> x <> [] ->
  decrypt_message conv (Some (ciphertext env conv x)) = Some x.
Proof.
  intros Hk Hx. unfold ciphertext, decrypt_message. rewrite Hk.
  destruct (fernet_encrypt_text env _ x) as [e|] eqn:He; cbn [default from_option id].
  - apply fernet_text_roundtrip in He as [Hne Hd].
    apply truthy_nonempty in Hne as ->. cbn. now rewrite Hd.
  - apply fernet_text_failure in He.
    apply truthy_nonempty in Hx as ->. cbn. now rewrite He.
Qed.


Lemma insert_error_file mtype name :
  mtype <> JNull -> insert_error mtype (Some (JStr name)) = None.
Proof. intros Hn. unfold insert_error. destruct mtype; congruence. Qed.

(** C6, the code on a frame with an attachment. On a subscribed
    connection, over a sound database, a send-message frame with a
    non-empty text and the name of a file as its [attachment] (its
    other optional members well formed) makes the handler insert the
    message, with the attachment and the encrypted text, and set the
    conversation's [updated_at] to the current time; but the
    [MockRequest] that [serialize_message] gives the serializer has no
    [build_absolute_uri] for the URL of the file, so nothing is sent to
    the group, the typing state of the sender is not cleared, and the
    sender gets one error event that says that the message was not
    saved. *)
Theorem attachment_message_not_broadcast (env : Env) (self : Consumer) (a : Account)
    (data : list (str * json)) (conv : Conversation) (x name : str) (s : Store) :
  store_ok s ->
  current_account self = Some a ->
  accounts s !! acc_id a = Some a ->
  conversations s !! self_conversation_id self = Some conv ->
  messages s !! uuid4 env = None ->
  (forall rid, dict_get data (lit "reply_to") = Some rid ->
               json_truthy rid = true -> is_Some (to_uuid rid)) ->
  dict_get data (lit "message_type") <> Some JNull ->
  dict_get data (lit "message") = Some (JStr x) -> strip x <> [] ->
  dict_get data (lit "attachment") = Some (JStr name) -> name <> [] ->
  exists s' msg,
    handle_chat_message env self data s
    = (s', [Send (F_error
                    (lit "Failed to save message: "
                     ++ lit "'MockRequest' object has no attribute 'build_absolute_uri'")
                    (now env))],
       inr tt)
    /\ messages s' = <[uuid4 env := msg]> (messages s)
    /\ conversation msg = self_conversation_id self
    /\ sender msg = acc_id a
    /\ attachment msg = Some name
    /\ decrypt_message conv (Some (content msg)) = Some (strip x)
    /\ updated_at <$> conversations s' !! self_conversation_id self = Some (now env)
    /\ user_statuses s' = user_statuses s.
Proof.
  intros Hok Ha Hacc Hc Hfresh Hreply Htype Hx Hne Hatt Hname.
  pose proof (ok_conversation_key s Hok _ _ Hc) as Hcid.
  pose proof (ok_conversation_secret s Hok _ _ Hc) as Hk.
  set (reply_to_id := dict_get data (lit "reply_to")) in *.
  set (mtype := default (JStr (lit "text")) (dict_get data (lit "message_type"))).
  assert (Hmtype : mtype <> JNull).
  { unfold mtype. destruct (dict_get data (lit "message_type")) as [j|]; cbn.
    - intros ->. now apply Htype.
    - discriminate. }
  set (msg := new_message env a conv (strip x) mtype (Some (JStr name))
                (reply_of s reply_to_id)).
  set (s1 := set_conversations (alter (with_updated_at (now env)) (conversation_id conv))
               (set_messages <[uuid4 env := msg]> s)).
  assert (Hc1 : conversations s1 !! conversation msg
                = Some (with_updated_at (now env) conv)).
  { cbn. now rewrite lookup_alter_eq, Hcid, Hc. }
  exists s1, msg. split; [|split; [|split; [|split; [|split; [|split; [|split]]]]]].
  - unfold handle_chat_message, get_stripped. rewrite Ha, Hx. mstep.
    rewrite (proj2 (truthy_nonempty _) Hne). cbn [negb]. mstep.
    fold reply_to_id mtype. rewrite Hatt.
    rewrite (save_message_runs env self a (strip x) reply_to_id (Some (JStr name)) mtype
               conv s Hc Hk Hne Hfresh Hreply (insert_error_file mtype name Hmtype)).
    fold msg s1. mstep. unfold serialize_message.
    rewrite (MessageSerializer_mock_file a (Some (a, status_cache self))
               (with_attachment (attachment_held (Some (JStr name))) msg) s1 _ Hc1).
    + reflexivity.
    + unfold has_file. cbn [attachment with_attachment attachment_held from_option].
      now apply truthy_nonempty.
  - reflexivity.
  - exact Hcid.
  - reflexivity.
  - reflexivity.
  - cbn. apply (decrypt_ciphertext env conv (strip x) Hk Hne).
  - cbn. now rewrite Hcid, lookup_alter_eq, Hc.
  - reflexivity.
Qed.

End Persisted.

(** ** The REST mirror and the real-time handlers *)

Section Mirror.
Context (env : Env) (self : Consumer) (a : Account) (conv : Conversation) (s : Store).
Hypothesis Hok : store_ok s.
Hypothesis Ha : current_account self = Some a.
Hypothesis Hroom : room_group_name self = group_of (self_conversation_id self).
Hypothesis Hacc : accounts s !! acc_id a = Some a.
Hypothesis Hc : conversations s !! self_conversation_id self = Some conv.
Hypothesis Hin : acc_id a ∈ participants conv.













End Mirror.


(** * Further properties *)

(** ** What the handlers of a connection never do *)

Lemma unharmed_refl s : unharmed s s.
Proof. split; try reflexivity. intros k Hk. exact Hk. Qed.

Lemma unharmed_trans s1 s2 s3 : unharmed s1 s2 -> unharmed s2 s3 -> unharmed s1 s3.
Proof.
  intros [A1 B1 C1 D1 E1] [A2 B2 C2 D2 E2]. split.
  - congruence.
  - congruence.
  - intros k. now rewrite C2, C1.
  - intros k Hk. apply D2, D1, Hk.
  - etrans; eassumption.
Qed.

Lemma confined_at_ret E {A} (a : A) s : confined_at E (mret a) s.
Proof. split; [apply unharmed_refl|constructor]. Qed.

Lemma confined_at_raise E {A} (e : exn) s : confined_at E (raise (A := A) e) s.
Proof. split; [apply unharmed_refl|constructor]. Qed.

Lemma confined_at_emit (E : Effect -> Prop) e s : E e -> confined_at E (emit e) s.
Proof. intros He. split; [apply unharmed_refl|]. repeat constructor. exact He. Qed.

Lemma confined_at_put E s s' : unharmed s s' -> confined_at E (put s') s.
Proof. intros Hu. split; [exact Hu|constructor]. Qed.

Lemma confined_at_get_bind E {B} (k : Store -> M B) s :
  confined_at E (k s) s -> confined_at E (get ≫= k) s.
Proof.
  unfold confined_at. mstep. destruct (k s s) as [[s2 es2] r]. cbn. auto.
Qed.

Lemma confined_at_bind E {A B} (m : M A) (k : A -> M B) s :
  confined_at E m s -> (forall a, confined E (k a)) -> confined_at E (m ≫= k) s.
Proof.
  unfold confined, confined_at. mstep.
  destruct (m s) as [[s1 es1] [e|a]]; cbn; [tauto|].
  intros [Hu Hes] Hk. specialize (Hk a s1).
  destruct (k a s1) as [[s2 es2] r]. cbn in *. destruct Hk as [Hu2 Hes2]. split.
  - eapply unharmed_trans; eassumption.
  - apply Forall_app. split; assumption.
Qed.

Lemma confined_at_try E {A} (m : M A) (h : exn -> M A) s :
  confined_at E m s -> (forall e, confined E (h e)) -> confined_at E (try_except m h) s.
Proof.
  unfold confined, confined_at. mstep.
  destruct (m s) as [[s1 es1] [e|a]]; cbn; [|tauto].
  intros [Hu Hes] Hh. specialize (Hh e s1).
  destruct (h e s1) as [[s2 es2] r]. cbn in *. destruct Hh as [Hu2 Hes2]. split.
  - eapply unharmed_trans; eassumption.
  - apply Forall_app. split; assumption.
Qed.

Lemma confined_at_or_raise E {A} (o : option A) e s : confined_at E (or_raise o e) s.
Proof. destruct o; [apply confined_at_ret|apply confined_at_raise]. Qed.

Lemma unharmed_user_statuses f s : unharmed s (set_user_statuses f s).
Proof. split; try reflexivity. intros k Hk. exact Hk. Qed.

Lemma unharmed_reactions f s : unharmed s (set_reactions f s).
Proof. split; try reflexivity. intros k Hk. exact Hk. Qed.

Lemma unharmed_read_statuses f s : unharmed s (set_read_statuses f s).
Proof. split; try reflexivity. intros k Hk. exact Hk. Qed.

Lemma unharmed_new_message k m s : unharmed s (set_messages <[k := m]> s).
Proof.
  split; try reflexivity. intros k' Hk. cbn.
  destruct (decide (k = k')) as [->|Hne].
  - rewrite lookup_insert_eq. eauto.
  - now rewrite lookup_insert_ne.
Qed.

Lemma unharmed_new_deletion k t s :
  message_deletions s !! k = None -> unharmed s (set_message_deletions <[k := t]> s).
Proof.
  intros Hk. split; try reflexivity.
  - intros k' Hk'. exact Hk'.
  - cbn. now apply insert_subseteq.
Qed.

Lemma unharmed_updated_at t k s :
  unharmed s (set_conversations (alter (with_updated_at t) k) s).
Proof.
  split; try reflexivity; [|intros k' Hk'; exact Hk'].
  intros k'. cbn. destruct (decide (k = k')) as [->|Hne].
  - rewrite lookup_alter_eq. now destruct (conversations s !! k').
  - now rewrite lookup_alter_ne.
Qed.

Lemma unharmed_encryption_key key self row s :
  conversations s !! conversation_id self = Some row ->
  unharmed s (set_conversations
                <[conversation_id self := with_encryption_key key row]> s).
Proof.
  intros Hrow. split; try reflexivity; [|intros k' Hk'; exact Hk'].
  intros k'. cbn. destruct (decide (conversation_id self = k')) as [<-|Hne].
  - now rewrite lookup_insert_eq, Hrow.
  - now rewrite lookup_insert_ne.
Qed.

Create HintDb confine discriminated.

#[local] Hint Resolve unharmed_refl unharmed_user_statuses unharmed_reactions
  unharmed_read_statuses unharmed_new_message unharmed_new_deletion
  unharmed_updated_at unharmed_encryption_key : confine.

(** One step of the analysis of a handler. *)
Ltac confine_step :=
  match goal with
  | |- confined _ _ => intros ?
  | |- confined_at _ (mret _) _ => apply confined_at_ret
  | |- confined_at _ (raise _) _ => apply confined_at_raise
  | |- confined_at _ (or_raise _ _) _ => apply confined_at_or_raise
  | |- confined_at _ (put _) _ => apply confined_at_put; eauto with confine
  | |- confined_at _ (emit _) _ => apply confined_at_emit; cbn; auto
  | |- confined_at _ (get ≫= _) _ => apply confined_at_get_bind; cbv beta
  | |- confined_at _ (try_except _ _) _ => apply confined_at_try; [|intros ?]
  | |- confined_at _ (_ ≫= _) _ => apply confined_at_bind; [|intros ?]
  | |- confined_at _ (match ?x with _ => _ end) _ => destruct x eqn:?
  | |- confined_at _ (if ?x then _ else _) _ => destruct x eqn:?
  | |- confined_at _ (let '(_, _) := ?x in _) _ => destruct x
  | |- confined_at _ _ _ => solve [eauto with confine]
  end.

Ltac confine := repeat confine_step.

Lemma confined_uuid_lookup E mid s : confined_at E (uuid_lookup mid) s.
Proof. unfold uuid_lookup. confine. Qed.

#[local] Hint Resolve confined_uuid_lookup : confine.

Lemma confined_get_message E mid s : confined_at E (get_message mid) s.
Proof. unfold get_message. confine. Qed.

Lemma confined_get_message_or_404 E mid s : confined_at E (get_message_or_404 mid) s.
Proof. unfold get_message_or_404. confine. Qed.

Lemma confined_fk_conversation E cid s : confined_at E (fk_conversation cid) s.
Proof. unfold fk_conversation. confine. Qed.

Lemma confined_fk_account E uid s : confined_at E (fk_account uid) s.
Proof. unfold fk_account. confine. Qed.

Lemma confined_get_or_create_user_status E env uid s :
  confined_at E (get_or_create_user_status env uid) s.
Proof. unfold get_or_create_user_status. confine. Qed.

#[local] Hint Resolve confined_get_message confined_get_message_or_404
  confined_fk_conversation confined_fk_account
  confined_get_or_create_user_status : confine.

Lemma confined_save_encryption_key E env self s :
  confined_at E (save_encryption_key env false self) s.
Proof. unfold save_encryption_key. confine. Qed.

#[local] Hint Resolve confined_save_encryption_key : confine.

Lemma confined_encrypt_message E env self message s :
  confined_at E (encrypt_message env false self message) s.
Proof. unfold encrypt_message. confine. Qed.

#[local] Hint Resolve confined_encrypt_message : confine.

Lemma confined_Message_encrypt E env self conv s :
  confined_at E (Message_encrypt env self conv) s.
Proof. unfold Message_encrypt. confine. Qed.

#[local] Hint Resolve confined_Message_encrypt : confine.

Lemma confined_Message_create E env self conv bad s :
  confined_at E (Message_create env self conv bad) s.
Proof. unfold Message_create. confine. Qed.

Lemma confined_Message_save E env self conv s :
  confined_at E (Message_save env self conv) s.
Proof. unfold Message_save. confine. Qed.

Lemma confined_UserDisplaySerializer E cache a s :
  confined_at E (UserDisplaySerializer cache a) s.
Proof. unfold UserDisplaySerializer. confine. Qed.

Lemma confined_get_decrypted_content E obj s : confined_at E (get_decrypted_content obj) s.
Proof. unfold get_decrypted_content. confine. Qed.

#[local] Hint Resolve confined_Message_create confined_Message_save
  confined_UserDisplaySerializer confined_get_decrypted_content : confine.

Lemma confined_get_content E ctx obj s : confined_at E (get_content ctx obj) s.
Proof. unfold get_content. confine. Qed.

Lemma confined_get_is_deleted_by_me E ctx obj s :
  confined_at E (get_is_deleted_by_me ctx obj) s.
Proof. unfold get_is_deleted_by_me. confine. Qed.

Lemma confined_get_reply_to E ctx obj s : confined_at E (get_reply_to ctx obj) s.
Proof. unfold get_reply_to. confine. Qed.

#[local] Hint Resolve confined_get_content confined_get_is_deleted_by_me
  confined_get_reply_to : confine.

Lemma confined_FileField_to_representation E request value s :
  confined_at E (FileField_to_representation request value) s.
Proof. unfold FileField_to_representation. confine. Qed.

#[local] Hint Resolve confined_FileField_to_representation : confine.

Lemma confined_MessageSerializer E request sender_obj obj s :
  confined_at E (MessageSerializer request sender_obj obj) s.
Proof. unfold MessageSerializer. confine. Qed.

Lemma confined_MessageReactionSerializer E cache a r t s :
  confined_at E (MessageReactionSerializer cache a r t) s.
Proof. unfold MessageReactionSerializer. confine. Qed.

#[local] Hint Resolve confined_MessageSerializer confined_MessageReactionSerializer
  : confine.

Lemma confined_set_user_status E env self a st s :
  confined_at E (set_user_status env self a st) s.
Proof. unfold set_user_status. confine. Qed.

Lemma confined_set_typing_status E env self a b s :
  confined_at E (set_typing_status env self a b) s.
Proof. unfold set_typing_status. confine. Qed.

Lemma confined_clear_typing_status E a s : confined_at E (clear_typing_status a) s.
Proof. unfold clear_typing_status. confine. Qed.

Lemma confined_save_message E env self a x rid att mtype s :
  confined_at E (save_message env self a x rid att mtype) s.
Proof. unfold save_message. confine. Qed.

Lemma confined_edit_message E env a mid x s : confined_at E (edit_message env a mid x) s.
Proof. unfold edit_message. confine. Qed.

Lemma confined_delete_message_for_user E env a mid s :
  confined_at E (delete_message_for_user env a mid) s.
Proof. unfold delete_message_for_user. confine. Qed.

Lemma confined_toggle_reaction E env self a mid r s :
  confined_at E (toggle_reaction env self a mid r) s.
Proof. unfold toggle_reaction. confine. Qed.

Lemma confined_mark_message_read E env a mid s :
  confined_at E (mark_message_read env a mid) s.
Proof. unfold mark_message_read. confine. Qed.

Lemma confined_get_stripped E data k s : confined_at E (get_stripped data k) s.
Proof. unfold get_stripped. confine. Qed.

Lemma confined_send_error room env msg s :
  confined_at (room_effect room) (send_error env msg) s.
Proof. unfold send_error. confine. Qed.

#[local] Hint Resolve confined_set_user_status confined_set_typing_status
  confined_clear_typing_status confined_save_message confined_edit_message
  confined_delete_message_for_user confined_toggle_reaction
  confined_mark_message_read confined_get_stripped confined_send_error : confine.

Lemma confined_handle_chat_message env self data s :
  confined_at (room_effect (room_group_name self)) (handle_chat_message env self data) s.
Proof. unfold handle_chat_message, serialize_message. confine. Qed.

Lemma confined_handle_message_edit env self data s :
  confined_at (room_effect (room_group_name self)) (handle_message_edit env self data) s.
Proof. unfold handle_message_edit, serialize_message. confine. Qed.

Lemma confined_handle_message_delete env self data s :
  confined_at (room_effect (room_group_name self)) (handle_message_delete env self data) s.
Proof. unfold handle_message_delete, get_user_data. confine. Qed.

Lemma confined_handle_reaction env self data s :
  confined_at (room_effect (room_group_name self)) (handle_reaction env self data) s.
Proof. unfold handle_reaction, get_user_data. confine. Qed.

Lemma confined_handle_read_receipt env self data s :
  confined_at (room_effect (room_group_name self)) (handle_read_receipt env self data) s.
Proof. unfold handle_read_receipt, get_user_data. confine. Qed.

Lemma confined_handle_user_typing env self data s :
  confined_at (room_effect (room_group_name self)) (handle_user_typing env self data) s.
Proof. unfold handle_user_typing, get_user_data. confine. Qed.

Lemma confined_handle_ping room env s :
  confined_at (room_effect room) (handle_ping env) s.
Proof. unfold handle_ping. confine. Qed.

#[local] Hint Resolve confined_handle_chat_message confined_handle_message_edit
  confined_handle_message_delete confined_handle_reaction
  confined_handle_read_receipt confined_handle_user_typing confined_handle_ping
  : confine.

(** X1. Whatever the inbound frame and whatever the database,
    [receive] only writes frames to the connection's own socket and
    sends events to the connection's own group: it never closes or
    accepts the connection and never touches the membership of a group.
    In the database it leaves the accounts, the participants of every
    conversation and the conversation deletion rows as they were, it
    removes no message, and it removes or alters no message deletion
    row. *)
Theorem receive_is_confined (env : Env) (self : Consumer) (text : str) (s : Store) :
  unharmed s (receive env self text s).1.1
  /\ Forall (room_effect (room_group_name self)) (receive env self text s).1.2.
Proof.
  change (confined_at (room_effect (room_group_name self)) (receive env self text) s).
  unfold receive. confine.
Qed.

(** ** Keepalive *)

(** X2. A ping frame is answered with one pong frame on the own socket
    and nothing else, on any connection, authenticated or not: the
    database is unchanged and nothing goes to the group. *)
Theorem ping_is_answered (env : Env) (self : Consumer) (text : str)
    (d : list (str * json)) (s : Store) :
  json_loads text = Some (JDict d) ->
  type_is d "ping" = true ->
  receive env self text s = (s, [Send (F_pong (now env))], inr tt).
Proof.
  intros Hl Ht. unfold receive. rewrite Hl. run. branch_of Ht. reflexivity.
Qed.

(** ** Leaving *)

Lemma clear_typing_status_row a s :
  exists s', clear_typing_status a s = (s', [], inr tt)
             /\ (forall us, user_statuses s' !! acc_id a = Some us ->
                   is_typing_in us = None /\ typing_started_at us = None)
             /\ (forall u, u <> acc_id a -> user_statuses s' !! u = user_statuses s !! u)
             /\ accounts s' = accounts s /\ conversations s' = conversations s
             /\ messages s' = messages s /\ read_statuses s' = read_statuses s
             /\ reactions s' = reactions s
             /\ message_deletions s' = message_deletions s
             /\ conversation_deletions s' = conversation_deletions s.
Proof.
  unfold clear_typing_status. mstep.
  destruct (user_statuses s !! acc_id a) as [us|] eqn:Hus.
  - eexists. split; [reflexivity|]. cbn. split; [|split].
    + intros us' Hus'. rewrite lookup_insert_eq in Hus'. injection Hus' as <-.
      split; reflexivity.
    + intros u Hu. now rewrite lookup_insert_ne.
    + repeat split.
  - exists s. split; [reflexivity|]. split; [|split].
    + intros us' Hus'. congruence.
    + reflexivity.
    + repeat split.
Qed.

(** X3. [disconnect] of an authenticated connection: the channel is
    discarded from the group, the user's status row says offline since
    now and is not typing, one [status_broadcast] event with the status
    offline goes to the group, and no other table changes; whatever
    conversation is asked about, and by whomever, the user is not
    reported as typing afterwards. The [user_data] of the event carries
    the status as the user object of the connection has it: offline
    since now when the object has not looked at its status before or
    when this call creates the row, and otherwise what the object has
    cached, whatever the table says. [disconnect] of a connection
    without an authenticated user only discards the channel from the
    group. *)
Theorem disconnect_outcomes (env : Env) (self : Consumer) (s : Store) :
  (forall a, current_account self = Some a ->
     exists s' ud us,
       disconnect env self s
       = (s', [GroupDiscard (room_group_name self) (channel_name self);
               GroupSend (room_group_name self)
                 (Ev_status_broadcast ud (lit "offline") (now env))], inr tt)
       /\ ud_acc_id ud = acc_id a
       /\ (user_statuses s !! acc_id a = None \/ status_cache self = None ->
           ud_status ud = (lit "offline", Some (now env)))
       /\ (forall cached, is_Some (user_statuses s !! acc_id a) ->
             status_cache self = Some cached ->
             ud_status ud = get_status (Some cached) s a)
       /\ user_statuses s' !! acc_id a = Some us
       /\ status us = lit "offline" /\ last_seen us = now env
       /\ is_typing_in us = None /\ typing_started_at us = None
       /\ (forall u, u <> acc_id a -> user_statuses s' !! u = user_statuses s !! u)
       /\ accounts s' = accounts s /\ conversations s' = conversations s
       /\ messages s' = messages s /\ read_statuses s' = read_statuses s
       /\ reactions s' = reactions s
       /\ message_deletions s' = message_deletions s
       /\ conversation_deletions s' = conversation_deletions s
       /\ (forall env' obj req, acc_id a ∉ get_typing_users env' s' obj req))
  /\ (current_account self = None ->
      disconnect env self s
      = (s, [GroupDiscard (room_group_name self) (channel_name self)], inr tt)).
Proof.
  split.
  - intros a Ha. unfold disconnect. rewrite Ha.
    unfold clear_typing_status, set_user_status, get_or_create_user_status,
      broadcast_status_change, get_user_data, UserDisplaySerializer. mstep.
    destruct (user_statuses s !! acc_id a) as [us|] eqn:Hus; mstep;
      cbn [user_statuses set_user_statuses]; rewrite ?lookup_insert_eq, ?Hus; mstep;
      cbn [room_group_name with_status_cache status_cache].
    + do 3 eexists. split; [reflexivity|].
      cbn [ud_acc_id ud_status user_statuses set_user_statuses accounts conversations
           messages read_statuses reactions message_deletions conversation_deletions].
      split; [reflexivity|]. split; [|split].
      * intros [Hn | Hn]; [discriminate|]. rewrite Hn. unfold get_status, related_status.
        cbn [user_statuses set_user_statuses]. now rewrite lookup_insert_eq.
      * intros cached _ ->. reflexivity.
      * rewrite lookup_insert_eq.
        repeat (split; [first [reflexivity
                              | intros u Hu; rewrite !lookup_insert_ne by congruence; auto]|]).
        intros env' obj req Hin. apply elem_of_get_typing_users in Hin as (us' & Hl & Hrow).
        cbn in Hl. rewrite lookup_insert_eq in Hl. injection Hl as <-.
        unfold is_typing_row in Hrow. cbn in Hrow.
        rewrite andb_false_r in Hrow. discriminate.
    + do 3 eexists. split; [reflexivity|].
      cbn [ud_acc_id ud_status user_statuses set_user_statuses accounts conversations
           messages read_statuses reactions message_deletions conversation_deletions].
      split; [reflexivity|]. split; [|split].
      * intros _. reflexivity.
      * intros cached [? ?]. discriminate.
      * rewrite lookup_insert_eq.
        repeat (split; [first [reflexivity
                              | intros u Hu; rewrite !lookup_insert_ne by congruence; auto]|]).
        intros env' obj req Hin. apply elem_of_get_typing_users in Hin as (us' & Hl & Hrow).
        cbn in Hl. rewrite lookup_insert_eq in Hl. injection Hl as <-.
        unfold is_typing_row in Hrow. cbn in Hrow.
        rewrite andb_false_r in Hrow. discriminate.
  - intros Hn. unfold disconnect. rewrite Hn. reflexivity.
Qed.

(** ** Which connections an event reaches *)

Lemma frames_status s self a ud st ts :
  current_account self = Some a ->
  frames_for s self (Ev_status_broadcast ud st ts)
  = if bool_decide (ud_acc_id ud = acc_id a) then [] else [F_user_status ud st ts].
Proof.
  intros Hu%current_account_user.
  unfold frames_for, dispatch, status_broadcast, not_from_self.
  rewrite Hu. run. case_bool_decide; reflexivity.
Qed.

(** X4. In a group of authenticated connections, a presence event
    ([status_broadcast]) is written to every connection except those of
    the user it is about, while a new message ([chat_message_broadcast])
    is written to every connection, those of its sender included. *)
Theorem presence_and_message_delivery (s : Store) (room : list Consumer)
    (ud : UserData) (st : str) (ts : Z) (m : MessageData) :
  Forall (fun self => is_Some (current_account self)) room ->
  fan_out s room (Ev_status_broadcast ud st ts)
  = (fun self => (channel_name self, F_user_status ud st ts))
      <$> filter (fun self => ~ belongs_to (ud_acc_id ud) self) room
  /\ fan_out s room (Ev_chat_message_broadcast m)
     = (fun self => (channel_name self, F_chat_message m)) <$> room.
Proof.
  intros Hroom. split.
  - apply fan_out_filter. eapply Forall_impl; [exact Hroom|].
    intros self [a Ha]. cbn. rewrite (frames_status _ _ a) by done.
    assert (Hb : belongs_to (ud_acc_id ud) self <-> ud_acc_id ud = acc_id a)
      by (unfold belongs_to; rewrite Ha; cbn; split; [intros [= Heq] | intros Heq];
          congruence).
    case_bool_decide; destruct (decide _) as [?|?]; try reflexivity; exfalso; tauto.
  - apply fan_out_all. intros self. reflexivity.
Qed.

(** ** Soft deletion of a message *)

Lemma with_deletion_idem mid uid t t' s :
  with_deletion mid uid t' (with_deletion mid uid t s) = with_deletion mid uid t s.
Proof.
  unfold with_deletion. destruct (message_deletions s !! (mid, uid)) eqn:Hd.
  - now rewrite Hd.
  - cbn. now rewrite lookup_insert_eq.
Qed.

Lemma delete_message_for_user_runs env a mid k m conv s :
  json_truthy mid = true -> to_uuid mid = Some k -> messages s !! k = Some m ->
  conversations s !! conversation m = Some conv ->
  acc_id a ∈ participants conv ->
  delete_message_for_user env a mid s
  = (with_deletion (message_id m) (acc_id a) (now env) s, [], inr tt).
Proof.
  intros Hj Hk Hm Hc Hin.
  unfold delete_message_for_user, get_message_or_404, uuid_lookup, fk_conversation,
    with_deletion.
  destruct mid; try discriminate; mstep; rewrite Hk; mstep; cbn [mbind option_bind];
    rewrite Hm; mstep; rewrite Hc; mstep;
    rewrite (bool_decide_eq_true_2 _ Hin); cbn [negb]; mstep;
    destruct (message_deletions s !! (message_id m, acc_id a)); reflexivity.
Qed.

(** X5. Soft deletion over the socket is idempotent. For a message of
    a conversation in which the user takes part, a delete frame leaves
    a deletion row for (message, user) and sends
    [message_deleted_broadcast] to the group; a second delete frame
    changes nothing in the database, the time of the first deletion
    included, and sends the event again. *)
Theorem socket_delete_idempotent (env1 env2 : Env) (self : Consumer) (a : Account)
    (data : list (str * json)) (mid : json) (k : str) (m : Message)
    (conv : Conversation) (s : Store) :
  current_account self = Some a ->
  dict_get data (lit "message_id") = Some mid -> json_truthy mid = true ->
  to_uuid mid = Some k -> messages s !! k = Some m ->
  conversations s !! conversation m = Some conv ->
  acc_id a ∈ participants conv ->
  exists ud1 ud2,
    handle_message_delete env1 self data s
    = (with_deletion (message_id m) (acc_id a) (now env1) s,
       [GroupSend (room_group_name self)
          (Ev_message_deleted_broadcast mid ud1 (now env1))], inr tt)
    /\ is_Some (message_deletions (with_deletion (message_id m) (acc_id a) (now env1) s)
                  !! (message_id m, acc_id a))
    /\ handle_message_delete env2 self data
         (with_deletion (message_id m) (acc_id a) (now env1) s)
       = (with_deletion (message_id m) (acc_id a) (now env1) s,
          [GroupSend (room_group_name self)
             (Ev_message_deleted_broadcast mid ud2 (now env2))], inr tt).
Proof.
  intros Ha Hmid Hj Hk Hm Hc Hin.
  set (s1 := with_deletion (message_id m) (acc_id a) (now env1) s).
  assert (Hm1 : messages s1 !! k = Some m)
    by (unfold s1, with_deletion; destruct (message_deletions s !! _); exact Hm).
  assert (Hc1 : conversations s1 !! conversation m = Some conv)
    by (unfold s1, with_deletion; destruct (message_deletions s !! _); exact Hc).
  do 2 eexists. split; [|split].
  - unfold handle_message_delete. rewrite Ha, (missing_false _ _ _ Hmid Hj), Hmid.
    cbn [default from_option id]. mstep.
    rewrite (delete_message_for_user_runs env1 a mid k m conv s Hj Hk Hm Hc Hin).
    unfold get_user_data, UserDisplaySerializer. mstep. reflexivity.
  - unfold s1, with_deletion.
    destruct (message_deletions s !! (message_id m, acc_id a)) eqn:Hd.
    + rewrite Hd. eauto.
    + cbn. rewrite lookup_insert_eq. eauto.
  - unfold handle_message_delete. rewrite Ha, (missing_false _ _ _ Hmid Hj), Hmid.
    cbn [default from_option id]. mstep.
    rewrite (delete_message_for_user_runs env2 a mid k m conv s1 Hj Hk Hm1 Hc1 Hin).
    unfold s1. rewrite with_deletion_idem.
    unfold get_user_data, UserDisplaySerializer. mstep. reflexivity.
Qed.

Lemma undo_new_deletion k t s :
  message_deletions s !! k = None ->
  set_message_deletions (delete k) (set_message_deletions <[k := t]> s) = s.
Proof.
  intros Hk. destruct s. unfold set_message_deletions. cbn in *. f_equal.
  now apply delete_insert_id.
Qed.

(** X6. The life of a soft deletion over REST, for a message of a
    conversation in which the user takes part and that the user has not
    deleted yet: [delete_message] adds the deletion row and announces
    it; [delete_message] again answers that the message was already
    deleted, changes nothing and announces nothing; [restore_message]
    then brings the database back exactly to what it was before the
    deletion; and [restore_message] again is refused with 400. *)
Theorem rest_delete_restore_cycle (env1 env2 env3 env4 : Env) (a : Account)
    (mid : str) (m : Message) (conv : Conversation) (s : Store) :
  messages s !! mid = Some m ->
  serializable s m ->
  conversations s !! conversation m = Some conv ->
  acc_id a ∈ participants conv ->
  message_deletions s !! (message_id m, acc_id a) = None ->
  let s1 := set_message_deletions <[(message_id m, acc_id a) := now env1]> s in
  exists ud md,
    delete_message env1 a mid s
    = (s1, [GroupSend (group_of (conversation_id conv))
              (Ev_message_deleted_broadcast (JStr mid) ud (now env1))],
       inr {| status_code := 200;
              body := [("status", lit "Message deleted successfully")] |})
    /\ delete_message env2 a mid s1
       = (s1, [], inr {| status_code := 200;
                         body := [("status", lit "Message was already deleted")] |})
    /\ restore_message env3 a mid s1
       = (s, [GroupSend (group_of (conversation_id conv))
                (Ev_message_restored_broadcast md)],
          inr {| status_code := 200;
                 body := [("status", lit "Message restored successfully")] |})
    /\ restore_message env4 a mid s
       = (s, [], inr {| status_code := 400;
                        body := [("error", lit "Message was not deleted")] |}).
Proof.
  intros Hm Hs Hc Hin Hnone s1.
  destruct (MessageSerializer_runs (Some (HttpRequest a)) None m s conv Hs Hc eq_refl)
    as (md & Hrun & _).
  exists {| ud_acc_id := acc_id a; ud_email := email a;
            ud_display_name := get_display_name a;
            ud_profile_picture := get_profile_picture a;
            ud_status := get_status None s1 a |}, md.
  split; [|split; [|split]].
  - unfold delete_message, api_view, get_message_by_pk, fk_conversation,
      UserDisplaySerializer. mstep. rewrite Hm. mstep. rewrite Hc. mstep.
    rewrite (bool_decide_eq_true_2 _ Hin). cbn [negb]. mstep.
    rewrite Hnone. mstep. reflexivity.
  - unfold delete_message, api_view, get_message_by_pk, fk_conversation. mstep.
    change (messages s1) with (messages s). rewrite Hm. mstep.
    change (conversations s1) with (conversations s). rewrite Hc. mstep.
    rewrite (bool_decide_eq_true_2 _ Hin). cbn [negb]. mstep.
    unfold s1 at 1. cbn [message_deletions set_message_deletions].
    rewrite lookup_insert_eq. reflexivity.
  - unfold restore_message, api_view, get_message_by_pk, fk_conversation. mstep.
    change (messages s1) with (messages s). rewrite Hm. mstep.
    unfold s1 at 1. cbn [message_deletions set_message_deletions].
    rewrite lookup_insert_eq. mstep.
    unfold s1. rewrite (undo_new_deletion _ _ s Hnone), Hrun. mstep.
    rewrite Hc. mstep. reflexivity.
  - unfold restore_message, api_view, get_message_by_pk. mstep.
    rewrite Hm. mstep. rewrite Hnone. reflexivity.
Qed.

(** X7. A delete request is refused without any change and without any
    broadcast when the message does not exist or the user takes no part
    in its conversation: over the socket the sender gets one error
    event, over REST the answer is 404 or 403. *)
Theorem delete_refused (env : Env) (self : Consumer) (a : Account)
    (data : list (str * json)) (mid : json) (k : str) (s : Store) :
  current_account self = Some a ->
  dict_get data (lit "message_id") = Some mid -> json_truthy mid = true ->
  to_uuid mid = Some k ->
  (messages s !! k = None ->
   handle_message_delete env self data s
   = (s, [Send (F_error (lit "Failed to delete message: "
                         ++ lit "No Message matches the given query.") (now env))],
      inr tt)
   /\ delete_message env a k s
      = (s, [], inr {| status_code := 404;
                       body := [("detail", lit "No Message matches the given query.")] |}))
  /\ (forall m conv,
        messages s !! k = Some m -> conversations s !! conversation m = Some conv ->
        acc_id a ∉ participants conv ->
        handle_message_delete env self data s
        = (s, [Send (F_error (lit "Failed to delete message: "
                              ++ lit "You do not have permission to delete this message")
                       (now env))], inr tt)
        /\ delete_message env a k s
           = (s, [], inr {| status_code := 403;
                            body := [("error",
                                      lit "You do not have permission to delete this message")] |})).
Proof.
  intros Ha Hmid Hj Hk. split.
  - intros Hm. split.
    + unfold handle_message_delete. rewrite Ha, (missing_false _ _ _ Hmid Hj), Hmid.
      cbn [default from_option id].
      unfold delete_message_for_user, get_message_or_404, uuid_lookup, send_error.
      destruct mid; try discriminate; mstep; rewrite Hk; mstep; cbn [mbind option_bind];
        rewrite Hm; reflexivity.
    + unfold delete_message, api_view, get_message_by_pk. mstep. rewrite Hm. reflexivity.
  - intros m conv Hm Hc Hout. split.
    + unfold handle_message_delete. rewrite Ha, (missing_false _ _ _ Hmid Hj), Hmid.
      cbn [default from_option id].
      unfold delete_message_for_user, get_message_or_404, uuid_lookup, send_error,
        fk_conversation.
      destruct mid; try discriminate; mstep; rewrite Hk; mstep; cbn [mbind option_bind];
        rewrite Hm; mstep; rewrite Hc; mstep;
        rewrite (bool_decide_eq_false_2 _ Hout); reflexivity.
    + unfold delete_message, api_view, get_message_by_pk, fk_conversation. mstep.
      rewrite Hm. mstep. rewrite Hc. mstep.
      rewrite (bool_decide_eq_false_2 _ Hout). reflexivity.
Qed.

(** ** Editing a message *)




Section Edited.
Context {L : FernetLaws}.


End Edited.

(** ** Who is reported as typing *)

Lemma set_typing_status_runs env self a b c s :
  conversations s !! self_conversation_id self = Some c ->
  exists s' us0 cache,
    set_typing_status env self a b s = (s', [], inr cache)
    /\ user_statuses s' !! acc_id a
       = Some (if json_truthy b
               then with_typing (Some (conversation_id c)) (Some (now env)) us0
               else with_typing None None us0).
Proof.
  intros Hc. unfold set_typing_status, fk_conversation, get_or_create_user_status.
  mstep. rewrite Hc. mstep.
  destruct (user_statuses s !! acc_id a) as [us|]; mstep; do 3 eexists;
    (split; [reflexivity|]); cbn [set_user_statuses user_statuses];
    apply lookup_insert_eq.
Qed.

(** X9. After a typing frame of a user on a connection to an existing
    conversation, one [user_typing_broadcast] event goes to the group
    and the typing lists are as follows, whatever the time, the
    conversation and the user of the query. If the frame says that the
    user is typing, the user is listed exactly for that conversation,
    for queries of other users, while at most ten seconds have elapsed.
    If it says that the user is not typing, or says nothing, the user is
    listed nowhere. *)
Theorem typing_frame_outcomes (env env' : Env) (self : Consumer) (a : Account)
    (data : list (str * json)) (c obj : Conversation) (req : option str) (s : Store) :
  current_account self = Some a ->
  conversations s !! self_conversation_id self = Some c ->
  let is_typing := default (JBool false) (dict_get data (lit "is_typing")) in
  exists s' ud,
    handle_user_typing env self data s
    = (s', [GroupSend (room_group_name self)
              (Ev_user_typing_broadcast ud is_typing (now env))], inr tt)
    /\ ud_acc_id ud = acc_id a
    /\ (acc_id a ∈ get_typing_users env' s' obj req
        <-> json_truthy is_typing = true
            /\ conversation_id obj = conversation_id c
            /\ req <> Some (acc_id a)
            /\ now env' - now env <= 10 * 1000000).
Proof.
  intros Ha Hc is_typing.
  destruct (set_typing_status_runs env self a is_typing c s Hc)
    as (s1 & us0 & cache & Hset & Hrow1).
  unfold handle_user_typing. rewrite Ha. fold is_typing. mstep. rewrite Hset.
  unfold get_user_data, UserDisplaySerializer. mstep.
  do 2 eexists. split; [reflexivity|]. split; [reflexivity|].
  rewrite elem_of_get_typing_users. rewrite Hrow1. split.
  - intros (us & [= <-] & Hrow). unfold is_typing_row in Hrow.
    destruct (json_truthy is_typing); cbn in Hrow.
    + apply andb_true_iff in Hrow as [Hrow H3].
      apply andb_true_iff in Hrow as [H1 H2].
      apply bool_decide_eq_true in H1. apply bool_decide_eq_true in H2.
      apply negb_true_iff, bool_decide_eq_false in H3.
      unfold TYPING_WINDOW in H2. repeat split; [congruence|exact H3|lia].
    + rewrite andb_false_r in Hrow. discriminate.
  - intros (Hj & Hobj & Hreq & Hwin). rewrite Hj. eexists. split; [reflexivity|].
    unfold is_typing_row. cbn. rewrite Hobj.
    rewrite bool_decide_eq_true_2 by reflexivity.
    rewrite bool_decide_eq_true_2 by (unfold TYPING_WINDOW; lia).
    rewrite bool_decide_eq_false_2 by exact Hreq. reflexivity.
Qed.

(** ** Read receipts *)

(** X10. A read-receipt frame for an existing message writes the read
    time of (message, user), replacing the time of an earlier receipt:
    after two receipts there is one row, with the time of the second;
    nothing else changes in the database and each receipt sends one
    [read_receipt_broadcast] event to the group. For a message that
    does not exist the sender gets one error event and nothing
    changes. *)
Theorem read_receipt_upsert (env1 env2 : Env) (self : Consumer) (a : Account)
    (data : list (str * json)) (mid : json) (k : str) (s : Store) :
  current_account self = Some a ->
  dict_get data (lit "message_id") = Some mid -> json_truthy mid = true ->
  to_uuid mid = Some k ->
  (forall m, messages s !! k = Some m ->
     exists ud1 ud2 s2,
       handle_read_receipt env1 self data s
       = (set_read_statuses <[(message_id m, acc_id a) := now env1]> s,
          [GroupSend (room_group_name self)
             (Ev_read_receipt_broadcast mid ud1 (now env1))], inr tt)
       /\ handle_read_receipt env2 self data
            (set_read_statuses <[(message_id m, acc_id a) := now env1]> s)
          = (s2, [GroupSend (room_group_name self)
                    (Ev_read_receipt_broadcast mid ud2 (now env2))], inr tt)
       /\ read_statuses s2 = <[(message_id m, acc_id a) := now env2]> (read_statuses s)
       /\ s2 = set_read_statuses (fun _ => read_statuses s2) s)
  /\ (messages s !! k = None ->
      handle_read_receipt env1 self data s
      = (s, [Send (F_error (lit "Failed to mark message as read: "
                            ++ lit "Message not found") (now env1))], inr tt)).
Proof.
  intros Ha Hmid Hj Hk. split.
  - intros m Hm. do 3 eexists. split; [|split; [|split]].
    + unfold handle_read_receipt. rewrite Ha, (missing_false _ _ _ Hmid Hj), Hmid.
      cbn [default from_option id]. unfold mark_message_read. mstep.
      rewrite (get_message_found mid k m s Hj Hk Hm).
      unfold get_user_data, UserDisplaySerializer. mstep. reflexivity.
    + unfold handle_read_receipt. rewrite Ha, (missing_false _ _ _ Hmid Hj), Hmid.
      cbn [default from_option id]. unfold mark_message_read. mstep.
      rewrite (get_message_found mid k m
                 (set_read_statuses <[(message_id m, acc_id a) := now env1]> s)
                 Hj Hk Hm).
      unfold get_user_data, UserDisplaySerializer. mstep. reflexivity.
    + cbn. apply insert_insert_eq.
    + reflexivity.
  - intros Hm. unfold handle_read_receipt. rewrite Ha, (missing_false _ _ _ Hmid Hj), Hmid.
    cbn [default from_option id].
    unfold mark_message_read, get_message, uuid_lookup, send_error.
    destruct mid; try discriminate; mstep; rewrite Hk; mstep; cbn [mbind option_bind];
      rewrite Hm; mstep; reflexivity.
Qed.

(** ** Reactions over REST *)

(** X11. The REST view [add_reaction] turns down, with 400 and without
    any change or broadcast, a request for an existing message whose
    reaction is missing, is null, a number or a truth value, or is a
    string that is not one of the six kinds of [REACTION_CHOICES]; and
    it answers 404, again without any change, when the message does not
    exist. *)
Theorem add_reaction_refused (env : Env) (a : Account) (mid : str)
    (data : list (str * json)) (s : Store) :
  (forall m, messages s !! mid = Some m ->
     match dict_get data (lit "reaction") with
     | Some (JStr r) => r ∉ REACTION_CHOICES
     | Some (JList _) | Some (JDict _) => False
     | _ => True
     end ->
     add_reaction env a mid data s
     = (s, [], inr {| status_code := 400; body := [("error", lit "Invalid reaction")] |}))
  /\ (messages s !! mid = None ->
      add_reaction env a mid data s
      = (s, [], inr {| status_code := 404;
                       body := [("detail", lit "No Message matches the given query.")] |})).
Proof.
  split.
  - intros m Hm Hbad. unfold add_reaction, api_view, get_message_by_pk, invalid_reaction.
    mstep. rewrite Hm. mstep.
    destruct (dict_get data (lit "reaction")) as [[]|]; try contradiction; mstep;
      try reflexivity.
    rewrite (bool_decide_eq_false_2 _ Hbad). reflexivity.
  - intros Hm. unfold add_reaction, api_view, get_message_by_pk. mstep.
    rewrite Hm. reflexivity.
Qed.

(** ** A conversation without a key *)

Section Keyless.
Context {L : FernetLaws}.

(** X12. [encrypt_message] on a conversation without a key, for a
    non-empty text. On an instance that was loaded from the database:
    when the conversation has a row, a freshly generated key is written
    to that row (and to nothing else) and set on the instance, and the
    result decrypts to the text under the instance so updated; when the
    row is gone, the call raises [DatabaseError] and the database is
    unchanged. On an instance that was never saved: when no row has its
    id, the instance is inserted with the fresh key, the current time
    and no participants, and the result decrypts to the text under it;
    when a row has its id, the call raises [IntegrityError] and the
    database is unchanged. *)
Theorem encrypt_generates_key (env : Env) (self : Conversation) (x : str) (s : Store) :
  key_truthy (encryption_key self) = false ->
  truthy (generate_key env) = true ->
  x <> [] ->
  let self' := with_encryption_key (Some (generate_key env)) self in
  let inserted :=
    {| conversation_id := conversation_id self; participants := ∅;
       name := name self; is_group := is_group self;
       created_at := now env; updated_at := now env;
       created_by := created_by self;
       encryption_key := Some (generate_key env) |} in
  (forall row, conversations s !! conversation_id self = Some row ->
     (exists e,
        encrypt_message env false self (Some x) s
        = (set_conversations
             <[conversation_id self := with_encryption_key (Some (generate_key env)) row]> s,
           [], inr (self', Some e))
        /\ decrypt_message self' (Some e) = Some x)
     /\ encrypt_message env true self (Some x) s
        = (s, [], inl (IntegrityError
                         (lit "duplicate key value violates unique constraint"))))
  /\ (conversations s !! conversation_id self = None ->
      encrypt_message env false self (Some x) s
      = (s, [], inl (DatabaseError
                       (lit "Save with update_fields did not affect any rows.")))
      /\ exists e,
           encrypt_message env true self (Some x) s
           = (set_conversations <[conversation_id self := inserted]> s, [],
              inr (inserted, Some e))
           /\ decrypt_message inserted (Some e) = Some x).
Proof.
  intros Hk Hg Hx self' inserted. apply truthy_nonempty in Hx as Hx'. split.
  - intros row Hrow. split.
    + exists (ciphertext env self' x). split.
      * unfold encrypt_message, save_encryption_key, ciphertext. rewrite Hx', Hk.
        cbn [negb]. mstep. cbn [conversation_id with_encryption_key encryption_key].
        rewrite Hrow. mstep.
        cbn [encryption_key with_encryption_key default from_option id].
        subst self'. cbn [encryption_key with_encryption_key default from_option id].
        now destruct (fernet_encrypt_text env (generate_key env) x).
      * apply decrypt_ciphertext; [exact Hg|exact Hx].
    + unfold encrypt_message, save_encryption_key. rewrite Hx', Hk.
      cbn [negb]. mstep. cbn [conversation_id with_encryption_key encryption_key].
      rewrite Hrow. reflexivity.
  - intros Hnone. split.
    + unfold encrypt_message, save_encryption_key.
      rewrite Hx', Hk. cbn [negb]. mstep.
      cbn [conversation_id with_encryption_key encryption_key].
      rewrite Hnone. reflexivity.
    + exists (ciphertext env inserted x). split.
      * unfold encrypt_message, save_encryption_key, ciphertext. rewrite Hx', Hk.
        cbn [negb]. mstep.
        cbn [conversation_id with_encryption_key encryption_key name is_group created_by].
        rewrite Hnone. mstep. fold inserted.
        cbn [encryption_key inserted default from_option id].
        now destruct (fernet_encrypt_text env (generate_key env) x).
      * apply decrypt_ciphertext; [exact Hg|exact Hx].
Qed.

End Keyless.

(** ** Soft deletion of a conversation *)

Lemma undo_new_conversation_deletion k t s :
  conversation_deletions s !! k = None ->
  set_conversation_deletions (delete k) (set_conversation_deletions <[k := t]> s) = s.
Proof.
  intros Hk. destruct s. unfold set_conversation_deletions. cbn in *. f_equal.
  now apply delete_insert_id.
Qed.

Lemma get_conversation_of_member a cid c s :
  conversations s !! cid = Some c -> acc_id a ∈ participants c ->
  get_conversation_of a cid s = (s, [], inr c).
Proof.
  intros Hc Hin. unfold get_conversation_of. mstep. rewrite Hc.
  destruct (decide (acc_id a ∈ participants c)); [reflexivity|contradiction].
Qed.

Lemma get_conversation_of_stranger a cid s :
  (forall c, conversations s !! cid = Some c -> acc_id a ∉ participants c) ->
  get_conversation_of a cid s
  = (s, [], inl (Http404 (lit "No Conversation matches the given query."))).
Proof.
  intros Hout. unfold get_conversation_of. mstep.
  destruct (conversations s !! cid) as [c|] eqn:Hc; [|reflexivity].
  destruct (decide (acc_id a ∈ participants c)) as [Hin|]; [|reflexivity].
  destruct (Hout c eq_refl Hin).
Qed.

(** The listing of a user holds a conversation under an id exactly when
    the user takes part in it and has no deletion row for it. *)
Lemma listed_iff s a cid c :
  ConversationListCreateView_get_queryset s a !! cid = Some c
  <-> conversations s !! cid = Some c /\ acc_id a ∈ participants c
      /\ conversation_deletions s !! (conversation_id c, acc_id a) = None.
Proof.
  unfold ConversationListCreateView_get_queryset.
  rewrite map_lookup_filter_Some. cbn. tauto.
Qed.

Lemma listed_may_join s a cid :
  is_Some (ConversationListCreateView_get_queryset s a !! cid)
  <-> may_join s cid (acc_id a).
Proof.
  unfold may_join. split.
  - intros [c Hc]. exists c. apply listed_iff, Hc.
  - intros (c & Hc). exists c. apply listed_iff, Hc.
Qed.

(** X13. The life of a soft deletion of a conversation, for a user who
    takes part in it and has not deleted it: [delete_conversation] adds
    the deletion row; from then on the conversation is missing from the
    listing of the user, the access check of the handshake fails for the
    user, and the listings of all other users are as before;
    [delete_conversation] again answers that it was already deleted and
    changes nothing; [restore_conversation] brings the database back
    exactly to what it was; [restore_conversation] again is refused with
    400. None of the four requests sends an event. *)
Theorem conversation_delete_restore_cycle (env1 env2 : Env) (a : Account)
    (self : Consumer) (cid : str) (c : Conversation) (s : Store) :
  conversations s !! cid = Some c ->
  acc_id a ∈ participants c ->
  conversation_deletions s !! (conversation_id c, acc_id a) = None ->
  self_conversation_id self = cid ->
  let s1 := set_conversation_deletions <[(conversation_id c, acc_id a) := now env1]> s in
  delete_conversation env1 a cid s
  = (s1, [], inr {| status_code := 200;
                    body := [("status", lit "Conversation deleted successfully")] |})
  /\ ConversationListCreateView_get_queryset s1 a !! cid = None
  /\ verify_conversation_access self a s1 = (s1, [], inr false)
  /\ (forall b, acc_id b <> acc_id a ->
        ConversationListCreateView_get_queryset s1 b
        = ConversationListCreateView_get_queryset s b)
  /\ delete_conversation env2 a cid s1
     = (s1, [], inr {| status_code := 200;
                       body := [("status", lit "Conversation was already deleted")] |})
  /\ restore_conversation a cid s1
     = (s, [], inr {| status_code := 200;
                      body := [("status", lit "Conversation restored successfully")] |})
  /\ restore_conversation a cid s
     = (s, [], inr {| status_code := 400;
                      body := [("error", lit "Conversation was not deleted")] |}).
Proof.
  intros Hc Hin Hnone Hself s1.
  assert (Hc1 : conversations s1 !! cid = Some c) by exact Hc.
  assert (Hrow : conversation_deletions s1 !! (conversation_id c, acc_id a)
                 = Some (now env1))
    by (unfold s1; cbn; apply lookup_insert_eq).
  split; [|split; [|split; [|split; [|split; [|split]]]]].
  - unfold delete_conversation, api_view. mstep.
    rewrite (get_conversation_of_member a cid c s Hc Hin). mstep.
    rewrite Hnone. mstep. reflexivity.
  - destruct (ConversationListCreateView_get_queryset s1 a !! cid) as [c'|] eqn:Hl;
      [|reflexivity].
    apply listed_iff in Hl. destruct Hl as (Hc' & _ & Hd).
    rewrite Hc1 in Hc'. injection Hc' as <-. congruence.
  - unfold verify_conversation_access. mstep. rewrite Hself, Hc1.
    destruct (decide (acc_id a ∈ participants c)); [|contradiction].
    rewrite Hrow. rewrite bool_decide_eq_true_2 by eauto. reflexivity.
  - intros b Hb. unfold ConversationListCreateView_get_queryset.
    apply map_filter_ext. intros i x _. unfold s1. cbn.
    rewrite lookup_insert_ne by congruence. tauto.
  - unfold delete_conversation, api_view. mstep.
    rewrite (get_conversation_of_member a cid c s1 Hc1 Hin). mstep.
    rewrite Hrow. reflexivity.
  - unfold restore_conversation, api_view. mstep.
    rewrite (get_conversation_of_member a cid c s1 Hc1 Hin). mstep.
    rewrite Hrow. mstep. unfold s1.
    rewrite (undo_new_conversation_deletion _ _ s Hnone). reflexivity.
  - unfold restore_conversation, api_view. mstep.
    rewrite (get_conversation_of_member a cid c s Hc Hin). mstep.
    rewrite Hnone. reflexivity.
Qed.

(** X14. The handshake and the REST listings agree on who may see a
    conversation: a connection is accepted exactly when the scope
    resolves to an account whose conversation listing holds the
    conversation of the URL, and the listing and the detail view select
    the same conversations. *)
Theorem handshake_agrees_with_listing (env : Env) (scope : Scope) (channel : str)
    (s : Store) :
  (Accept ∈ (connect env scope channel s).1.2
   <-> exists a, resolved scope s = Some a
                 /\ is_Some (ConversationListCreateView_get_queryset s a
                               !! url_conversation_id scope))
  /\ forall a, ConversationDetailView_get_queryset s a
               = ConversationListCreateView_get_queryset s a.
Proof.
  split; [|reflexivity].
  unfold resolved, connect, authenticate_user. run.
  match goal with
  | |- context [match ?e with Some x => _ | None => _ end] =>
      match type of e with option User => set (u := e) end
  end.
  destruct u as [[|a]|].
  - cbn. split; [intros H; apply list_elem_of_singleton in H; discriminate|].
    intros (a & [=] & _).
  - unfold current_account. cbn.
    set (self := {| channel_name := channel |}).
    destruct (verify_conversation_access_spec self a s) as (b & -> & Hb). cbn.
    destruct b.
    + unfold set_user_status, broadcast_status_change, get_user_data,
        UserDisplaySerializer, get_or_create_user_status. run.
      split.
      * intros _. exists a. split; [reflexivity|].
        apply listed_may_join, Hb. reflexivity.
      * intros _. destruct (user_statuses s !! acc_id a); run; right; left.
    + split.
      * intros H. apply list_elem_of_singleton in H. discriminate.
      * intros (a' & [= <-] & Hl). apply listed_may_join, Hb in Hl. discriminate.
  - cbn. split; [intros H; apply list_elem_of_singleton in H; discriminate|].
    intros (a & [=] & _).
Qed.

(** ** The message listing *)

Lemma visible_iff s cid uid m :
  m ∈ visible_messages s cid uid
  <-> exists k, messages s !! k = Some m /\ conversation m = cid
                /\ is_deleted m = false
                /\ message_deletions s !! (message_id m, uid) = None.
Proof.
  unfold visible_messages. rewrite list_elem_of_fmap. split.
  - intros ([k m'] & -> & Hin). apply elem_of_map_to_list in Hin.
    apply map_lookup_filter_Some in Hin. cbn in Hin. exists k. tauto.
  - intros (k & Hk & H). exists (k, m). split; [reflexivity|].
    apply elem_of_map_to_list, map_lookup_filter_Some. cbn. tauto.
Qed.

Lemma delete_message_store env a k m conv s :
  messages s !! k = Some m ->
  conversations s !! conversation m = Some conv ->
  acc_id a ∈ participants conv ->
  (delete_message env a k s).1.1 = with_deletion (message_id m) (acc_id a) (now env) s.
Proof.
  intros Hm Hc Hin.
  unfold delete_message, api_view, get_message_by_pk, fk_conversation,
    UserDisplaySerializer, with_deletion.
  mstep. rewrite Hm. mstep. rewrite Hc. mstep.
  rewrite (bool_decide_eq_true_2 _ Hin). cbn [negb]. mstep.
  destruct (message_deletions s !! (message_id m, acc_id a)); reflexivity.
Qed.

Lemma MessageListCreateView_get_queryset_runs a cid c s :
  conversations s !! cid = Some c -> acc_id a ∈ participants c ->
  MessageListCreateView_get_queryset a cid s
  = (s, [], inr (visible_messages s (conversation_id c) (acc_id a))).
Proof.
  intros Hc Hin. unfold MessageListCreateView_get_queryset. mstep.
  rewrite (get_conversation_of_member a cid c s Hc Hin). reflexivity.
Qed.

(** X15. A soft deletion hides a message from the one who deleted it
    and from nobody else. In a sound database, after the participant
    [a] has deleted the message [m] over REST, the message listing of
    [a] for the conversation is the former one without [m], and the
    listing of any other participant is the same list as before. Who
    takes no part in the conversation gets no listing but the 404
    exception. *)
Theorem message_listing_per_user (env : Env) (a b : Account) (k : str)
    (m : Message) (c : Conversation) (s : Store) :
  store_ok s ->
  messages s !! k = Some m ->
  conversations s !! conversation m = Some c ->
  acc_id a ∈ participants c -> acc_id b ∈ participants c ->
  acc_id b <> acc_id a ->
  let cid := conversation m in
  let s1 := (delete_message env a k s).1.1 in
  (exists la la1 lb,
     MessageListCreateView_get_queryset a cid s = (s, [], inr la)
     /\ MessageListCreateView_get_queryset a cid s1 = (s1, [], inr la1)
     /\ (forall m', m' ∈ la1 <-> m' ∈ la /\ m' <> m)
     /\ MessageListCreateView_get_queryset b cid s = (s, [], inr lb)
     /\ MessageListCreateView_get_queryset b cid s1 = (s1, [], inr lb))
  /\ forall x, acc_id x ∉ participants c ->
       MessageListCreateView_get_queryset x cid s
       = (s, [], inl (Http404 (lit "No Conversation matches the given query."))).
Proof.
  intros Hok Hm Hc Ha Hb Hne cid s1.
  pose proof (ok_message_key s Hok _ _ Hm) as Hkey.
  assert (Hs1 : s1 = with_deletion k (acc_id a) (now env) s)
    by (unfold s1; rewrite (delete_message_store env a k m c s Hm Hc Ha), Hkey;
        reflexivity).
  assert (Hmsg : messages s1 = messages s)
    by (rewrite Hs1; unfold with_deletion; now destruct (message_deletions s !! _)).
  assert (Hc1 : conversations s1 !! cid = Some c)
    by (rewrite Hs1; unfold with_deletion; now destruct (message_deletions s !! _)).
  assert (Hrow : forall k' u,
            message_deletions s1 !! (k', u) = None
            <-> message_deletions s !! (k', u) = None /\ (k', u) <> (k, acc_id a)).
  { intros k' u. rewrite Hs1. unfold with_deletion.
    destruct (message_deletions s !! (k, acc_id a)) eqn:Hd.
    - split; [|tauto]. intros Hn. split; [exact Hn|]. congruence.
    - cbn. destruct (decide ((k', u) = (k, acc_id a))) as [->|Hd'].
      + rewrite lookup_insert_eq. split; [discriminate|tauto].
      + rewrite lookup_insert_ne by congruence. tauto. }
  split.
  - exists (visible_messages s (conversation_id c) (acc_id a)),
           (visible_messages s1 (conversation_id c) (acc_id a)),
           (visible_messages s (conversation_id c) (acc_id b)).
    split; [|split; [|split; [|split]]].
    + apply (MessageListCreateView_get_queryset_runs a cid c s Hc Ha).
    + apply (MessageListCreateView_get_queryset_runs a cid c s1 Hc1 Ha).
    + intros m'. rewrite !visible_iff, Hmsg. split.
      * intros (k' & Hk' & Hcv & Hdel & Hnone). apply Hrow in Hnone.
        destruct Hnone as [Hnone Hdiff]. split; [exists k'; tauto|].
        intros ->. apply Hdiff. now rewrite Hkey.
      * intros [(k' & Hk' & Hcv & Hdel & Hnone) Hdiff]. exists k'.
        split; [exact Hk'|]. split; [exact Hcv|]. split; [exact Hdel|].
        apply Hrow. split; [exact Hnone|]. intros [= Hid].
        apply Hdiff. pose proof (ok_message_key s Hok _ _ Hk') as Hkey'.
        assert (k' = k) by congruence. subst k'. congruence.
    + apply (MessageListCreateView_get_queryset_runs b cid c s Hc Hb).
    + rewrite (MessageListCreateView_get_queryset_runs b cid c s1 Hc1 Hb).
      replace (visible_messages s1 (conversation_id c) (acc_id b))
        with (visible_messages s (conversation_id c) (acc_id b)); [reflexivity|].
      unfold visible_messages. rewrite Hmsg. do 2 f_equal.
      apply map_filter_ext. intros i x _. cbn. rewrite Hrow.
      split; [|tauto]. intros (? & ? & ?). repeat split; try assumption. congruence.
  - intros x Hx. unfold MessageListCreateView_get_queryset. mstep.
    rewrite (get_conversation_of_stranger x cid s); [reflexivity|].
    intros c' Hc'. unfold cid in Hc'. rewrite Hc in Hc'. now injection Hc' as <-.
Qed.

(** ** Presence over REST *)

Lemma broadcasts_to_each (f : Conversation -> str) (ev : Event)
    (l : list (str * Conversation)) :
  broadcasts ((fun kv : str * Conversation => GroupSend (f kv.2) ev) <$> l)
  = (fun kv : str * Conversation => (f kv.2, event_type ev)) <$> l.
Proof. induction l as [|x l IH]; [reflexivity|]. cbn. now rewrite <- IH. Qed.

Lemma get_or_create_user_status_runs env uid s :
  exists us created,
    get_or_create_user_status env uid s
    = (set_user_statuses <[uid := us]> s, [], inr (us, created)).
Proof.
  unfold get_or_create_user_status. mstep.
  destruct (user_statuses s !! uid) as [us|] eqn:Hu.
  - exists us, false. mstep. do 2 f_equal.
    destruct s. unfold set_user_statuses. cbn in *. f_equal.
    symmetry. now apply insert_id.
  - do 2 eexists. reflexivity.
Qed.

(** X16. A status update over REST with a status text (["online"] when
    the request names none): the status row of the user gets the text
    and the time of the request, no other status row changes, and a
    [status_broadcast] event with this text goes to the group of each
    conversation that the user may join (takes part in and has not
    deleted), once to each, and to no other group. With a null status
    nothing is broadcast and the request fails. *)
Theorem status_update_reaches_own_conversations (env : Env) (a : Account)
    (data : list (str * json)) (st : str) (s : Store) :
  (forall k c, conversations s !! k = Some c -> conversation_id c = k) ->
  dict_get data (lit "status") = Some (JStr st)
  \/ (dict_get data (lit "status") = None /\ st = lit "online") ->
  (exists s' es us,
     update_user_status env a data s
     = (s', es, inr {| status_code := 200;
                       body := [("status", lit "Status updated to " ++ st)] |})
     /\ user_statuses s' !! acc_id a = Some us
     /\ status us = st /\ last_seen us = now env
     /\ (forall uid, uid <> acc_id a -> user_statuses s' !! uid = user_statuses s !! uid)
     /\ (forall e, e ∈ es ->
           exists cid ud,
             e = GroupSend (group_of cid) (Ev_status_broadcast ud st (now env))
             /\ may_join s cid (acc_id a))
     /\ (forall cid, may_join s cid (acc_id a) ->
           (group_of cid, lit "status_broadcast") ∈ broadcasts es)
     /\ NoDup (broadcasts es))
  /\ forall data', dict_get data' (lit "status") = Some JNull ->
       exists s' e, update_user_status env a data' s = (s', [], inl e).
Proof.
  intros Hkeys Hst. split.
  - assert (Hv : default (JStr (lit "online")) (dict_get data (lit "status")) = JStr st)
      by (destruct Hst as [->|[-> ->]]; reflexivity).
    destruct (get_or_create_user_status_runs env (acc_id a) s) as (us & created & Hrun).
    unfold update_user_status, api_view. rewrite Hv. mstep. rewrite Hrun. mstep.
    unfold UserDisplaySerializer, emit_all. mstep.
    set (s' := set_user_statuses _ (set_user_statuses _ s)).
    set (ud := {| ud_acc_id := acc_id a |}).
    assert (Hq : ConversationListCreateView_get_queryset s' a
                 = ConversationListCreateView_get_queryset s a) by reflexivity.
    rewrite Hq. cbn [char_field]. rewrite app_nil_r.
    set (ev := Ev_status_broadcast ud st (now env)).
    eexists _, _, _. split; [reflexivity|].
    split; [unfold s'; cbn; apply lookup_insert_eq|].
    split; [reflexivity|]. split; [reflexivity|].
    split; [|split; [|split]].
    + intros uid Hne. unfold s'. cbn. now rewrite !lookup_insert_ne by congruence.
    + intros e He. apply list_elem_of_fmap in He. destruct He as ([k c] & -> & Hin).
      apply elem_of_map_to_list in Hin. exists (conversation_id c), ud.
      split; [reflexivity|]. cbn.
      pose proof (proj1 (listed_iff s a k c) Hin) as (Hc & _).
      rewrite (Hkeys k c Hc). apply listed_may_join. eauto.
    + intros cid Hj. apply listed_may_join in Hj. destruct Hj as [c Hc].
      rewrite (broadcasts_to_each (fun c => group_of (conversation_id c)) ev).
      apply list_elem_of_fmap. exists (cid, c). split.
      * cbn. pose proof (proj1 (listed_iff s a cid c) Hc) as (Hc' & _).
        now rewrite (Hkeys cid c Hc').
      * now apply elem_of_map_to_list.
    + rewrite (broadcasts_to_each (fun c => group_of (conversation_id c)) ev).
      apply NoDup_fmap_2_strong; [|apply NoDup_map_to_list].
      intros [k1 c1] [k2 c2] H1 H2 Heq.
      apply elem_of_map_to_list in H1, H2.
      pose proof (proj1 (listed_iff s a k1 c1) H1) as (Hc1 & _).
      pose proof (proj1 (listed_iff s a k2 c2) H2) as (Hc2 & _).
      cbn in Heq. injection Heq as Heq.
      rewrite (Hkeys k1 c1 Hc1), (Hkeys k2 c2 Hc2) in Heq. subst k2.
      congruence.
  - intros data' Hnull.
    destruct (get_or_create_user_status_runs env (acc_id a) s) as (us & created & Hrun).
    unfold update_user_status, api_view. rewrite Hnull. cbn [default from_option id].
    mstep. rewrite Hrun. mstep. eauto.
Qed.

(** ** Editing over REST *)



Section RestEdit.
Context {L : FernetLaws}.



End RestEdit.

(** ** The reaction counts *)

Lemma size_filter_list {A} (P : str * str * str * A -> Prop)
    `{!forall x, Decision (P x)} (m : gmap (str * str * str) A) :
  size (filter P m) = List.length (filter P (map_to_list m)).
Proof.
  rewrite map_filter_alt, <- length_map_to_list.
  apply Permutation_length, map_to_list_to_map.
  eapply sublist_NoDup; [apply (NoDup_fst_map_to_list m)|].
  apply fmap_sublist, sublist_filter.
Qed.

Lemma count_reaction_lookup counts r k :
  count_reaction counts r !! k
  = if decide (r.1.2 = k) then Some (default 0 (counts !! k) + 1) else counts !! k.
Proof.
  unfold count_reaction. destruct (decide (r.1.2 = k)) as [<-|Hne].
  - rewrite lookup_alter_eq.
    destruct (decide (is_Some (counts !! r.1.2))) as [[n Hn]|Hnone].
    + now rewrite Hn.
    + rewrite lookup_insert_eq. apply eq_None_not_Some in Hnone. now rewrite Hnone.
  - rewrite lookup_alter_ne by exact Hne.
    destruct (decide (is_Some (counts !! r.1.2))); [reflexivity|].
    now rewrite lookup_insert_ne.
Qed.

Lemma foldl_count_reaction (l : list (str * str * str * Z)) counts k :
  foldl count_reaction counts l !! k
  = match List.length (filter (fun r : str * str * str * Z => r.1.2 = k) l) with
    | O => counts !! k
    | S n => Some (default 0 (counts !! k) + Z.of_nat (S n))
    end.
Proof.
  revert counts. induction l as [|r l IH]; intros counts; [reflexivity|].
  cbn [foldl]. rewrite IH, count_reaction_lookup, filter_cons.
  destruct (decide (r.1.2 = k)) as [Hr|Hr]; [|reflexivity].
  cbn [List.length default from_option id].
  destruct (List.length (filter (fun r0 : str * str * str * Z => r0.1.2 = k) l));
    f_equal; lia.
Qed.

(** X18. The reaction counts of a message hold a kind exactly when some
    user has reacted to the message with it, and then the number of
    users who have. *)
Theorem reaction_counts_tally (s : Store) (obj : Message) (k : str) :
  get_reaction_counts s obj !! k
  = match reacted_with s (message_id obj) k with
    | O => None
    | S n => Some (Z.of_nat (S n))
    end.
Proof.
  unfold get_reaction_counts, message_reactions, reacted_with.
  rewrite foldl_count_reaction, lookup_empty.
  rewrite <- size_filter_list, map_filter_filter.
  replace (filter (fun '(i, x) => (i, x).1.2 = k ∧ (i, x).1.1.1 = message_id obj)
             (reactions s))
    with (filter (fun kv : str * str * str * Z =>
                    kv.1.1.1 = message_id obj ∧ kv.1.2 = k) (reactions s))
    by (apply map_filter_ext; intros i x _; cbn; tauto).
  destruct (size _); [reflexivity|]. cbn [default from_option id]. f_equal.
Qed.

(** ** The integrity of the database *)

Lemma kept_at_ret P {A} (a : A) s : kept_at P (mret a) s.
Proof. intros H. exact H. Qed.

Lemma kept_at_raise P {A} (e : exn) s : kept_at P (raise (A := A) e) s.
Proof. intros H. exact H. Qed.

Lemma kept_at_emit P e s : kept_at P (emit e) s.
Proof. intros H. exact H. Qed.

Lemma kept_at_put (P : Store -> Prop) s s' : (P s -> P s') -> kept_at P (put s') s.
Proof. intros H. exact H. Qed.

Lemma kept_at_get_bind P {B} (k : Store -> M B) s :
  kept_at P (k s) s -> kept_at P (get ≫= k) s.
Proof. unfold kept_at. mstep. destruct (k s s) as [[s2 es2] r]. cbn. auto. Qed.

Lemma kept_at_bind P {A B} (m : M A) (k : A -> M B) s :
  kept_at P m s -> (forall a, kept P (k a)) -> kept_at P (m ≫= k) s.
Proof.
  unfold kept, kept_at. mstep.
  destruct (m s) as [[s1 es1] [e|a]]; cbn; [tauto|].
  intros Hm Hk HP. specialize (Hk a s1 (Hm HP)).
  destruct (k a s1) as [[s2 es2] r]. exact Hk.
Qed.

Lemma kept_at_try P {A} (m : M A) (h : exn -> M A) s :
  kept_at P m s -> (forall e, kept P (h e)) -> kept_at P (try_except m h) s.
Proof.
  unfold kept, kept_at. mstep.
  destruct (m s) as [[s1 es1] [e|a]]; cbn; [|tauto].
  intros Hm Hh HP. specialize (Hh e s1 (Hm HP)).
  destruct (h e s1) as [[s2 es2] r]. exact Hh.
Qed.

Lemma kept_at_or_raise P {A} (o : option A) e s : kept_at P (or_raise o e) s.
Proof. destruct o; intros H; exact H. Qed.

(** Soundness looks at the accounts, the conversations, the messages
    and the message deletion rows only. *)
Lemma sound_same_rows u s s' :
  accounts s' = accounts s -> conversations s' = conversations s ->
  messages s' = messages s -> message_deletions s' = message_deletions s ->
  sound_with u s -> sound_with u s'.
Proof.
  intros Ea Ec Em Ed [[A B C D E] Hu]. split; [split|].
  - intros k m. rewrite Em. apply A.
  - intros k m. rewrite Em. intros Hm. unfold fk_ok. rewrite Ea, Ec. exact (B k m Hm).
  - intros k c. rewrite Ec. apply C.
  - intros k c. rewrite Ec. apply D.
  - intros k x. rewrite Ed, Em. apply E.
  - intros a Ha. rewrite Ea. exact (Hu a Ha).
Qed.

Lemma sound_user_statuses u f s :
  sound_with u s -> sound_with u (set_user_statuses f s).
Proof. now apply sound_same_rows. Qed.

Lemma sound_reactions u f s : sound_with u s -> sound_with u (set_reactions f s).
Proof. now apply sound_same_rows. Qed.

Lemma sound_read_statuses u f s :
  sound_with u s -> sound_with u (set_read_statuses f s).
Proof. now apply sound_same_rows. Qed.

(** A message row whose foreign keys name stored rows may be written
    under its own id. *)
Lemma sound_message u m s :
  fk_ok s m -> sound_with u s -> sound_with u (set_messages <[message_id m := m]> s).
Proof.
  intros Hfk [[A B C D E] Hu]. split; [split|]; cbn.
  - intros k m'. destruct (decide (message_id m = k)) as [<-|Hne].
    + rewrite lookup_insert_eq. now intros [= <-].
    + rewrite lookup_insert_ne by exact Hne. apply A.
  - intros k m'. destruct (decide (message_id m = k)) as [<-|Hne].
    + rewrite lookup_insert_eq. intros [= <-]. exact Hfk.
    + rewrite lookup_insert_ne by exact Hne. apply B.
  - exact C.
  - exact D.
  - intros k x Hd. destruct (decide (message_id m = k)) as [<-|Hne].
    + rewrite lookup_insert_eq. eauto.
    + rewrite lookup_insert_ne by exact Hne. now apply (E k x).
  - exact Hu.
Qed.

Lemma sound_updated_at u t k s :
  sound_with u s -> sound_with u (set_conversations (alter (with_updated_at t) k) s).
Proof.
  intros [[A B C D E] Hu]. split; [split|]; cbn.
  - exact A.
  - intros i m Hm. destruct (B i m Hm) as [Hs [c Hc]]. split; [exact Hs|]. cbn.
    destruct (decide (k = conversation m)) as [->|Hne].
    + rewrite lookup_alter_eq, Hc. eauto.
    + rewrite lookup_alter_ne by exact Hne. eauto.
  - intros i c. destruct (decide (k = i)) as [->|Hne].
    + rewrite lookup_alter_eq. destruct (conversations s !! i) as [c0|] eqn:Hc0;
        [|discriminate].
      intros [= <-]. exact (C i c0 Hc0).
    + rewrite lookup_alter_ne by exact Hne. apply C.
  - intros i c. destruct (decide (k = i)) as [->|Hne].
    + rewrite lookup_alter_eq. destruct (conversations s !! i) as [c0|] eqn:Hc0;
        [|discriminate].
      intros [= <-]. exact (D i c0 Hc0).
    + rewrite lookup_alter_ne by exact Hne. apply D.
  - exact E.
  - exact Hu.
Qed.

Lemma sound_deletion u k x t s :
  is_Some (messages s !! k) -> sound_with u s ->
  sound_with u (set_message_deletions <[(k, x) := t]> s).
Proof.
  intros Hm [[A B C D E] Hu]. split; [split|]; cbn; try assumption.
  intros k' x' Hd. destruct (decide ((k, x) = (k', x'))) as [[= <- <-]|Hne].
  - exact Hm.
  - rewrite lookup_insert_ne in Hd by exact Hne. now apply (E k' x').
Qed.

Create HintDb keep discriminated.

#[local] Hint Resolve sound_user_statuses sound_reactions sound_read_statuses : keep.

(** One step of the analysis of a handler that writes status, reaction
    and read rows only. *)
Ltac keep_step :=
  match goal with
  | |- kept _ _ => intros ?
  | |- kept_at _ (mret _) _ => apply kept_at_ret
  | |- kept_at _ (raise _) _ => apply kept_at_raise
  | |- kept_at _ (or_raise _ _) _ => apply kept_at_or_raise
  | |- kept_at _ (put _) _ => apply kept_at_put; solve [auto with keep]
  | |- kept_at _ (emit _) _ => apply kept_at_emit
  | |- kept_at _ (get ≫= _) _ => apply kept_at_get_bind; cbv beta
  | |- kept_at _ (try_except _ _) _ => apply kept_at_try; [|intros ?]
  | |- kept_at _ (_ ≫= _) _ => apply kept_at_bind; [|intros ?]
  | |- kept_at _ (match ?x with _ => _ end) _ => destruct x eqn:?
  | |- kept_at _ (if ?x then _ else _) _ => destruct x eqn:?
  | |- kept_at _ (let '(_, _) := ?x in _) _ => destruct x
  | |- kept_at _ _ _ => solve [eauto with keep]
  end.

Ltac keep := repeat keep_step.

Lemma kept_uuid_lookup u mid s : kept_at (sound_with u) (uuid_lookup mid) s.
Proof. unfold uuid_lookup. keep. Qed.

#[local] Hint Resolve kept_uuid_lookup : keep.

Lemma kept_get_message u mid s : kept_at (sound_with u) (get_message mid) s.
Proof. unfold get_message. keep. Qed.

Lemma kept_fk_conversation u cid s : kept_at (sound_with u) (fk_conversation cid) s.
Proof. unfold fk_conversation. keep. Qed.

Lemma kept_fk_account u uid s : kept_at (sound_with u) (fk_account uid) s.
Proof. unfold fk_account. keep. Qed.

Lemma kept_get_or_create_user_status u env uid s :
  kept_at (sound_with u) (get_or_create_user_status env uid) s.
Proof. unfold get_or_create_user_status. keep. Qed.

#[local] Hint Resolve kept_get_message kept_fk_conversation kept_fk_account
  kept_get_or_create_user_status : keep.

Lemma kept_UserDisplaySerializer u cache a s :
  kept_at (sound_with u) (UserDisplaySerializer cache a) s.
Proof. unfold UserDisplaySerializer. keep. Qed.

Lemma kept_get_decrypted_content u obj s :
  kept_at (sound_with u) (get_decrypted_content obj) s.
Proof. unfold get_decrypted_content. keep. Qed.

#[local] Hint Resolve kept_UserDisplaySerializer kept_get_decrypted_content : keep.

Lemma kept_get_content u ctx obj s : kept_at (sound_with u) (get_content ctx obj) s.
Proof. unfold get_content. keep. Qed.

Lemma kept_get_is_deleted_by_me u ctx obj s :
  kept_at (sound_with u) (get_is_deleted_by_me ctx obj) s.
Proof. unfold get_is_deleted_by_me. keep. Qed.

Lemma kept_get_reply_to u ctx obj s : kept_at (sound_with u) (get_reply_to ctx obj) s.
Proof. unfold get_reply_to. keep. Qed.

#[local] Hint Resolve kept_get_content kept_get_is_deleted_by_me kept_get_reply_to
  : keep.

Lemma kept_FileField_to_representation u request value s :
  kept_at (sound_with u) (FileField_to_representation request value) s.
Proof. unfold FileField_to_representation. keep. Qed.

#[local] Hint Resolve kept_FileField_to_representation : keep.

Lemma kept_MessageSerializer u request sender_obj obj s :
  kept_at (sound_with u) (MessageSerializer request sender_obj obj) s.
Proof. unfold MessageSerializer. keep. Qed.

Lemma kept_MessageReactionSerializer u cache a r t s :
  kept_at (sound_with u) (MessageReactionSerializer cache a r t) s.
Proof. unfold MessageReactionSerializer. keep. Qed.

#[local] Hint Resolve kept_MessageSerializer kept_MessageReactionSerializer : keep.

Lemma kept_set_user_status u env self a st s :
  kept_at (sound_with u) (set_user_status env self a st) s.
Proof. unfold set_user_status. keep. Qed.

Lemma kept_set_typing_status u env self a b s :
  kept_at (sound_with u) (set_typing_status env self a b) s.
Proof. unfold set_typing_status. keep. Qed.

Lemma kept_clear_typing_status u a s :
  kept_at (sound_with u) (clear_typing_status a) s.
Proof. unfold clear_typing_status. keep. Qed.

Lemma kept_toggle_reaction u env self a mid r s :
  kept_at (sound_with u) (toggle_reaction env self a mid r) s.
Proof. unfold toggle_reaction. keep. Qed.

Lemma kept_mark_message_read u env a mid s :
  kept_at (sound_with u) (mark_message_read env a mid) s.
Proof. unfold mark_message_read. keep. Qed.

Lemma kept_get_stripped u data k s : kept_at (sound_with u) (get_stripped data k) s.
Proof. unfold get_stripped. keep. Qed.

Lemma kept_send_error u env msg s : kept_at (sound_with u) (send_error env msg) s.
Proof. unfold send_error. keep. Qed.

#[local] Hint Resolve kept_set_user_status kept_set_typing_status
  kept_clear_typing_status kept_toggle_reaction kept_mark_message_read
  kept_get_stripped kept_send_error : keep.

Lemma bind_ok {A B} (m : M A) (k : A -> M B) s s1 es a :
  m s = (s1, es, inr a) -> ((m ≫= k) s).1.1 = (k a s1).1.1.
Proof. intros H. mstep. rewrite H. now destruct (k a s1) as [[? ?] ?]. Qed.

Lemma bind_exn {A B} (m : M A) (k : A -> M B) s s1 es e :
  m s = (s1, es, inl e) -> ((m ≫= k) s).1.1 = s1.
Proof. intros H. mstep. now rewrite H. Qed.

Lemma get_message_cases mid s :
  (exists k m, messages s !! k = Some m /\ get_message mid s = (s, [], inr m))
  \/ get_message mid s = (s, [], inl (DoesNotExist (lit "Message")))
  \/ get_message mid s = (s, [], inl (ValidationError (lit "is not a valid UUID."))).
Proof.
  unfold get_message, uuid_lookup.
  destruct mid; mstep; try (right; left; reflexivity);
    (destruct (to_uuid _) as [k|]; mstep; [|right; right; reflexivity];
     cbn [mbind option_bind]; destruct (messages s !! k) as [m|] eqn:Hm;
     [left; exists k, m; split; [exact Hm|reflexivity]|right; left; reflexivity]).
Qed.

Lemma get_message_or_404_cases mid s :
  (exists k m, messages s !! k = Some m /\ get_message_or_404 mid s = (s, [], inr m))
  \/ exists e, get_message_or_404 mid s = (s, [], inl e).
Proof.
  unfold get_message_or_404, uuid_lookup.
  destruct mid; mstep; try (right; eexists; reflexivity);
    (destruct (to_uuid _) as [k|]; mstep; [|right; eexists; reflexivity];
     cbn [mbind option_bind]; destruct (messages s !! k) as [m|] eqn:Hm;
     [left; exists k, m; split; [exact Hm|reflexivity]|right; eexists; reflexivity]).
Qed.

Lemma fk_conversation_cases cid s :
  (exists c, conversations s !! cid = Some c /\ fk_conversation cid s = (s, [], inr c))
  \/ exists e, fk_conversation cid s = (s, [], inl e).
Proof.
  unfold fk_conversation. mstep. destruct (conversations s !! cid) as [c|] eqn:Hc.
  - left. exists c. split; reflexivity.
  - right. eexists. reflexivity.
Qed.

(** Under a key the encryption step of [Message.save] writes nothing
    and leaves the identity of the row alone. *)
Lemma Message_encrypt_keyed env self conv s :
  key_truthy (encryption_key conv) = true ->
  exists self',
    Message_encrypt env self conv s = (s, [], inr (self', conv))
    /\ message_id self' = message_id self /\ sender self' = sender self
    /\ conversation self' = conversation self.
Proof.
  intros Hk. unfold Message_encrypt. destruct (truthy (content self)) eqn:Ht.
  - apply truthy_nonempty in Ht. mstep.
    rewrite (encrypt_message_runs env false conv (content self) s Hk Ht). mstep.
    eexists. split; [reflexivity|]. repeat split.
  - exists self. repeat split.
Qed.

Lemma kept_Message_save u env self conv s :
  key_truthy (encryption_key conv) = true -> fk_ok s self ->
  kept_at (sound_with u) (Message_save env self conv) s.
Proof.
  intros Hk Hfk HP.
  destruct (Message_encrypt_keyed env self conv s Hk) as (self' & Hrun & Hid & Hs & Hc).
  unfold Message_save. rewrite (bind_ok _ _ _ _ _ _ Hrun). cbn.
  apply sound_message; [|exact HP]. unfold fk_ok. now rewrite Hs, Hc.
Qed.

Lemma kept_Message_create u env self conv bad s :
  key_truthy (encryption_key conv) = true -> fk_ok s self ->
  kept_at (sound_with u) (Message_create env self conv bad) s.
Proof.
  intros Hk Hfk HP.
  destruct (Message_encrypt_keyed env self conv s Hk) as (self' & Hrun & Hid & Hs & Hc).
  unfold Message_create. rewrite (bind_ok _ _ _ _ _ _ Hrun).
  destruct bad as [e|]; [exact HP|]. mstep.
  destruct (messages s !! message_id self'); [exact HP|]. cbn.
  apply sound_message; [|exact HP]. unfold fk_ok. now rewrite Hs, Hc.
Qed.

#[local] Hint Resolve sound_updated_at : keep.

Lemma reply_lookup_reads (reply_to_id : option json) s :
  exists r,
    match reply_to_id with
    | Some rid =>
        if json_truthy rid
        then try_except (r ← get_message rid; mret (Some r))
               (fun e => match e with
                         | DoesNotExist _ => mret None
                         | _ => raise e
                         end)
        else mret None
    | None => mret None
    end s = (s, [], r).
Proof.
  destruct reply_to_id as [rid|]; [|eexists; reflexivity].
  destruct (json_truthy rid); [|eexists; reflexivity].
  destruct (get_message_cases rid s) as [(k & m & Hm & Hrun)|[Hrun|Hrun]];
    mstep; rewrite Hrun; eexists; reflexivity.
Qed.

Lemma kept_save_message env self a x rid att mtype s :
  kept_at (sound_with (Some a)) (save_message env self a x rid att mtype) s.
Proof.
  unfold save_message. apply kept_at_get_bind. cbv beta. intros HP.
  destruct (conversations s !! self_conversation_id self) as [conv|] eqn:Hc;
    [|exact HP].
  rewrite (bind_ok _ _ s s [] conv eq_refl).
  destruct (reply_lookup_reads rid s) as [[e|r] Hr];
    [rewrite (bind_exn _ _ _ _ _ _ Hr); exact HP|].
  rewrite (bind_ok _ _ _ _ _ _ Hr).
  revert HP. apply kept_at_bind.
  - intros HP. destruct HP as [Hok Hu] eqn:E. clear E.
    apply kept_Message_create; [| |split; assumption].
    + exact (ok_conversation_secret s Hok _ _ Hc).
    + split; cbn; [exact (Hu a eq_refl)|].
      rewrite (ok_conversation_key s Hok _ _ Hc), Hc. eauto.
  - intros [m c]. keep.
Qed.

Lemma kept_edit_message u env a mid x s :
  kept_at (sound_with u) (edit_message env a mid x) s.
Proof.
  intros HP. pose proof HP as [Hok Hu]. unfold edit_message.
  destruct (get_message_or_404_cases mid s) as [(k & m & Hm & Hrun)|[e Hrun]];
    [|rewrite (bind_exn _ _ _ _ _ _ Hrun); exact HP].
  rewrite (bind_ok _ _ _ _ _ _ Hrun).
  destruct (negb (bool_decide (sender m = acc_id a))); [exact HP|].
  destruct (fk_conversation_cases (conversation m) s) as [(c & Hc & Hfk)|[e Hfk]];
    [|rewrite (bind_exn _ _ _ _ _ _ Hfk); exact HP].
  rewrite (bind_ok _ _ _ _ _ _ Hfk).
  revert HP. apply kept_at_bind.
  - apply kept_Message_save.
    + exact (ok_conversation_secret s Hok _ _ Hc).
    + exact (ok_message_fk s Hok _ _ Hm).
  - intros [m' c']. keep.
Qed.

Lemma kept_delete_message_for_user u env a mid s :
  kept_at (sound_with u) (delete_message_for_user env a mid) s.
Proof.
  intros HP. pose proof HP as [Hok Hu]. unfold delete_message_for_user.
  destruct (get_message_or_404_cases mid s) as [(k & m & Hm & Hrun)|[e Hrun]];
    [|rewrite (bind_exn _ _ _ _ _ _ Hrun); exact HP].
  rewrite (bind_ok _ _ _ _ _ _ Hrun).
  destruct (fk_conversation_cases (conversation m) s) as [(c & Hc & Hfk)|[e Hfk]];
    [|rewrite (bind_exn _ _ _ _ _ _ Hfk); exact HP].
  rewrite (bind_ok _ _ _ _ _ _ Hfk).
  destruct (negb (bool_decide (acc_id a ∈ participants c))); [exact HP|].
  mstep. destruct (message_deletions s !! (message_id m, acc_id a)); [exact HP|].
  cbn. apply sound_deletion; [|exact HP].
  rewrite (ok_message_key s Hok _ _ Hm). eauto.
Qed.

#[local] Hint Resolve kept_edit_message kept_delete_message_for_user : keep.

Lemma kept_handle_chat_message env self data s :
  kept_at (sound_with (current_account self)) (handle_chat_message env self data) s.
Proof.
  unfold handle_chat_message, serialize_message.
  destruct (current_account self) as [a|]; [|keep].
  pose proof (kept_save_message env self a). keep.
Qed.

Lemma kept_handle_message_edit env self data s :
  kept_at (sound_with (current_account self)) (handle_message_edit env self data) s.
Proof. unfold handle_message_edit, serialize_message. keep. Qed.

Lemma kept_handle_message_delete env self data s :
  kept_at (sound_with (current_account self)) (handle_message_delete env self data) s.
Proof. unfold handle_message_delete, get_user_data. keep. Qed.

Lemma kept_handle_reaction env self data s :
  kept_at (sound_with (current_account self)) (handle_reaction env self data) s.
Proof. unfold handle_reaction, get_user_data. keep. Qed.

Lemma kept_handle_read_receipt env self data s :
  kept_at (sound_with (current_account self)) (handle_read_receipt env self data) s.
Proof. unfold handle_read_receipt, get_user_data. keep. Qed.

Lemma kept_handle_user_typing env self data s :
  kept_at (sound_with (current_account self)) (handle_user_typing env self data) s.
Proof. unfold handle_user_typing, get_user_data. keep. Qed.

Lemma kept_handle_ping u env s : kept_at (sound_with u) (handle_ping env) s.
Proof. unfold handle_ping. keep. Qed.

#[local] Hint Resolve kept_handle_chat_message kept_handle_message_edit
  kept_handle_message_delete kept_handle_reaction kept_handle_read_receipt
  kept_handle_user_typing kept_handle_ping : keep.

Lemma kept_receive env self text s :
  kept_at (sound_with (current_account self)) (receive env self text) s.
Proof. unfold receive. keep. Qed.

Lemma kept_disconnect u env self s : kept_at (sound_with u) (disconnect env self) s.
Proof. unfold disconnect, broadcast_status_change, get_user_data. keep. Qed.

Lemma kept_connect u env scope channel s :
  kept_at (sound_with u) (connect env scope channel) s.
Proof.
  unfold connect, authenticate_user, verify_conversation_access,
    broadcast_status_change, get_user_data.
  keep.
Qed.

(** X19. The consumer keeps the integrity of the database. From a
    database with integrity that holds the account of the connection's
    user, whatever the inbound frame, [receive] leaves a database with
    integrity: every message is stored under its own id and names a
    stored sender and a stored conversation, every conversation is
    stored under its own id and has a key, and every message deletion
    row names a stored message. [disconnect] and the handshake keep the
    integrity as well. *)
Theorem consumer_keeps_integrity (env : Env) (self : Consumer) (text : str)
    (s : Store) :
  store_ok s ->
  (forall a, current_account self = Some a -> is_Some (accounts s !! acc_id a)) ->
  store_ok (receive env self text s).1.1
  /\ store_ok (disconnect env self s).1.1
  /\ forall scope channel, store_ok (connect env scope channel s).1.1.
Proof.
  intros Hok Hu.
  assert (HP : sound_with (current_account self) s) by (split; assumption).
  split; [|split].
  - exact (proj1 (kept_receive env self text s HP)).
  - exact (proj1 (kept_disconnect _ env self s HP)).
  - intros scope channel. exact (proj1 (kept_connect _ env scope channel s HP)).
Qed.

(** ** The preview of the message replied to *)

Section Preview.
Context {L : FernetLaws}.

(** X20. The preview that a serialized message carries of the message
    it replies to: the id and the sender of that message, and as
    content the first hundred characters of its decrypted text, or the
    placeholder ["[Message deleted]"] when the user of the serializer
    context has a deletion row for it; in no case more than a hundred
    characters. For a text stored encrypted under the key of its
    conversation the preview shows the first hundred characters of the
    text. The database is not touched. *)
Theorem reply_preview (ctx : option Account) (obj r : Message) (rid : str)
    (conv : Conversation) (author : Account) (s : Store) :
  reply_to obj = Some rid ->
  messages s !! rid = Some r ->
  accounts s !! sender r = Some author ->
  conversations s !! conversation r = Some conv ->
  exists rd,
    get_reply_to ctx obj s = (s, [], inr (Some rd))
    /\ rd_message_id rd = message_id r
    /\ ud_acc_id (rd_sender rd) = acc_id author
    /\ rd_content rd
       = (if hidden_from s ctx (message_id r) then lit "[Message deleted]"
          else take 100 (default [] (decrypt_message conv (Some (content r)))))
    /\ (List.length (rd_content rd) <= 100)%nat
    /\ forall env x,
         key_truthy (encryption_key conv) = true -> x <> [] ->
         content r = ciphertext env conv x ->
         hidden_from s ctx (message_id r) = false ->
         rd_content rd = take 100 x.
Proof.
  intros Hr Hm Ha Hc. unfold get_reply_to. rewrite Hr. mstep. rewrite Hm. mstep.
  unfold fk_account. mstep. rewrite Ha. mstep.
  change (match ctx with
          | Some u => deleted_by s (message_id r) (acc_id u)
          | None => false
          end) with (hidden_from s ctx (message_id r)).
  destruct (hidden_from s ctx (message_id r)) eqn:Hh.
  - unfold UserDisplaySerializer. mstep. eexists. split; [reflexivity|].
    cbn [rd_message_id rd_sender rd_content ud_acc_id].
    split; [reflexivity|]. split; [reflexivity|]. split; [reflexivity|].
    split; [vm_compute; lia|]. intros env x _ _ _ [=].
  - rewrite (get_decrypted_content_runs r s conv Hc). unfold UserDisplaySerializer.
    mstep. eexists. split; [reflexivity|].
    cbn [rd_message_id rd_sender rd_content ud_acc_id].
    split; [reflexivity|]. split; [reflexivity|]. split; [reflexivity|].
    split; [rewrite length_take; lia|].
    intros env x Hk Hx Hcontent _. rewrite Hcontent.
    now rewrite (decrypt_ciphertext env conv x Hk Hx).
Qed.

End Preview.

(** ** New conversations *)

Lemma first_updated_spec l :
  match first_updated l with
  | Some c => c ∈ l /\ forall c', c' ∈ l -> updated_at c' <= updated_at c
  | None => l = []
  end.
Proof.
  induction l as [|x l IH]; [reflexivity|].
  change (first_updated (x :: l))
    with (Some (from_option (more_recent x) x (first_updated l))).
  destruct (first_updated l) as [c|]; cbn [from_option].
  - destruct IH as [Hin Hmax]. unfold more_recent.
    destruct (Z.ltb_spec (updated_at x) (updated_at c)).
    + split; [apply elem_of_cons; now right|]. intros c' Hc'.
      apply elem_of_cons in Hc' as [->|Hc'].
      * lia.
      * now apply Hmax.
    + split; [apply elem_of_cons; now left|]. intros c' Hc'.
      apply elem_of_cons in Hc' as [->|Hc'].
      * lia.
      * specialize (Hmax c' Hc'). lia.
  - subst l. split; [apply elem_of_cons; now left|]. intros c' Hc'.
    apply list_elem_of_singleton in Hc' as ->. lia.
Qed.

Lemma Conversation_create_runs env user name is_group s :
  conversations s !! uuid4 env = None ->
  Conversation_create env user name is_group s
  = (set_conversations <[uuid4 env := new_conversation env user name is_group ∅]> s, [],
     inr (new_conversation env user name is_group ∅)).
Proof.
  intros Hfresh. unfold Conversation_create. mstep. cbn [conversation_id].
  rewrite Hfresh. reflexivity.
Qed.

Lemma set_conversations_twice k c c' s :
  set_conversations <[k := c']> (set_conversations <[k := c]> s)
  = set_conversations <[k := c']> s.
Proof.
  destruct s. unfold set_conversations. cbn. f_equal. apply insert_insert_eq.
Qed.

(** X21. [get_or_create_conversation] between a user and another
    account. When the user has private conversations with the other
    account that the user has not deleted, one of them with the latest
    update is returned and nothing changes. When there is none, a
    conversation is created under the fresh id, not a group, with a
    newly generated key and with exactly the two accounts as
    participants, and nothing else changes; from then on a further call
    returns this conversation and changes nothing. For an id that is no
    account the call ends with the 404 exception. Nothing is ever
    broadcast. *)
Theorem private_conversation_found_or_created (env env2 : Env) (user other : Account)
    (uid : str) (s : Store) :
  accounts s !! uid = Some other ->
  (forall k c, conversations s !! k = Some c -> conversation_id c = k) ->
  (private_conversations s user other <> [] ->
   exists c,
     get_or_create_conversation env user uid s = (s, [], inr c)
     /\ c ∈ private_conversations s user other
     /\ forall c', c' ∈ private_conversations s user other ->
                   updated_at c' <= updated_at c)
  /\ (private_conversations s user other = [] ->
      conversations s !! uuid4 env = None ->
      conversation_deletions s !! (uuid4 env, acc_id user) = None ->
      let c := new_conversation env user None false {[acc_id user; acc_id other]} in
      let s' := set_conversations <[uuid4 env := c]> s in
      get_or_create_conversation env user uid s = (s', [], inr c)
      /\ get_or_create_conversation env2 user uid s' = (s', [], inr c))
  /\ forall uid', accounts s !! uid' = None ->
       get_or_create_conversation env user uid' s
       = (s, [], inl (Http404 (lit "No Account matches the given query."))).
Proof.
  intros Ho Hkeys. split; [|split].
  - intros Hne. unfold get_or_create_conversation. mstep. rewrite Ho. mstep.
    pose proof (first_updated_spec (private_conversations s user other)) as Hf.
    destruct (first_updated (private_conversations s user other)) as [c|];
      [|contradiction].
    exists c. split; [reflexivity|exact Hf].
  - intros Hnone Hfresh Hdel c s'.
    assert (Hc : c = with_participants (∅ ∪ {[acc_id user; acc_id other]})
                       (new_conversation env user None false ∅))
      by (unfold c, new_conversation, with_participants; cbn; f_equal;
          now rewrite union_empty_l_L).
    split.
    + unfold get_or_create_conversation. mstep. rewrite Ho. mstep.
      rewrite Hnone. cbn [first_updated foldr]. mstep.
      rewrite (Conversation_create_runs env user None false s Hfresh). mstep.
      unfold participants_add. mstep.
      cbn [conversations set_conversations conversation_id new_conversation].
      rewrite lookup_insert_eq. mstep. rewrite set_conversations_twice.
      change (participants (new_conversation env user None false ∅))
        with (∅ : gset str).
      rewrite <- Hc. reflexivity.
    + unfold get_or_create_conversation. mstep.
      change (accounts s') with (accounts s). rewrite Ho. mstep.
      assert (Hp : private_conversations s' user other = [c]).
      { unfold private_conversations in *.
        apply fmap_nil_inv, map_to_list_empty_iff in Hnone.
        change (conversations s') with (<[uuid4 env := c]> (conversations s)).
        change (conversation_deletions s') with (conversation_deletions s).
        rewrite map_filter_insert_True.
        - rewrite Hnone, insert_empty, map_to_list_singleton. reflexivity.
        - cbn. repeat split; [set_solver|set_solver|exact Hdel]. }
      rewrite Hp. reflexivity.
  - intros uid' Hnone. unfold get_or_create_conversation. mstep. now rewrite Hnone.
Qed.

(** X22. A conversation created through the conversation listing gets
    the fresh id, the name and the group flag of the request, a newly
    generated key and the creator as [created_by]; its participants are
    the creator and those ids of the request that are accounts, ids of
    no account being dropped silently; nothing else changes and nothing
    is broadcast. When the id is taken the creation fails and the
    database is unchanged. *)
Theorem created_conversation_participants (env : Env) (user : Account)
    (name : option str) (is_group : bool) (ids : list str) (s : Store) :
  (forall k a, accounts s !! k = Some a -> acc_id a = k) ->
  (conversations s !! uuid4 env = None ->
   exists p,
     ConversationCreateSerializer_create env user name is_group ids s
     = (set_conversations <[uuid4 env := new_conversation env user name is_group p]> s,
        [], inr (new_conversation env user name is_group p))
     /\ forall u, u ∈ p <-> u = acc_id user \/ (u ∈ ids /\ is_Some (accounts s !! u)))
  /\ (is_Some (conversations s !! uuid4 env) ->
      exists e, ConversationCreateSerializer_create env user name is_group ids s
                = (s, [], inl e)).
Proof.
  intros Hkeys. split.
  - intros Hfresh.
    exists (list_to_set (acc_id <$> omap (fun k => accounts s !! k) ids) ∪ {[acc_id user]}).
    split.
    + unfold ConversationCreateSerializer_create. mstep.
      rewrite (Conversation_create_runs env user name is_group s Hfresh). mstep.
      unfold participants_set. mstep.
      cbn [conversations set_conversations conversation_id new_conversation].
      rewrite lookup_insert_eq. mstep. rewrite set_conversations_twice.
      unfold participants_add. mstep.
      cbn [conversations set_conversations conversation_id with_participants].
      rewrite lookup_insert_eq. mstep. rewrite set_conversations_twice.
      reflexivity.
    + intros u. rewrite elem_of_union, elem_of_singleton, elem_of_list_to_set,
        list_elem_of_fmap. split.
      * intros [(a & -> & Ha)| ->]; [right|now left].
        apply list_elem_of_omap in Ha. destruct Ha as (k & Hk & Ha).
        rewrite (Hkeys k a Ha). split; [exact Hk|]. eauto.
      * intros [->|[Hu [a Ha]]]; [now right|left].
        exists a. split; [now rewrite (Hkeys u a Ha)|].
        apply list_elem_of_omap. eauto.
  - intros [c Hc]. unfold ConversationCreateSerializer_create, Conversation_create.
    mstep. cbn [conversation_id]. rewrite Hc. eexists. reflexivity.
Qed.

(** ** The unread count *)

Lemma latest_spec (l : list Message) :
  match latest l with
  | Some m => m ∈ l /\ forall m', m' ∈ l -> timestamp m' <= timestamp m
  | None => l = []
  end.
Proof.
  induction l as [|x l IH]; [reflexivity|].
  change (latest (x :: l)) with (Some (from_option (newer x) x (latest l))).
  destruct (latest l) as [m|]; cbn [from_option].
  - destruct IH as [Hin Hmax]. unfold newer.
    destruct (Z.ltb_spec (timestamp x) (timestamp m)).
    + split; [apply elem_of_cons; now right|]. intros m' Hm'.
      apply elem_of_cons in Hm' as [->|Hm'].
      * lia.
      * now apply Hmax.
    + split; [apply elem_of_cons; now left|]. intros m' Hm'.
      apply elem_of_cons in Hm' as [->|Hm'].
      * lia.
      * specialize (Hmax m' Hm'). lia.
  - subst l. split; [apply elem_of_cons; now left|]. intros m' Hm'.
    apply list_elem_of_singleton in Hm' as ->. lia.
Qed.

Lemma last_read_spec (l : list (Message * Z)) :
  match last_read l with
  | Some r => r ∈ l /\ forall r', r' ∈ l -> timestamp r'.1 <= timestamp r.1
  | None => l = []
  end.
Proof.
  induction l as [|x l IH]; [reflexivity|].
  change (last_read (x :: l)) with (Some (from_option (later_read x) x (last_read l))).
  destruct (last_read l) as [r|]; cbn [from_option].
  - destruct IH as [Hin Hmax]. unfold later_read.
    destruct (Z.ltb_spec (timestamp x.1) (timestamp r.1)).
    + split; [apply elem_of_cons; now right|]. intros r' Hr'.
      apply elem_of_cons in Hr' as [->|Hr'].
      * lia.
      * now apply Hmax.
    + split; [apply elem_of_cons; now left|]. intros r' Hr'.
      apply elem_of_cons in Hr' as [->|Hr'].
      * lia.
      * specialize (Hmax r' Hr'). lia.
  - subst l. split; [apply elem_of_cons; now left|]. intros r' Hr'.
    apply list_elem_of_singleton in Hr' as ->. lia.
Qed.

Lemma read_rows_iff s cid uid m r :
  (m, r) ∈ read_rows s cid uid
  <-> exists mid, read_statuses s !! (mid, uid) = Some r
                  /\ messages s !! mid = Some m /\ conversation m = cid.
Proof.
  unfold read_rows. rewrite list_elem_of_omap. split.
  - intros ([[mid u] t] & Hin & Hf). apply elem_of_map_to_list in Hin. cbn in Hf.
    destruct (decide (u = uid)) as [->|]; [|discriminate].
    destruct (messages s !! mid) as [m0|] eqn:Hm; [|discriminate]. cbn in Hf.
    destruct (decide (conversation m0 = cid)); [|discriminate].
    injection Hf as <- <-. exists mid. auto.
  - intros (mid & Hr & Hm & Hc). exists (mid, uid, r). split.
    + now apply elem_of_map_to_list.
    + cbn. rewrite decide_True by reflexivity. rewrite Hm. cbn.
      now rewrite decide_True by exact Hc.
Qed.

Lemma mark_messages_read_store env a cid c s :
  conversations s !! cid = Some c -> acc_id a ∈ participants c ->
  (mark_messages_read env a cid s).1.1
  = match latest (visible_messages s (conversation_id c) (acc_id a)) with
    | Some m => set_read_statuses <[(message_id m, acc_id a) := now env]> s
    | None => s
    end.
Proof.
  intros Hc Hin. unfold mark_messages_read, api_view. mstep.
  rewrite (get_conversation_of_member a cid c s Hc Hin). mstep.
  destruct (latest (visible_messages s (conversation_id c) (acc_id a))); [|reflexivity].
  unfold UserDisplaySerializer. mstep. reflexivity.
Qed.

(** X23. Marking a conversation as read over REST brings the unread
    count of the user for it to zero. This holds in a database with
    integrity in which no message of the conversation is flagged as
    deleted or is dated after the request, and in which the user has
    read no message before it was sent. *)
Theorem marking_read_clears_unread (env : Env) (a : Account) (cid : str)
    (c : Conversation) (s : Store) :
  store_ok s ->
  conversations s !! cid = Some c ->
  acc_id a ∈ participants c ->
  (forall k m, messages s !! k = Some m -> conversation m = cid ->
               is_deleted m = false /\ timestamp m <= now env) ->
  (forall k r m, read_statuses s !! (k, acc_id a) = Some r ->
                 messages s !! k = Some m -> timestamp m <= r) ->
  get_unread_count (Some a) c (mark_messages_read env a cid s).1.1 = 0%nat.
Proof.
  intros Hok Hc Hin Hmsgs Hreads.
  pose proof (ok_conversation_key s Hok _ _ Hc) as Hcid.
  rewrite (mark_messages_read_store env a cid c s Hc Hin), Hcid.
  set (V := visible_messages s cid (acc_id a)).
  pose proof (latest_spec V) as HL.
  assert (Hq : forall s' k m,
            messages s' = messages s -> message_deletions s' = message_deletions s ->
            messages_query s' cid (acc_id a) !! k = Some m -> m ∈ V).
  { intros s' k m Em Ed Hk. apply map_lookup_filter_Some in Hk.
    rewrite Em, Ed in Hk. cbn in Hk. destruct Hk as (Hk & Hcv & Hnone & _).
    apply visible_iff. exists k. destruct (Hmsgs k m Hk Hcv) as [Hdel _]. auto. }
  unfold get_unread_count. rewrite Hcid.
  destruct (latest V) as [L|].
  - destruct HL as [HLin HLmax].
    apply visible_iff in HLin as (kL & HkL & HLc & _ & _).
    pose proof (ok_message_key s Hok _ _ HkL) as HLid.
    set (s' := set_read_statuses <[(message_id L, acc_id a) := now env]> s).
    assert (Hnew : (L, now env) ∈ read_rows s' cid (acc_id a)).
    { apply read_rows_iff. exists (message_id L). unfold s'. cbn.
      rewrite lookup_insert_eq, HLid. auto. }
    pose proof (last_read_spec (read_rows s' cid (acc_id a))) as HR.
    destruct (last_read (read_rows s' cid (acc_id a))) as [[X r]|].
    + destruct HR as [HXin HXmax]. specialize (HXmax _ Hnew). cbn in HXmax.
      assert (HXr : timestamp X <= r).
      { apply read_rows_iff in HXin as (kX & HrX & HmX & _).
        unfold s' in HrX, HmX. cbn in HrX, HmX.
        destruct (decide ((message_id L, acc_id a) = (kX, acc_id a))) as [[= <-]|Hne].
        - rewrite lookup_insert_eq in HrX. injection HrX as <-.
          rewrite HLid, HkL in HmX. injection HmX as <-.
          exact (proj2 (Hmsgs kL L HkL HLc)).
        - rewrite lookup_insert_ne in HrX by exact Hne.
          exact (Hreads kX r X HrX HmX). }
      apply map_size_empty_iff, map_empty_filter_2.
      intros k m Hk Hlate. cbn in Hlate.
      specialize (HLmax m (Hq s' k m eq_refl eq_refl Hk)). lia.
    + rewrite HR in Hnew. now apply not_elem_of_nil in Hnew.
  - subst V. rewrite HL in Hq.
    assert (Hempty : messages_query s cid (acc_id a) = ∅).
    { apply map_empty. intros k.
      destruct (messages_query s cid (acc_id a) !! k) as [m|] eqn:Hk; [|reflexivity].
      apply (Hq s k m eq_refl eq_refl) in Hk. now apply not_elem_of_nil in Hk. }
    rewrite Hempty.
    destruct (last_read (read_rows s cid (acc_id a))) as [[X r]|].
    + rewrite map_filter_empty. apply map_size_empty.
    + apply map_size_empty.
Qed.

(** ** The integrity of the database over REST *)

Lemma sound_undeletion u k s :
  sound_with u s -> sound_with u (set_message_deletions (delete k) s).
Proof.
  intros [[A B C D E] Hu]. split; [split|]; cbn; try assumption.
  intros k' x [t Ht]. apply lookup_delete_Some in Ht as [_ Ht]. apply (E k' x). eauto.
Qed.

Lemma sound_conversation_deletions u f s :
  sound_with u s -> sound_with u (set_conversation_deletions f s).
Proof. now apply sound_same_rows. Qed.

Lemma sound_conversation u k c s :
  conversation_id c = k -> key_truthy (encryption_key c) = true ->
  sound_with u s -> sound_with u (set_conversations <[k := c]> s).
Proof.
  intros Hid Hkey [[A B C D E] Hu]. split; [split|]; cbn; try assumption.
  - intros i m Hm. destruct (B i m Hm) as [Hs [c0 Hc0]]. split; [exact Hs|]. cbn.
    destruct (decide (k = conversation m)) as [->|Hne].
    + rewrite lookup_insert_eq. eauto.
    + rewrite lookup_insert_ne by exact Hne. eauto.
  - intros i c'. destruct (decide (k = i)) as [->|Hne].
    + rewrite lookup_insert_eq. now intros [= <-].
    + rewrite lookup_insert_ne by exact Hne. apply C.
  - intros i c'. destruct (decide (k = i)) as [->|Hne].
    + rewrite lookup_insert_eq. now intros [= <-].
    + rewrite lookup_insert_ne by exact Hne. apply D.
Qed.

Lemma sound_touch u t c s :
  key_truthy (encryption_key c) = true ->
  sound_with u s ->
  sound_with u (set_conversations <[conversation_id c := with_updated_at t c]> s).
Proof. intros Hkey. now apply sound_conversation. Qed.

Lemma sound_participants u self row p s :
  conversations s !! conversation_id self = Some row ->
  sound_with u s ->
  sound_with u (set_conversations <[conversation_id self := with_participants p row]> s).
Proof.
  intros Hrow HP. pose proof HP as [Hok _]. apply sound_conversation; [| |exact HP].
  - exact (ok_conversation_key s Hok _ _ Hrow).
  - exact (ok_conversation_secret s Hok _ _ Hrow).
Qed.

#[local] Hint Resolve sound_undeletion sound_conversation_deletions sound_touch
  sound_participants : keep.

Lemma kept_emit_all P es s : kept_at P (emit_all es) s.
Proof. intros H. exact H. Qed.

Lemma kept_get_conversation_of u a cid s :
  kept_at (sound_with u) (get_conversation_of a cid) s.
Proof. unfold get_conversation_of. keep. Qed.

Lemma kept_get_message_by_pk u mid s :
  kept_at (sound_with u) (get_message_by_pk mid) s.
Proof. unfold get_message_by_pk. keep. Qed.

Lemma kept_invalid_reaction u r s : kept_at (sound_with u) (invalid_reaction r) s.
Proof. unfold invalid_reaction. keep. Qed.

#[local] Hint Resolve kept_emit_all kept_get_conversation_of kept_get_message_by_pk
  kept_invalid_reaction : keep.

Lemma get_conversation_of_cases a cid s :
  (exists c, conversations s !! cid = Some c
             /\ get_conversation_of a cid s = (s, [], inr c))
  \/ exists e, get_conversation_of a cid s = (s, [], inl e).
Proof.
  unfold get_conversation_of. mstep.
  destruct (conversations s !! cid) as [c|]; [|right; eexists; reflexivity].
  destruct (decide (acc_id a ∈ participants c)).
  - left. exists c. split; reflexivity.
  - right. eexists. reflexivity.
Qed.

Lemma Message_create_cases env self conv bad s :
  key_truthy (encryption_key conv) = true ->
  exists self',
    sender self' = sender self /\ conversation self' = conversation self
    /\ (Message_create env self conv bad s
        = (set_messages <[message_id self' := self']> s, [], inr (self', conv))
        \/ exists e, Message_create env self conv bad s = (s, [], inl e)).
Proof.
  intros Hk.
  destruct (Message_encrypt_keyed env self conv s Hk) as (self' & Hrun & Hid & Hs & Hc).
  exists self'. split; [exact Hs|]. split; [exact Hc|].
  unfold Message_create. mstep. rewrite Hrun. mstep.
  destruct bad as [e|]; [right; eexists; reflexivity|]. mstep.
  destruct (messages s !! message_id self'); [right; eexists; reflexivity|].
  left. reflexivity.
Qed.

Lemma kept_perform_create env user cid data x mtype att s :
  kept_at (sound_with (Some user)) (perform_create env user cid data x mtype att) s.
Proof.
  intros HP. pose proof HP as [Hok Hu]. unfold perform_create.
  destruct (get_conversation_of_cases user cid s) as [(c & Hc & Hrun)|[e Hrun]];
    [|rewrite (bind_exn _ _ _ _ _ _ Hrun); exact HP].
  rewrite (bind_ok _ _ _ _ _ _ Hrun).
  pose proof (ok_conversation_secret s Hok _ _ Hc) as Hsecret.
  assert (Hreply : exists r,
    match dict_get data (lit "reply_to") with
    | Some rid => r ← get_message_or_404 rid; mret (Some r)
    | None => mret None
    end s = (s, [], r)).
  { destruct (dict_get data (lit "reply_to")) as [rid|]; [|eexists; reflexivity].
    destruct (get_message_or_404_cases rid s) as [(k & m & _ & Hm)|[e Hm]];
      mstep; rewrite Hm; eexists; reflexivity. }
  destruct Hreply as [[e|r] Hr]; [rewrite (bind_exn _ _ _ _ _ _ Hr); exact HP|].
  rewrite (bind_ok _ _ _ _ _ _ Hr).
  match goal with
  | |- context [Message_create env ?row c None] =>
      destruct (Message_create_cases env row c None s Hsecret)
        as (self' & Hs & Hcv & [Hcreate|[e Hcreate]])
  end; [|rewrite (bind_exn _ _ _ _ _ _ Hcreate); exact HP].
  rewrite (bind_ok _ _ _ _ _ _ Hcreate). cbn in Hs, Hcv.
  assert (HP1 : sound_with (Some user) (set_messages <[message_id self' := self']> s)).
  { apply sound_message; [|exact HP]. unfold fk_ok. rewrite Hs, Hcv.
    split; [exact (Hu user eq_refl)|].
    rewrite (ok_conversation_key s Hok _ _ Hc), Hc. eauto. }
  revert HP1. generalize (set_messages <[message_id self' := self']> s). intros s1.
  change (kept_at (sound_with (Some user))
            ((fun '(message, conv) =>
                s ← get;
                put (set_conversations
                       <[conversation_id conv := with_updated_at (now env) conv]> s) ;;
                '(us, _) ← get_or_create_user_status env (acc_id user);
                s ← get;
                put (set_user_statuses
                       <[acc_id user := with_status (status us) (now env)
                                          (with_typing None None us)]> s) ;;
                message_data ←
                  MessageSerializer (Some (HttpRequest user)) (Some (user, None)) message;
                emit (GroupSend (group_of (conversation_id conv))
                        (Ev_chat_message_broadcast message_data))) (self', c)) s1).
  cbv beta iota. keep.
Qed.

Lemma get_message_by_pk_cases mid s :
  (exists m, messages s !! mid = Some m /\ get_message_by_pk mid s = (s, [], inr m))
  \/ exists e, get_message_by_pk mid s = (s, [], inl e).
Proof.
  unfold get_message_by_pk. mstep. destruct (messages s !! mid) as [m|].
  - left. exists m. split; reflexivity.
  - right. eexists. reflexivity.
Qed.

Lemma kept_delete_message u env user mid s :
  kept_at (sound_with u) (delete_message env user mid) s.
Proof.
  unfold delete_message, api_view. apply kept_at_try; [|intros ?; keep].
  intros HP. pose proof HP as [Hok Hu].
  destruct (get_message_by_pk_cases mid s) as [(m & Hm & Hrun)|[e Hrun]];
    [|rewrite (bind_exn _ _ _ _ _ _ Hrun); exact HP].
  rewrite (bind_ok _ _ _ _ _ _ Hrun).
  destruct (fk_conversation_cases (conversation m) s) as [(c & Hc & Hfk)|[e Hfk]];
    [|rewrite (bind_exn _ _ _ _ _ _ Hfk); exact HP].
  rewrite (bind_ok _ _ _ _ _ _ Hfk).
  destruct (negb (bool_decide (acc_id user ∈ participants c))); [exact HP|].
  revert HP. apply kept_at_get_bind. cbv beta.
  destruct (message_deletions s !! (message_id m, acc_id user)); [keep|].
  apply kept_at_bind; [|intros ?; keep].
  apply kept_at_put. apply sound_deletion.
  rewrite (ok_message_key s Hok _ _ Hm). eauto.
Qed.

Lemma kept_restore_message u env user mid s :
  kept_at (sound_with u) (restore_message env user mid) s.
Proof. unfold restore_message, api_view. keep. Qed.

Lemma kept_add_reaction u env user mid data s :
  kept_at (sound_with u) (add_reaction env user mid data) s.
Proof. unfold add_reaction, api_view. keep. Qed.

Lemma kept_mark_messages_read u env user cid s :
  kept_at (sound_with u) (mark_messages_read env user cid) s.
Proof. unfold mark_messages_read, api_view. keep. Qed.

Lemma kept_views_set_typing_status u env user cid data s :
  kept_at (sound_with u) (views_set_typing_status env user cid data) s.
Proof. unfold views_set_typing_status, api_view. keep. Qed.

Lemma kept_update_user_status u env user data s :
  kept_at (sound_with u) (update_user_status env user data) s.
Proof. unfold update_user_status, api_view. cbv zeta. keep. Qed.

Lemma kept_delete_conversation u env user cid s :
  kept_at (sound_with u) (delete_conversation env user cid) s.
Proof. unfold delete_conversation, api_view. keep. Qed.

Lemma kept_restore_conversation u user cid s :
  kept_at (sound_with u) (restore_conversation user cid) s.
Proof. unfold restore_conversation, api_view. keep. Qed.

Lemma kept_perform_update u env user k m x s :
  messages s !! k = Some m ->
  kept_at (sound_with u) (perform_update env user m x) s.
Proof.
  intros Hm. unfold perform_update. apply kept_at_bind; [|intros ?; keep].
  intros HP. pose proof HP as [Hok Hu]. unfold MessageEditSerializer_update.
  destruct (fk_conversation_cases (conversation m) s) as [(c & Hc & Hfk)|[e Hfk]];
    [|rewrite (bind_exn _ _ _ _ _ _ Hfk); exact HP].
  rewrite (bind_ok _ _ _ _ _ _ Hfk).
  revert HP. apply kept_at_bind.
  - apply kept_Message_save.
    + exact (ok_conversation_secret s Hok _ _ Hc).
    + exact (ok_message_fk s Hok _ _ Hm).
  - intros [m' c']. keep.
Qed.

Lemma kept_Conversation_create u env user name is_group s :
  truthy (generate_key env) = true ->
  kept_at (sound_with u) (Conversation_create env user name is_group) s.
Proof.
  intros Hg. unfold Conversation_create. cbv zeta. apply kept_at_get_bind. cbv beta.
  cbn [conversation_id].
  destruct (conversations s !! uuid4 env); [keep|].
  apply kept_at_bind; [|intros ?; keep].
  apply kept_at_put. now apply sound_conversation.
Qed.

Lemma kept_participants_set u self ids s :
  kept_at (sound_with u) (participants_set self ids) s.
Proof. unfold participants_set. keep. Qed.

Lemma kept_participants_add u self ids s :
  kept_at (sound_with u) (participants_add self ids) s.
Proof. unfold participants_add. keep. Qed.

#[local] Hint Resolve kept_Conversation_create kept_participants_set
  kept_participants_add : keep.

Lemma kept_get_or_create_conversation u env user uid s :
  truthy (generate_key env) = true ->
  kept_at (sound_with u) (get_or_create_conversation env user uid) s.
Proof. intros Hg. unfold get_or_create_conversation. keep. Qed.

Lemma kept_ConversationCreateSerializer_create u env user name is_group ids s :
  truthy (generate_key env) = true ->
  kept_at (sound_with u) (ConversationCreateSerializer_create env user name is_group ids) s.
Proof. intros Hg. unfold ConversationCreateSerializer_create. cbv zeta. keep. Qed.

(** X24. The REST views keep the integrity of the database. From a
    database with integrity that holds the account of the user of the
    request, each of the views that write leaves a database with
    integrity, whatever the request: sending, soft-deleting, restoring
    and reacting to a message, marking as read, reporting typing and
    presence, soft-deleting and restoring a conversation, editing a
    stored message, and, when the key generator gives a non-empty key,
    opening a conversation. *)
Theorem rest_keeps_integrity (env : Env) (user : Account) (s : Store) :
  store_ok s ->
  is_Some (accounts s !! acc_id user) ->
  (forall cid data x mtype att,
     store_ok (perform_create env user cid data x mtype att s).1.1)
  /\ (forall mid, store_ok (delete_message env user mid s).1.1)
  /\ (forall mid, store_ok (restore_message env user mid s).1.1)
  /\ (forall mid data, store_ok (add_reaction env user mid data s).1.1)
  /\ (forall cid, store_ok (mark_messages_read env user cid s).1.1)
  /\ (forall cid data, store_ok (views_set_typing_status env user cid data s).1.1)
  /\ (forall data, store_ok (update_user_status env user data s).1.1)
  /\ (forall cid, store_ok (delete_conversation env user cid s).1.1)
  /\ (forall cid, store_ok (restore_conversation user cid s).1.1)
  /\ (forall k m x, messages s !! k = Some m ->
        store_ok (perform_update env user m x s).1.1)
  /\ (truthy (generate_key env) = true ->
      (forall uid, store_ok (get_or_create_conversation env user uid s).1.1)
      /\ forall name is_group ids,
           store_ok (ConversationCreateSerializer_create env user name is_group ids s).1.1).
Proof.
  intros Hok Hu.
  assert (HP : sound_with (Some user) s)
    by (split; [exact Hok|intros a [= <-]; exact Hu]).
  split; [|split; [|split; [|split; [|split; [|split; [|split; [|split; [|split;
    [|split]]]]]]]]].
  - intros. exact (proj1 (kept_perform_create env user _ _ _ _ _ s HP)).
  - intros. exact (proj1 (kept_delete_message _ env user _ s HP)).
  - intros. exact (proj1 (kept_restore_message _ env user _ s HP)).
  - intros. exact (proj1 (kept_add_reaction _ env user _ _ s HP)).
  - intros. exact (proj1 (kept_mark_messages_read _ env user _ s HP)).
  - intros. exact (proj1 (kept_views_set_typing_status _ env user _ _ s HP)).
  - intros. exact (proj1 (kept_update_user_status _ env user _ s HP)).
  - intros. exact (proj1 (kept_delete_conversation _ env user _ s HP)).
  - intros. exact (proj1 (kept_restore_conversation _ user _ s HP)).
  - intros k m x Hm. exact (proj1 (kept_perform_update _ env user k m x s Hm HP)).
  - intros Hg. split.
    + intros. exact (proj1 (kept_get_or_create_conversation _ env user _ s Hg HP)).
    + intros. exact (proj1 (kept_ConversationCreateSerializer_create _ env user _ _ _ s
                              Hg HP)).
Qed.

(** ** The presence that a leaving connection announces *)

(** The consumer that [connect] leaves when it accepts: the status row
    of the user says online since now, and the user object has this row
    as its cached status, whether the call created the row or found
    it. *)
Lemma connect_accepts env scope channel a s :
  resolved scope s = Some a ->
  may_join s (url_conversation_id scope) (acc_id a) ->
  exists s1 ud us,
    connect env scope channel s
    = (s1, [GroupAdd (lit "chat_" ++ url_conversation_id scope) channel; Accept;
            GroupSend (lit "chat_" ++ url_conversation_id scope)
              (Ev_status_broadcast ud (lit "online") (now env))],
       inr {| channel_name := channel;
              self_conversation_id := url_conversation_id scope;
              room_group_name := lit "chat_" ++ url_conversation_id scope;
              self_user := Some (Acct a); status_cache := Some (Some us) |})
    /\ user_statuses s1 !! acc_id a = Some us
    /\ status us = lit "online" /\ last_seen us = now env.
Proof.
  unfold resolved, connect, authenticate_user. run.
  match goal with
  | |- context [match ?e with Some x => _ | None => _ end] =>
      match type of e with option User => set (u := e) end
  end.
  destruct u as [[|b]|]; try discriminate.
  intros [= ->] Hyes. unfold current_account. cbn.
  set (self := {| channel_name := channel |}).
  destruct (verify_conversation_access_spec self a s) as (b & -> & Hb). cbn.
  destruct b; [|apply Hb in Hyes; discriminate].
  unfold set_user_status, broadcast_status_change, get_user_data,
    UserDisplaySerializer, get_or_create_user_status. run.
  destruct (user_statuses s !! acc_id a); run; rewrite ?lookup_insert_eq;
    do 3 eexists; (split; [reflexivity|]); cbn; rewrite ?lookup_insert_eq;
    repeat split.
Qed.

(** X26. The presence that a connection announces when it leaves.
    [connect], when it accepts the connection of a user, leaves the
    status row of the user online since now, and the user object of the
    connection keeps this row as its cached status. When the connection
    is disconnected later, whatever has become of the row in between as
    long as there is one, the row is set to offline and the
    [status_broadcast] event says offline, while the [user_data] of the
    event still carries the status online and the time of the
    handshake. *)
Theorem disconnect_announces_cached_status (env0 env : Env) (scope : Scope)
    (channel : str) (a : Account) (s0 s : Store) :
  resolved scope s0 = Some a ->
  may_join s0 (url_conversation_id scope) (acc_id a) ->
  is_Some (user_statuses s !! acc_id a) ->
  exists s1 es self us,
    connect env0 scope channel s0 = (s1, es, inr self)
    /\ current_account self = Some a
    /\ user_statuses s1 !! acc_id a = Some us
    /\ status us = lit "online" /\ last_seen us = now env0
    /\ status_cache self = Some (Some us)
    /\ exists s' ud,
         disconnect env self s
         = (s', [GroupDiscard (room_group_name self) (channel_name self);
                 GroupSend (room_group_name self)
                   (Ev_status_broadcast ud (lit "offline") (now env))], inr tt)
         /\ ud_status ud = (lit "online", Some (now env0))
         /\ status <$> user_statuses s' !! acc_id a = Some (lit "offline").
Proof.
  intros Hres Hjoin [row Hrow].
  destruct (connect_accepts env0 scope channel a s0 Hres Hjoin)
    as (s1 & ud0 & us & Hrun & Hus & Hst & Hseen).
  eexists s1, _, _, us. split; [exact Hrun|].
  split; [reflexivity|]. split; [exact Hus|]. split; [exact Hst|].
  split; [exact Hseen|]. split; [reflexivity|].
  unfold disconnect, current_account. cbn [self_user].
  unfold clear_typing_status, set_user_status, get_or_create_user_status,
    broadcast_status_change, get_user_data, UserDisplaySerializer. mstep.
  rewrite Hrow. mstep. cbn [user_statuses set_user_statuses].
  rewrite lookup_insert_eq. mstep.
  cbn [room_group_name channel_name with_status_cache status_cache].
  do 2 eexists. split; [reflexivity|].
  cbn [ud_status user_statuses set_user_statuses].
  unfold get_status, related_status. rewrite Hst, Hseen, lookup_insert_eq.
  split; reflexivity.
Qed.

End Chat.

(** * The statements on the example data *)

(** ** The example libraries and database *)

(** The example Fernet obeys the laws of the library. *)
Lemma fernet_laws : @FernetLaws Ex.fernet.
Proof.
  split; cbn.
  - intros f _ _ d. f_equal. rewrite <- list_fmap_compose.
    rewrite <- (list_fmap_id d) at 2. apply list_fmap_ext.
    intros _ x _. cbn. lia.
  - intros s b. congruence.
  - intros b s. congruence.
  - intros f _ _ d. eexists. split; [reflexivity|discriminate].
Defined.

(** The example database is sound. *)
Lemma store_ok_example : store_ok Ex.store.
Proof.
  split.
  - intros k m Hm. unfold Ex.store in Hm. cbn in Hm.
    apply lookup_singleton_Some in Hm as [<- <-]. reflexivity.
  - intros k m Hm. unfold Ex.store in Hm. cbn in Hm.
    apply lookup_singleton_Some in Hm as [<- <-].
    split; eexists; vm_compute; reflexivity.
  - intros k c Hc. unfold Ex.store in Hc. cbn in Hc.
    apply lookup_singleton_Some in Hc as [<- <-]. reflexivity.
  - intros k c Hc. unfold Ex.store in Hc. cbn in Hc.
    apply lookup_singleton_Some in Hc as [<- <-]. reflexivity.
  - intros k u [t Ht]. unfold Ex.store in Ht. cbn in Ht.
    rewrite lookup_empty in Ht. discriminate.
Defined.


(** ** C1: events about a soft-deleted message *)

(** C1, the code at the failing input: [bob] has a deletion row for the
    example message; [alice] edits the message and then reacts to it.
    The edited text and the reaction are written to the socket of
    [bob]. A message-deleted event about the same message is kept from
    him. *)
Lemma edit_and_reaction_reach_deleting_user :
  deleted_by Ex.store_deleted (lit "m1") (lit "u2") = true
  /\ (exists s' md,
        handle_message_edit (F := Ex.fernet) (W := Ex.web) Ex.env Ex.conn_a1 Ex.edit_m1
          Ex.store_deleted
        = (s', [GroupSend (lit "chat_c1") (Ev_message_edited_broadcast md)], inr tt)
        /\ md_message_id md = lit "m1"
        /\ md_content md = Some (lit "new text")
        /\ deleted_by s' (lit "m1") (lit "u2") = true
        /\ fan_out (W := Ex.web) s' [Ex.conn_a1; Ex.conn_b] (Ev_message_edited_broadcast md)
           = [(lit "chan.a1", F_message_edited md); (lit "chan.b", F_message_edited md)])
  /\ (exists s' e,
        handle_reaction (W := Ex.web) Ex.env Ex.conn_a1 Ex.like_m1 Ex.store_deleted
        = (s', [GroupSend (lit "chat_c1") e], inr tt)
        /\ deleted_by s' (lit "m1") (lit "u2") = true
        /\ (fan_out (W := Ex.web) s' [Ex.conn_a1; Ex.conn_b] e).*1
           = [lit "chan.a1"; lit "chan.b"])
  /\ (fan_out (W := Ex.web) Ex.store_deleted [Ex.conn_a1; Ex.conn_b]
        (Ev_message_deleted_broadcast (JStr (lit "m1")) Ex.ud_alice 1000)).*1
     = [lit "chan.a1"].
Proof.
  split; [vm_compute; reflexivity|]. split; [|split].
  - do 2 eexists. split; [vm_compute; reflexivity|].
    repeat split; vm_compute; reflexivity.
  - do 2 eexists. split; [vm_compute; reflexivity|].
    split; vm_compute; reflexivity.
  - vm_compute. reflexivity.
Qed.

(** ** C2: read receipts and typing events *)

(** C2, the witness: a room with two connections of one user and one of
    another. *)
Lemma sender_excluded_by_user_witness :
  let room := [Ex.conn_a1; Ex.conn_a2; Ex.conn_b] in
  Forall (fun self => is_Some (current_account self)) room
  /\ fan_out (W := Ex.web) Ex.store room
       (Ev_read_receipt_broadcast (JStr (lit "m1")) Ex.ud_alice 1000)
     = (fun self => (channel_name self, F_read_receipt (JStr (lit "m1")) Ex.ud_alice 1000))
         <$> filter (fun self => ~ belongs_to (ud_acc_id Ex.ud_alice) self) room.
Proof.
  assert (Hroom : Forall (fun self => is_Some (current_account self))
                    [Ex.conn_a1; Ex.conn_a2; Ex.conn_b])
    by (repeat constructor; eexists; reflexivity).
  split; [exact Hroom|].
  exact (proj1 (sender_excluded_by_user (W := Ex.web) Ex.store _ Ex.ud_alice
                  (JStr (lit "m1")) (JBool true) 1000 Hroom)).
Defined.

(** C2, the counterexample: [alice] marks a message read on her first
    connection; the event comes back to neither of her two connections,
    so her other connection is not served either. *)
Lemma read_receipt_skips_other_connection :
  channel_name Ex.conn_a2 <> channel_name Ex.conn_a1
  /\ current_account Ex.conn_a2 = Some Ex.alice
  /\ exists e,
      (handle_read_receipt (W := Ex.web) Ex.env Ex.conn_a1
         [(lit "message_id", JStr (lit "m1"))] Ex.store).1.2
      = [GroupSend (lit "chat_c1") e]
      /\ fan_out (W := Ex.web) Ex.store [Ex.conn_a1; Ex.conn_a2; Ex.conn_b] e
         = [(lit "chan.b", F_read_receipt (JStr (lit "m1")) Ex.ud_alice 1000)].
Proof.
  split; [vm_compute; congruence|]. split; [reflexivity|].
  eexists. split; vm_compute; reflexivity.
Qed.

(** ** C3: rejected frames *)



(** ** C4: the reaction toggle *)

(** C4, the witness: [alice] likes the example message twice over her
    connection. *)
Lemma reaction_toggle_in_pairs_witness :
  current_account Ex.conn_a1 = Some Ex.alice
  /\ reaction_count Ex.store (lit "m1") (lit "u1") (lit "like") = 0%nat
  /\ toggles_in_pairs (fun env => handle_reaction (W := Ex.web) env Ex.conn_a1 Ex.like_m1)
       (lit "chat_c1") (JStr (lit "m1")) (JStr (lit "like"))
       (lit "m1") (lit "u1") (lit "like") Ex.env (Ex.later 5) Ex.store.
Proof.
  assert (Ha : current_account Ex.conn_a1 = Some Ex.alice) by reflexivity.
  assert (Hz : reaction_count Ex.store (lit "m1") (lit "u1") (lit "like") = 0%nat)
    by (vm_compute; reflexivity).
  split; [exact Ha|]. split; [exact Hz|].
  refine (proj1 (reaction_toggle_in_pairs (W := Ex.web) Ex.env (Ex.later 5)
                   Ex.conn_a1 Ex.alice Ex.like_m1 (JStr (lit "m1"))
                   (JStr (lit "like")) (lit "m1") Ex.msg Ex.store
                   Ha _ _ _ _ _ _ Hz)); vm_compute; reflexivity.
Defined.

(** ** C5: the handshake *)

(** C5, the witness: the three handshakes of the examples. *)
Lemma handshake_admission_witness :
  (resolved (W := Ex.web) Ex.scope_forged Ex.store = None
   /\ (connect (W := Ex.web) Ex.env Ex.scope_forged (lit "chan.x") Ex.store).1
      = (Ex.store, [Close 4001]))
  /\ (resolved (W := Ex.web) Ex.scope_elsewhere Ex.store = Some Ex.alice
      /\ ~ may_join Ex.store (lit "c9") (lit "u1")
      /\ (connect (W := Ex.web) Ex.env Ex.scope_elsewhere (lit "chan.x") Ex.store).1
         = (Ex.store, [Close 4003]))
  /\ (resolved (W := Ex.web) Ex.scope_alice Ex.store = Some Ex.alice
      /\ may_join Ex.store (lit "c1") (lit "u1")
      /\ exists s' ud,
           (connect (W := Ex.web) Ex.env Ex.scope_alice (lit "chan.x") Ex.store).1
           = (s', [GroupAdd (lit "chat_" ++ lit "c1") (lit "chan.x"); Accept;
                   GroupSend (lit "chat_" ++ lit "c1")
                     (Ev_status_broadcast ud (lit "online") (now Ex.env))])
           /\ status <$> user_statuses s' !! lit "u1" = Some (lit "online")).
Proof.
  assert (H1 : resolved (W := Ex.web) Ex.scope_forged Ex.store = None)
    by (vm_compute; reflexivity).
  assert (H2 : resolved (W := Ex.web) Ex.scope_elsewhere Ex.store = Some Ex.alice)
    by (vm_compute; reflexivity).
  assert (H3 : resolved (W := Ex.web) Ex.scope_alice Ex.store = Some Ex.alice)
    by (vm_compute; reflexivity).
  assert (N2 : ~ may_join Ex.store (lit "c9") (lit "u1"))
    by (intros (c & Hc & _); vm_compute in Hc; discriminate Hc).
  assert (Y3 : may_join Ex.store (lit "c1") (lit "u1")).
  { exists Ex.conv. split; [vm_compute; reflexivity|].
    split; [|vm_compute; reflexivity].
    unfold Ex.conv. cbn. set_solver. }
  split; [|split].
  - split; [exact H1|].
    exact (proj1 (handshake_admission (W := Ex.web) Ex.env Ex.scope_forged
                    (lit "chan.x") Ex.store) H1).
  - split; [exact H2|]. split; [exact N2|].
    exact (proj1 (proj2 (handshake_admission (W := Ex.web) Ex.env Ex.scope_elsewhere
                           (lit "chan.x") Ex.store)) Ex.alice H2 N2).
  - split; [exact H3|]. split; [exact Y3|].
    exact (proj2 (proj2 (handshake_admission (W := Ex.web) Ex.env Ex.scope_alice
                           (lit "chan.x") Ex.store)) Ex.alice H3 Y3).
Defined.

(** ** C6: sending a message *)

(** C6, the code at the failing input: [alice] sends a picture over her
    connection. The message is stored with its attachment and the
    conversation is marked as updated, but the group is sent nothing
    and [alice] is told that saving failed. *)
Lemma attachment_message_not_broadcast_witness :
  store_ok Ex.store
  /\ current_account Ex.conn_a1 = Some Ex.alice
  /\ dict_get Ex.send_photo (lit "message") = Some (JStr (lit "look"))
  /\ dict_get Ex.send_photo (lit "attachment") = Some (JStr (lit "photo.png"))
  /\ exists s' msg,
       handle_chat_message (F := Ex.fernet) (W := Ex.web) Ex.env Ex.conn_a1 Ex.send_photo
         Ex.store
       = (s', [Send (F_error
                       (lit "Failed to save message: "
                        ++ lit "'MockRequest' object has no attribute 'build_absolute_uri'")
                       (now Ex.env))],
          inr tt)
       /\ messages s' !! lit "m2" = Some msg
       /\ attachment msg = Some (lit "photo.png")
       /\ decrypt_message (F := Ex.fernet) Ex.conv (Some (content msg)) = Some (lit "look")
       /\ updated_at <$> conversations s' !! lit "c1" = Some (now Ex.env)
       /\ user_statuses s' = user_statuses Ex.store.
Proof.
  assert (Ha : current_account Ex.conn_a1 = Some Ex.alice) by reflexivity.
  assert (Hacc : accounts Ex.store !! acc_id Ex.alice = Some Ex.alice)
    by (vm_compute; reflexivity).
  assert (Hc : conversations Ex.store !! self_conversation_id Ex.conn_a1 = Some Ex.conv)
    by (vm_compute; reflexivity).
  assert (Hf : messages Ex.store !! uuid4 Ex.env = None) by (vm_compute; reflexivity).
  assert (Hx : dict_get Ex.send_photo (lit "message") = Some (JStr (lit "look")))
    by (vm_compute; reflexivity).
  assert (Hatt : dict_get Ex.send_photo (lit "attachment")
                 = Some (JStr (lit "photo.png"))) by (vm_compute; reflexivity).
  assert (Hne : strip (lit "look") <> []) by (vm_compute; discriminate).
  assert (Hname : lit "photo.png" <> []) by discriminate.
  assert (Hreply : forall rid, dict_get Ex.send_photo (lit "reply_to") = Some rid ->
                     json_truthy rid = true -> is_Some (to_uuid (WebLib := Ex.web) rid))
    by (intros rid Hrid; vm_compute in Hrid; discriminate Hrid).
  assert (Htype : dict_get Ex.send_photo (lit "message_type") <> Some JNull)
    by (vm_compute; discriminate).
  split; [exact store_ok_example|]. split; [exact Ha|]. split; [exact Hx|].
  split; [exact Hatt|].
  destruct (attachment_message_not_broadcast (F := Ex.fernet) (W := Ex.web)
              (L := fernet_laws) Ex.env Ex.conn_a1 Ex.alice Ex.send_photo Ex.conv
              (lit "look") (lit "photo.png") Ex.store
              store_ok_example Ha Hacc Hc Hf Hreply Htype Hx Hne Hatt Hname)
    as (s' & msg & Hrun & Hmsgs & _ & _ & Hfile & Hdec & Hupd & Hst).
  exists s', msg. split; [exact Hrun|]. split; [|split; [exact Hfile|]].
  - rewrite Hmsgs. apply lookup_insert_eq.
  - split; [exact Hdec|]. split; [exact Hupd|exact Hst].
Defined.

(** ** C7: the typing window *)

(** C7, the witness: [alice] starts typing, [bob] asks eleven seconds
    later and is not told that she is typing. *)
Lemma typing_expires_by_window_witness :
  conversations Ex.store !! self_conversation_id Ex.conn_a1 = Some Ex.conv
  /\ Some (lit "u2") <> Some (acc_id Ex.alice)
  /\ now (Ex.later 11000000) = now Ex.env + 11 * 1000000
  /\ acc_id Ex.alice ∉ get_typing_users (Ex.later 11000000)
       (set_typing_status Ex.env Ex.conn_a1 Ex.alice (JBool true) Ex.store).1.1
       Ex.conv (Some (lit "u2")).
Proof.
  assert (Hc : conversations Ex.store !! self_conversation_id Ex.conn_a1 = Some Ex.conv)
    by (vm_compute; reflexivity).
  assert (Hreq : Some (lit "u2") <> Some (acc_id Ex.alice)) by (vm_compute; congruence).
  assert (Hnow : now (Ex.later 11000000) = now Ex.env + 11 * 1000000) by reflexivity.
  split; [exact Hc|]. split; [exact Hreq|]. split; [exact Hnow|].
  exact (proj2 (typing_expires_by_window Ex.env (Ex.later 11000000) Ex.conn_a1
                  Ex.alice Ex.store Ex.conv (Some (lit "u2")) Hc Hreq) Hnow).
Defined.

(** C7, the counterexample: ten seconds after [alice] started typing,
    when it is no longer true that less than the window has elapsed,
    [bob] is still told that she is typing. *)
Lemma typing_reported_at_ten_seconds :
  ~ (now (Ex.later 10000000) - now Ex.env < TYPING_WINDOW)
  /\ get_typing_users (Ex.later 10000000)
       (set_typing_status Ex.env Ex.conn_a1 Ex.alice (JBool true) Ex.store).1.1
       Ex.conv (Some (lit "u2"))
     = [lit "u1"].
Proof.
  split; [vm_compute; intros H; discriminate H|]. vm_compute. reflexivity.
Qed.

(** ** C8: the REST mirror *)



(** ** C9: at-rest encryption *)

(** C9, the witness: the greeting under the key of the example
    conversation. *)
Lemma encrypt_then_decrypt_witness :
  key_truthy (encryption_key Ex.conv) = true
  /\ lit "hi" <> []
  /\ exists e,
       encrypt_message (F := Ex.fernet) Ex.env false Ex.conv (Some (lit "hi")) Ex.store
       = (Ex.store, [], inr (Ex.conv, Some e))
       /\ decrypt_message (F := Ex.fernet) Ex.conv (Some e) = Some (lit "hi").
Proof.
  assert (Hk : key_truthy (encryption_key Ex.conv) = true) by reflexivity.
  assert (Hm : lit "hi" <> []) by discriminate.
  split; [exact Hk|]. split; [exact Hm|].
  exact (proj1 (encrypt_then_decrypt (F := Ex.fernet) (L := fernet_laws)
                  Ex.env false Ex.conv (lit "hi") Ex.store Hk Hm)).
Defined.

(** ** C10: restoring a message *)



(** * The further statements on the example data *)

(** X2, the witness: a ping on a connection without an authenticated
    user. *)
Lemma ping_is_answered_witness :
  let W := Ex.web_of [(Ex.frame_of_type "ping", JDict [(lit "type", JStr (lit "ping"))])] in
  json_loads (WebLib := W) (Ex.frame_of_type "ping")
  = Some (JDict [(lit "type", JStr (lit "ping"))])
  /\ type_is [(lit "type", JStr (lit "ping"))] "ping" = true
  /\ receive (F := Ex.fernet) (W := W) Ex.env Ex.conn_anonymous
       (Ex.frame_of_type "ping") Ex.store
     = (Ex.store, [Send (F_pong (now Ex.env))], inr tt).
Proof.
  intros W.
  assert (Hl : json_loads (WebLib := W) (Ex.frame_of_type "ping")
               = Some (JDict [(lit "type", JStr (lit "ping"))]))
    by (vm_compute; reflexivity).
  assert (Ht : type_is [(lit "type", JStr (lit "ping"))] "ping" = true)
    by (vm_compute; reflexivity).
  split; [exact Hl|]. split; [exact Ht|].
  exact (ping_is_answered (F := Ex.fernet) (W := W) Ex.env Ex.conn_anonymous _ _
           Ex.store Hl Ht).
Defined.

(** X3, the witness: [alice], who has no status row yet, leaves; a
    connection without a user leaves. *)
Lemma disconnect_outcomes_witness :
  current_account Ex.conn_a1 = Some Ex.alice
  /\ user_statuses Ex.store !! acc_id Ex.alice = None
  /\ (exists s' ud,
        disconnect Ex.env Ex.conn_a1 Ex.store
        = (s', [GroupDiscard (lit "chat_c1") (lit "chan.a1");
                GroupSend (lit "chat_c1")
                  (Ev_status_broadcast ud (lit "offline") (now Ex.env))], inr tt)
        /\ ud_status ud = (lit "offline", Some (now Ex.env))
        /\ status <$> user_statuses s' !! lit "u1" = Some (lit "offline"))
  /\ current_account Ex.conn_anonymous = None
  /\ disconnect Ex.env Ex.conn_anonymous Ex.store
     = (Ex.store, [GroupDiscard (lit "chat_c1") (lit "chan.x")], inr tt).
Proof.
  assert (Ha : current_account Ex.conn_a1 = Some Ex.alice) by reflexivity.
  assert (Hrow : user_statuses Ex.store !! acc_id Ex.alice = None)
    by (vm_compute; reflexivity).
  assert (Hn : current_account Ex.conn_anonymous = None) by reflexivity.
  split; [exact Ha|]. split; [exact Hrow|]. split; [|split; [exact Hn|]].
  - destruct (proj1 (disconnect_outcomes Ex.env Ex.conn_a1 Ex.store) Ex.alice Ha)
      as (s' & ud & us & Hrun & _ & Hfresh & _ & Hus & Hst & _).
    exists s', ud. split; [exact Hrun|]. split; [exact (Hfresh (or_introl Hrow))|].
    change (acc_id Ex.alice) with (lit "u1") in Hus.
    rewrite Hus. cbn. now rewrite Hst.
  - exact (proj2 (disconnect_outcomes Ex.env Ex.conn_anonymous Ex.store) Hn).
Defined.

(** X4, the witness: the three example connections and a presence
    event about [alice]. *)
Lemma presence_and_message_delivery_witness :
  let room := [Ex.conn_a1; Ex.conn_a2; Ex.conn_b] in
  Forall (fun self => is_Some (current_account self)) room
  /\ (fan_out (W := Ex.web) Ex.store room
        (Ev_status_broadcast Ex.ud_alice (lit "online") 1000)).*1
     = [lit "chan.b"].
Proof.
  intros room.
  assert (Hroom : Forall (fun self => is_Some (current_account self)) room)
    by (repeat constructor; eexists; reflexivity).
  split; [exact Hroom|].
  rewrite (proj1 (presence_and_message_delivery (W := Ex.web) Ex.store room Ex.ud_alice
                    (lit "online") 1000
                    {| md_message_id := []; md_content := None; md_timestamp := 0;
                       md_message_type := []; md_attachment := None;
                       md_sender := Ex.ud_alice; md_is_edited := false;
                       md_edited_at := None; md_reply_to := None;
                       md_is_deleted_by_me := false |} Hroom)).
  vm_compute. reflexivity.
Defined.

Lemma alice_in_conv : acc_id Ex.alice ∈ participants Ex.conv.
Proof. unfold Ex.conv, Ex.alice. cbn. set_solver. Defined.

Lemma example_serializable : serializable Ex.store Ex.msg.
Proof.
  split; [split; eexists; vm_compute; reflexivity|]. intros rid Hr. discriminate Hr.
Defined.

(** X5, the witness: [alice] deletes the example message twice over her
    connection. *)
Lemma socket_delete_idempotent_witness :
  current_account Ex.conn_a1 = Some Ex.alice
  /\ messages Ex.store !! lit "m1" = Some Ex.msg
  /\ conversations Ex.store !! conversation Ex.msg = Some Ex.conv
  /\ acc_id Ex.alice ∈ participants Ex.conv
  /\ exists ud2,
       handle_message_delete (W := Ex.web) (Ex.later 7) Ex.conn_a1 Ex.delete_m1
         (with_deletion (lit "m1") (lit "u1") (now Ex.env) Ex.store)
       = (with_deletion (lit "m1") (lit "u1") (now Ex.env) Ex.store,
          [GroupSend (lit "chat_c1")
             (Ev_message_deleted_broadcast (JStr (lit "m1")) ud2 (now (Ex.later 7)))],
          inr tt).
Proof.
  assert (Ha : current_account Ex.conn_a1 = Some Ex.alice) by reflexivity.
  assert (Hm : messages Ex.store !! lit "m1" = Some Ex.msg) by (vm_compute; reflexivity).
  assert (Hc : conversations Ex.store !! conversation Ex.msg = Some Ex.conv)
    by (vm_compute; reflexivity).
  split; [exact Ha|]. split; [exact Hm|]. split; [exact Hc|].
  split; [exact alice_in_conv|].
  destruct (socket_delete_idempotent (W := Ex.web) Ex.env (Ex.later 7) Ex.conn_a1
              Ex.alice Ex.delete_m1 (JStr (lit "m1")) (lit "m1") Ex.msg Ex.conv Ex.store
              Ha eq_refl eq_refl eq_refl Hm Hc alice_in_conv)
    as (ud1 & ud2 & _ & _ & Hrun).
  exists ud2. exact Hrun.
Defined.

(** X6, the witness: [alice] deletes and restores the example message
    over REST. *)
Lemma rest_delete_restore_cycle_witness :
  messages Ex.store !! lit "m1" = Some Ex.msg
  /\ serializable Ex.store Ex.msg
  /\ conversations Ex.store !! conversation Ex.msg = Some Ex.conv
  /\ acc_id Ex.alice ∈ participants Ex.conv
  /\ message_deletions Ex.store !! (message_id Ex.msg, acc_id Ex.alice) = None
  /\ exists md,
       restore_message (F := Ex.fernet) (W := Ex.web) (Ex.later 9) Ex.alice (lit "m1")
         (set_message_deletions
            <[(message_id Ex.msg, acc_id Ex.alice) := now Ex.env]> Ex.store)
       = (Ex.store,
          [GroupSend (group_of (conversation_id Ex.conv))
             (Ev_message_restored_broadcast md)],
          inr {| status_code := 200;
                 body := [("status", lit "Message restored successfully")] |}).
Proof.
  assert (Hm : messages Ex.store !! lit "m1" = Some Ex.msg) by (vm_compute; reflexivity).
  assert (Hc : conversations Ex.store !! conversation Ex.msg = Some Ex.conv)
    by (vm_compute; reflexivity).
  assert (Hn : message_deletions Ex.store !! (message_id Ex.msg, acc_id Ex.alice) = None)
    by (vm_compute; reflexivity).
  split; [exact Hm|]. split; [exact example_serializable|]. split; [exact Hc|].
  split; [exact alice_in_conv|]. split; [exact Hn|].
  destruct (rest_delete_restore_cycle (F := Ex.fernet) (W := Ex.web) Ex.env (Ex.later 3)
              (Ex.later 9)
              (Ex.later 12) Ex.alice (lit "m1") Ex.msg Ex.conv Ex.store
              Hm example_serializable Hc alice_in_conv Hn)
    as (ud & md & _ & _ & Hrestore & _).
  exists md. exact Hrestore.
Defined.

(** X7, the witness: [alice] asks to delete a message of a conversation
    of [bob] alone, and a message that does not exist. *)
Lemma delete_refused_witness :
  current_account Ex.conn_a1 = Some Ex.alice
  /\ messages Ex.store_two !! lit "m9" = Some Ex.msg_private
  /\ conversations Ex.store_two !! conversation Ex.msg_private = Some Ex.conv_private
  /\ (acc_id Ex.alice ∉ participants Ex.conv_private)
  /\ handle_message_delete (W := Ex.web) Ex.env Ex.conn_a1 Ex.delete_m9 Ex.store_two
     = (Ex.store_two,
        [Send (F_error (lit "Failed to delete message: "
                        ++ lit "You do not have permission to delete this message")
                 (now Ex.env))], inr tt)
  /\ messages Ex.store !! lit "m9" = None
  /\ delete_message Ex.env Ex.alice (lit "m9") Ex.store
     = (Ex.store, [], inr {| status_code := 404;
                             body := [("detail", lit "No Message matches the given query.")] |}).
Proof.
  assert (Ha : current_account Ex.conn_a1 = Some Ex.alice) by reflexivity.
  assert (Hm : messages Ex.store_two !! lit "m9" = Some Ex.msg_private)
    by (vm_compute; reflexivity).
  assert (Hc : conversations Ex.store_two !! conversation Ex.msg_private
               = Some Ex.conv_private) by (vm_compute; reflexivity).
  assert (Hout : acc_id Ex.alice ∉ participants Ex.conv_private)
    by (unfold Ex.conv_private, Ex.alice; cbn; intros Hin;
        apply elem_of_singleton in Hin; vm_compute in Hin; discriminate Hin).
  assert (Hnone : messages Ex.store !! lit "m9" = None) by (vm_compute; reflexivity).
  split; [exact Ha|]. split; [exact Hm|]. split; [exact Hc|]. split; [exact Hout|].
  split; [|split; [exact Hnone|]].
  - exact (proj1 (proj2 (delete_refused (W := Ex.web) Ex.env Ex.conn_a1 Ex.alice
                           Ex.delete_m9 (JStr (lit "m9")) (lit "m9") Ex.store_two
                           Ha eq_refl eq_refl eq_refl) Ex.msg_private Ex.conv_private
                    Hm Hc Hout)).
  - exact (proj2 (proj1 (delete_refused (W := Ex.web) Ex.env Ex.conn_a1 Ex.alice
                           Ex.delete_m9 (JStr (lit "m9")) (lit "m9") Ex.store
                           Ha eq_refl eq_refl eq_refl) Hnone)).
Defined.




(** X9, the witness: [alice] starts typing; [bob] asks five seconds
    later and is told so. *)
Lemma typing_frame_outcomes_witness :
  current_account Ex.conn_a1 = Some Ex.alice
  /\ conversations Ex.store !! self_conversation_id Ex.conn_a1 = Some Ex.conv
  /\ exists s' ud,
       handle_user_typing Ex.env Ex.conn_a1 Ex.typing_on Ex.store
       = (s', [GroupSend (lit "chat_c1")
                 (Ev_user_typing_broadcast ud (JBool true) (now Ex.env))], inr tt)
       /\ acc_id Ex.alice ∈ get_typing_users (Ex.later 5000000) s' Ex.conv (Some (lit "u2")).
Proof.
  assert (Ha : current_account Ex.conn_a1 = Some Ex.alice) by reflexivity.
  assert (Hc : conversations Ex.store !! self_conversation_id Ex.conn_a1 = Some Ex.conv)
    by (vm_compute; reflexivity).
  split; [exact Ha|]. split; [exact Hc|].
  destruct (typing_frame_outcomes Ex.env (Ex.later 5000000) Ex.conn_a1 Ex.alice
              Ex.typing_on Ex.conv Ex.conv (Some (lit "u2")) Ex.store Ha Hc)
    as (s' & ud & Hrun & _ & Hiff).
  exists s', ud. split; [exact Hrun|]. apply Hiff.
  split; [reflexivity|]. split; [reflexivity|].
  split; [vm_compute; discriminate|vm_compute; discriminate].
Defined.

(** X10, the witness: [alice] reads the example message twice. *)
Lemma read_receipt_upsert_witness :
  current_account Ex.conn_a1 = Some Ex.alice
  /\ messages Ex.store !! lit "m1" = Some Ex.msg
  /\ exists ud2 s2,
       handle_read_receipt (W := Ex.web) (Ex.later 8) Ex.conn_a1 Ex.read_m1
         (set_read_statuses <[(lit "m1", lit "u1") := now Ex.env]> Ex.store)
       = (s2, [GroupSend (lit "chat_c1")
                 (Ev_read_receipt_broadcast (JStr (lit "m1")) ud2 (now (Ex.later 8)))],
          inr tt)
       /\ read_statuses s2 = <[(lit "m1", lit "u1") := now (Ex.later 8)]> ∅.
Proof.
  assert (Ha : current_account Ex.conn_a1 = Some Ex.alice) by reflexivity.
  assert (Hm : messages Ex.store !! lit "m1" = Some Ex.msg) by (vm_compute; reflexivity).
  split; [exact Ha|]. split; [exact Hm|].
  destruct (proj1 (read_receipt_upsert (W := Ex.web) Ex.env (Ex.later 8) Ex.conn_a1
                     Ex.alice Ex.read_m1 (JStr (lit "m1")) (lit "m1") Ex.store
                     Ha eq_refl eq_refl eq_refl) Ex.msg Hm)
    as (ud1 & ud2 & s2 & _ & Hrun & Hrows & _).
  exists ud2, s2. split; [exact Hrun|exact Hrows].
Defined.

(** X11, the witness: a reaction of a kind that is not offered, and a
    reaction to a message that does not exist. *)
Lemma add_reaction_refused_witness :
  messages Ex.store !! lit "m1" = Some Ex.msg
  /\ (lit "dance" ∉ REACTION_CHOICES)
  /\ add_reaction (W := Ex.web) Ex.env Ex.alice (lit "m1")
       [(lit "reaction", JStr (lit "dance"))] Ex.store
     = (Ex.store, [],
        inr {| status_code := 400; body := [("error", lit "Invalid reaction")] |})
  /\ messages Ex.store !! lit "m9" = None
  /\ add_reaction (W := Ex.web) Ex.env Ex.alice (lit "m9")
       [(lit "reaction", JStr (lit "like"))] Ex.store
     = (Ex.store, [],
        inr {| status_code := 404;
               body := [("detail", lit "No Message matches the given query.")] |}).
Proof.
  assert (Hm : messages Ex.store !! lit "m1" = Some Ex.msg) by (vm_compute; reflexivity).
  assert (Hbad : lit "dance" ∉ REACTION_CHOICES).
  { unfold REACTION_CHOICES. rewrite !not_elem_of_cons.
    repeat split; try (vm_compute; discriminate). apply not_elem_of_nil. }
  assert (Hnone : messages Ex.store !! lit "m9" = None) by (vm_compute; reflexivity).
  split; [exact Hm|]. split; [exact Hbad|]. split; [|split; [exact Hnone|]].
  - exact (proj1 (add_reaction_refused (W := Ex.web) Ex.env Ex.alice (lit "m1")
                    [(lit "reaction", JStr (lit "dance"))] Ex.store) Ex.msg Hm Hbad).
  - exact (proj2 (add_reaction_refused (W := Ex.web) Ex.env Ex.alice (lit "m9")
                    [(lit "reaction", JStr (lit "like"))] Ex.store) Hnone).
Defined.

(** X12, the witness: the first text encrypted for the conversation of
    [bob] alone, which has no key yet, on the instance as it was loaded;
    and the same instance, had it never been saved, under an id that no
    row has. *)
Lemma encrypt_generates_key_witness :
  key_truthy (encryption_key Ex.conv_private) = false
  /\ truthy (generate_key Ex.env) = true
  /\ lit "note" <> []
  /\ conversations Ex.store_two !! conversation_id Ex.conv_private = Some Ex.conv_private
  /\ (exists e,
        encrypt_message (F := Ex.fernet) Ex.env false Ex.conv_private (Some (lit "note"))
          Ex.store_two
        = (set_conversations
             <[lit "c2" := with_encryption_key (Some (generate_key Ex.env)) Ex.conv_private]>
             Ex.store_two,
           [], inr (with_encryption_key (Some (generate_key Ex.env)) Ex.conv_private, Some e))
        /\ decrypt_message (F := Ex.fernet)
             (with_encryption_key (Some (generate_key Ex.env)) Ex.conv_private) (Some e)
           = Some (lit "note"))
  /\ conversations Ex.store !! conversation_id Ex.conv_private = None
  /\ exists e row,
       encrypt_message (F := Ex.fernet) Ex.env true Ex.conv_private (Some (lit "note"))
         Ex.store
       = (set_conversations <[lit "c2" := row]> Ex.store, [], inr (row, Some e))
       /\ participants row = ∅ /\ created_at row = now Ex.env
       /\ encryption_key row = Some (generate_key Ex.env).
Proof.
  assert (Hk : key_truthy (encryption_key Ex.conv_private) = false) by reflexivity.
  assert (Hg : truthy (generate_key Ex.env) = true) by reflexivity.
  assert (Hx : lit "note" <> []) by discriminate.
  assert (Hrow : conversations Ex.store_two !! conversation_id Ex.conv_private
                 = Some Ex.conv_private) by (vm_compute; reflexivity).
  assert (Hnone : conversations Ex.store !! conversation_id Ex.conv_private = None)
    by (vm_compute; reflexivity).
  split; [exact Hk|]. split; [exact Hg|]. split; [exact Hx|]. split; [exact Hrow|].
  split; [|split; [exact Hnone|]].
  - exact (proj1 (proj1 (encrypt_generates_key (F := Ex.fernet) (L := fernet_laws) Ex.env
                           Ex.conv_private (lit "note") Ex.store_two Hk Hg Hx)
                    Ex.conv_private Hrow)).
  - destruct (proj2 (proj2 (encrypt_generates_key (F := Ex.fernet) (L := fernet_laws)
                              Ex.env Ex.conv_private (lit "note") Ex.store Hk Hg Hx)
                       Hnone))
      as (e & Hrun & _).
    do 2 eexists. split; [exact Hrun|]. repeat split.
Defined.

(** X13, the witness: [alice] deletes the example conversation and
    restores it. *)
Lemma conversation_delete_restore_cycle_witness :
  conversations Ex.store !! lit "c1" = Some Ex.conv
  /\ acc_id Ex.alice ∈ participants Ex.conv
  /\ conversation_deletions Ex.store !! (conversation_id Ex.conv, acc_id Ex.alice) = None
  /\ self_conversation_id Ex.conn_a1 = lit "c1"
  /\ restore_conversation Ex.alice (lit "c1")
       (set_conversation_deletions
          <[(conversation_id Ex.conv, acc_id Ex.alice) := now Ex.env]> Ex.store)
     = (Ex.store, [],
        inr {| status_code := 200;
               body := [("status", lit "Conversation restored successfully")] |}).
Proof.
  assert (Hc : conversations Ex.store !! lit "c1" = Some Ex.conv)
    by (vm_compute; reflexivity).
  assert (Hn : conversation_deletions Ex.store
                 !! (conversation_id Ex.conv, acc_id Ex.alice) = None)
    by (vm_compute; reflexivity).
  assert (Hs : self_conversation_id Ex.conn_a1 = lit "c1") by (vm_compute; reflexivity).
  split; [exact Hc|]. split; [exact alice_in_conv|]. split; [exact Hn|].
  split; [exact Hs|].
  destruct (conversation_delete_restore_cycle Ex.env (Ex.later 3) Ex.alice Ex.conn_a1
              (lit "c1") Ex.conv Ex.store Hc alice_in_conv Hn Hs)
    as (_ & _ & _ & _ & _ & Hrestore & _).
  exact Hrestore.
Defined.

Lemma bob_in_conv : acc_id Ex.bob ∈ participants Ex.conv.
Proof. unfold Ex.conv, Ex.bob. cbn. set_solver. Defined.

(** X15, the witness: [alice] deletes the example message; it leaves
    her listing and stays in the one of [bob]. *)
Lemma message_listing_per_user_witness :
  store_ok Ex.store
  /\ messages Ex.store !! lit "m1" = Some Ex.msg
  /\ conversations Ex.store !! conversation Ex.msg = Some Ex.conv
  /\ acc_id Ex.alice ∈ participants Ex.conv
  /\ acc_id Ex.bob ∈ participants Ex.conv
  /\ acc_id Ex.bob <> acc_id Ex.alice
  /\ exists la1,
       MessageListCreateView_get_queryset Ex.alice (lit "c1")
         (delete_message Ex.env Ex.alice (lit "m1") Ex.store).1.1
       = ((delete_message Ex.env Ex.alice (lit "m1") Ex.store).1.1, [], inr la1)
       /\ (Ex.msg ∉ la1).
Proof.
  assert (Hm : messages Ex.store !! lit "m1" = Some Ex.msg) by (vm_compute; reflexivity).
  assert (Hc : conversations Ex.store !! conversation Ex.msg = Some Ex.conv)
    by (vm_compute; reflexivity).
  assert (Hne : acc_id Ex.bob <> acc_id Ex.alice) by (vm_compute; discriminate).
  split; [exact store_ok_example|]. split; [exact Hm|]. split; [exact Hc|].
  split; [exact alice_in_conv|]. split; [exact bob_in_conv|]. split; [exact Hne|].
  destruct (proj1 (message_listing_per_user Ex.env Ex.alice Ex.bob (lit "m1") Ex.msg
                     Ex.conv Ex.store store_ok_example Hm Hc alice_in_conv bob_in_conv
                     Hne))
    as (la & la1 & lb & _ & Hrun & Hiff & _).
  exists la1. split; [exact Hrun|].
  intros Hin. apply Hiff in Hin. destruct Hin as [_ Hdiff]. now apply Hdiff.
Defined.

(** X16, the witness: [alice] reports that she is busy; the group of the
    example conversation hears of it. *)
Lemma status_update_reaches_own_conversations_witness :
  (forall k c, conversations Ex.store !! k = Some c -> conversation_id c = k)
  /\ dict_get [(lit "status", JStr (lit "busy"))] (lit "status") = Some (JStr (lit "busy"))
  /\ exists s' es,
       update_user_status (W := Ex.web) Ex.env Ex.alice
         [(lit "status", JStr (lit "busy"))] Ex.store
       = (s', es, inr {| status_code := 200;
                         body := [("status", lit "Status updated to " ++ lit "busy")] |})
       /\ (group_of (lit "c1"), lit "status_broadcast") ∈ broadcasts es.
Proof.
  assert (Hk : forall k c, conversations Ex.store !! k = Some c -> conversation_id c = k)
    by exact (ok_conversation_key Ex.store store_ok_example).
  assert (Hd : dict_get [(lit "status", JStr (lit "busy"))] (lit "status")
               = Some (JStr (lit "busy"))) by (vm_compute; reflexivity).
  split; [exact Hk|]. split; [exact Hd|].
  destruct (proj1 (status_update_reaches_own_conversations (W := Ex.web) Ex.env Ex.alice
                     [(lit "status", JStr (lit "busy"))] (lit "busy") Ex.store Hk
                     (or_introl Hd)))
    as (s' & es & us & Hrun & _ & _ & _ & _ & _ & Hall & _).
  exists s', es. split; [exact Hrun|]. apply Hall.
  exists Ex.conv. split; [vm_compute; reflexivity|].
  split; [exact alice_in_conv|vm_compute; reflexivity].
Defined.



(** X19, the witness: a frame on a connection of [alice] from the
    example database. *)
Lemma consumer_keeps_integrity_witness :
  store_ok Ex.store
  /\ (forall a, current_account Ex.conn_a1 = Some a ->
                is_Some (accounts Ex.store !! acc_id a))
  /\ store_ok (receive (F := Ex.fernet) (W := Ex.web) Ex.env Ex.conn_a1
                 (Ex.frame_of_type "read_receipt") Ex.store).1.1.
Proof.
  assert (Hu : forall a, current_account Ex.conn_a1 = Some a ->
                         is_Some (accounts Ex.store !! acc_id a)).
  { intros a Ha. change (Some Ex.alice = Some a) in Ha. injection Ha as <-.
    eexists. vm_compute. reflexivity. }
  split; [exact store_ok_example|]. split; [exact Hu|].
  exact (proj1 (consumer_keeps_integrity (F := Ex.fernet) (W := Ex.web) Ex.env
                  Ex.conn_a1 (Ex.frame_of_type "read_receipt") Ex.store
                  store_ok_example Hu)).
Defined.

(** X20, the witness: the answer of [bob] to the example message, as
    [alice] sees it. *)
Lemma reply_preview_witness :
  reply_to Ex.answer = Some (lit "m1")
  /\ messages Ex.store !! lit "m1" = Some Ex.msg
  /\ accounts Ex.store !! sender Ex.msg = Some Ex.alice
  /\ conversations Ex.store !! conversation Ex.msg = Some Ex.conv
  /\ exists rd,
       get_reply_to (F := Ex.fernet) (Some Ex.alice) Ex.answer Ex.store
       = (Ex.store, [], inr (Some rd))
       /\ rd_content rd = lit "hello".
Proof.
  assert (Hm : messages Ex.store !! lit "m1" = Some Ex.msg) by (vm_compute; reflexivity).
  assert (Ha : accounts Ex.store !! sender Ex.msg = Some Ex.alice)
    by (vm_compute; reflexivity).
  assert (Hc : conversations Ex.store !! conversation Ex.msg = Some Ex.conv)
    by (vm_compute; reflexivity).
  split; [reflexivity|]. split; [exact Hm|]. split; [exact Ha|]. split; [exact Hc|].
  destruct (reply_preview (F := Ex.fernet) (L := fernet_laws) (Some Ex.alice) Ex.answer
              Ex.msg (lit "m1") Ex.conv Ex.alice Ex.store eq_refl Hm Ha Hc)
    as (rd & Hrun & _ & _ & Hcontent & _).
  exists rd. split; [exact Hrun|]. rewrite Hcontent. vm_compute. reflexivity.
Defined.

Lemma example_accounts_keyed :
  forall k a, accounts Ex.store !! k = Some a -> acc_id a = k.
Proof.
  intros k a Ha. unfold Ex.store in Ha. cbn in Ha.
  apply lookup_insert_Some in Ha as [[<- <-]|[_ Ha]]; [reflexivity|].
  apply lookup_singleton_Some in Ha as [<- <-]. reflexivity.
Defined.

(** X21, the witness: [alice] asks for her conversation with [bob],
    which exists. *)
Lemma private_conversation_found_or_created_witness :
  accounts Ex.store !! lit "u2" = Some Ex.bob
  /\ (forall k c, conversations Ex.store !! k = Some c -> conversation_id c = k)
  /\ private_conversations Ex.store Ex.alice Ex.bob <> []
  /\ exists c,
       get_or_create_conversation Ex.env Ex.alice (lit "u2") Ex.store
       = (Ex.store, [], inr c)
       /\ c ∈ private_conversations Ex.store Ex.alice Ex.bob.
Proof.
  assert (Ho : accounts Ex.store !! lit "u2" = Some Ex.bob) by (vm_compute; reflexivity).
  assert (Hk : forall k c, conversations Ex.store !! k = Some c -> conversation_id c = k)
    by exact (ok_conversation_key Ex.store store_ok_example).
  assert (Hne : private_conversations Ex.store Ex.alice Ex.bob <> []).
  { intros Hnil.
    assert (Hin : Ex.conv ∈ private_conversations Ex.store Ex.alice Ex.bob).
    { unfold private_conversations. apply list_elem_of_fmap.
      exists (lit "c1", Ex.conv). split; [reflexivity|].
      apply elem_of_map_to_list, map_lookup_filter_Some.
      split; [vm_compute; reflexivity|]. cbn.
      split; [exact alice_in_conv|]. split; [reflexivity|].
      split; [exact bob_in_conv|vm_compute; reflexivity]. }
    rewrite Hnil in Hin. now apply not_elem_of_nil in Hin. }
  split; [exact Ho|]. split; [exact Hk|]. split; [exact Hne|].
  destruct (proj1 (private_conversation_found_or_created Ex.env Ex.env Ex.alice Ex.bob
                     (lit "u2") Ex.store Ho Hk) Hne)
    as (c & Hrun & Hin & _).
  exists c. split; [exact Hrun|exact Hin].
Defined.

(** X22, the witness: [alice] opens a group with [bob] and with an id
    that is no account. *)
Lemma created_conversation_participants_witness :
  (forall k a, accounts Ex.store !! k = Some a -> acc_id a = k)
  /\ conversations Ex.store !! uuid4 Ex.env = None
  /\ exists p,
       ConversationCreateSerializer_create Ex.env Ex.alice (Some (lit "team")) true
         [lit "u2"; lit "u7"] Ex.store
       = (set_conversations
            <[uuid4 Ex.env := new_conversation Ex.env Ex.alice (Some (lit "team")) true p]>
            Ex.store,
          [], inr (new_conversation Ex.env Ex.alice (Some (lit "team")) true p))
       /\ (lit "u2" ∈ p) /\ (lit "u7" ∉ p).
Proof.
  assert (Hfresh : conversations Ex.store !! uuid4 Ex.env = None)
    by (vm_compute; reflexivity).
  split; [exact example_accounts_keyed|]. split; [exact Hfresh|].
  destruct (proj1 (created_conversation_participants Ex.env Ex.alice (Some (lit "team"))
                     true [lit "u2"; lit "u7"] Ex.store example_accounts_keyed) Hfresh)
    as (p & Hrun & Hp).
  exists p. split; [exact Hrun|]. split.
  - apply Hp. right. split; [apply elem_of_cons; now left|].
    eexists. vm_compute. reflexivity.
  - intros Hin. apply Hp in Hin. destruct Hin as [Hu|[_ [a Ha]]].
    + vm_compute in Hu. discriminate Hu.
    + vm_compute in Ha. discriminate Ha.
Defined.

(** X23, the witness: [alice] marks the example conversation as
    read. *)
Lemma marking_read_clears_unread_witness :
  store_ok Ex.store
  /\ conversations Ex.store !! lit "c1" = Some Ex.conv
  /\ acc_id Ex.alice ∈ participants Ex.conv
  /\ (forall k m, messages Ex.store !! k = Some m -> conversation m = lit "c1" ->
                  is_deleted m = false /\ timestamp m <= now Ex.env)
  /\ (forall k r m, read_statuses Ex.store !! (k, acc_id Ex.alice) = Some r ->
                    messages Ex.store !! k = Some m -> timestamp m <= r)
  /\ get_unread_count (Some Ex.alice) Ex.conv
       (mark_messages_read Ex.env Ex.alice (lit "c1") Ex.store).1.1 = 0%nat.
Proof.
  assert (Hc : conversations Ex.store !! lit "c1" = Some Ex.conv)
    by (vm_compute; reflexivity).
  assert (Hm : forall k m, messages Ex.store !! k = Some m -> conversation m = lit "c1" ->
                           is_deleted m = false /\ timestamp m <= now Ex.env).
  { intros k m Hk _. unfold Ex.store in Hk. cbn in Hk.
    apply lookup_singleton_Some in Hk as [<- <-]. split; [reflexivity|]. cbn. lia. }
  assert (Hr : forall k r m, read_statuses Ex.store !! (k, acc_id Ex.alice) = Some r ->
                             messages Ex.store !! k = Some m -> timestamp m <= r).
  { intros k r m Hk _. unfold Ex.store in Hk. cbn in Hk.
    rewrite lookup_empty in Hk. discriminate Hk. }
  split; [exact store_ok_example|]. split; [exact Hc|]. split; [exact alice_in_conv|].
  split; [exact Hm|]. split; [exact Hr|].
  exact (marking_read_clears_unread Ex.env Ex.alice (lit "c1") Ex.conv Ex.store
           store_ok_example Hc alice_in_conv Hm Hr).
Defined.

(** X24, the witness: requests of [alice] on the example database. *)
Lemma rest_keeps_integrity_witness :
  store_ok Ex.store
  /\ is_Some (accounts Ex.store !! acc_id Ex.alice)
  /\ store_ok (delete_message Ex.env Ex.alice (lit "m1") Ex.store).1.1
  /\ store_ok (perform_create (F := Ex.fernet) (W := Ex.web) Ex.env Ex.alice (lit "c1") []
                 (lit "hi") (lit "text") None Ex.store).1.1.
Proof.
  assert (Hu : is_Some (accounts Ex.store !! acc_id Ex.alice))
    by (eexists; vm_compute; reflexivity).
  split; [exact store_ok_example|]. split; [exact Hu|].
  pose proof (rest_keeps_integrity (F := Ex.fernet) (W := Ex.web) Ex.env Ex.alice Ex.store
                store_ok_example Hu) as (Hcreate & Hdelete & _).
  split; [apply Hdelete|apply Hcreate].
Defined.

(** ** Sending a message without attachment *)


(** X26, the witness: [alice] connects, and her connection is
    disconnected a minute later; the event that says that she is
    offline carries her status as online since the handshake. *)
Lemma disconnect_announces_cached_status_witness :
  let s1 := (connect (W := Ex.web) Ex.env Ex.scope_alice (lit "chan.a1") Ex.store).1.1 in
  resolved (W := Ex.web) Ex.scope_alice Ex.store = Some Ex.alice
  /\ may_join Ex.store (lit "c1") (lit "u1")
  /\ is_Some (user_statuses s1 !! acc_id Ex.alice)
  /\ exists self s' ud,
       (connect (W := Ex.web) Ex.env Ex.scope_alice (lit "chan.a1") Ex.store).2 = inr self
       /\ disconnect (Ex.later 60000000) self s1
          = (s', [GroupDiscard (room_group_name self) (channel_name self);
                  GroupSend (room_group_name self)
                    (Ev_status_broadcast ud (lit "offline") (now (Ex.later 60000000)))],
             inr tt)
       /\ ud_status ud = (lit "online", Some (now Ex.env))
       /\ status <$> user_statuses s' !! acc_id Ex.alice = Some (lit "offline").
Proof.
  intros s1.
  assert (Hres : resolved (W := Ex.web) Ex.scope_alice Ex.store = Some Ex.alice)
    by (vm_compute; reflexivity).
  assert (Hjoin : may_join Ex.store (lit "c1") (lit "u1")).
  { exists Ex.conv. split; [vm_compute; reflexivity|].
    split; [exact alice_in_conv|vm_compute; reflexivity]. }
  assert (Hrow : is_Some (user_statuses s1 !! acc_id Ex.alice))
    by (eexists; vm_compute; reflexivity).
  split; [exact Hres|]. split; [exact Hjoin|]. split; [exact Hrow|].
  destruct (disconnect_announces_cached_status (W := Ex.web) Ex.env (Ex.later 60000000)
              Ex.scope_alice (lit "chan.a1") Ex.alice Ex.store s1 Hres Hjoin Hrow)
    as (s1' & es & self & us & Hrun & _ & _ & _ & _ & _ & s' & ud & Hdis & Hud & Hst).
  exists self, s', ud. split; [now rewrite Hrun|]. split; [exact Hdis|].
  split; [exact Hud|exact Hst].
Defined.
